(** * Connectivity eBPF programs: netd.c and dscpPolicy.c

    A shallow embedding of the two packet programs of [bpf_progs/]:
    the traffic accounting and uid firewall of [netd.c] and the DSCP
    policy matcher of [dscpPolicy.c].

    Conventions.
    - C integers are [Z]; every place where the C code can wrap or truncate
      writes the wrap-around out ([wrap]).
    - BPF hash maps are [gmap]s with an explicit capacity; BPF array maps are
      lists indexed from 0.  A lookup that returns NULL is [None].
    - A pointer returned by a lookup and then written through is an insert at
      the key that was looked up.
    - The target is little-endian (the only byte order Android runs on), so
      [htons]/[ntohs] are the 16-bit byte swap.
    - [__sync_fetch_and_add] is modelled sequentially. *)

From Stdlib Require Import ZArith Lia.
From Stdlib Require Strings.Byte.
From stdpp Require Import base gmap list.

Local Open Scope Z_scope.

(** ** Machine integers and byte order *)

Definition wrap (w : Z) (x : Z) : Z := x mod 2 ^ w.

Definition bswap16 (x : Z) : Z :=
  Z.lor (Z.shiftl (Z.land x 255) 8) (Z.land (Z.shiftr x 8) 255).

Definition bswap32 (x : Z) : Z :=
  Z.lor (Z.lor (Z.shiftl (Z.land x 255) 24)
               (Z.shiftl (Z.land (Z.shiftr x 8) 255) 16))
        (Z.lor (Z.shiftl (Z.land (Z.shiftr x 16) 255) 8)
               (Z.land (Z.shiftr x 24) 255)).

Definition htons (x : Z) : Z := bswap16 x.
Definition ntohs (x : Z) : Z := bswap16 x.
Definition htonl (x : Z) : Z := bswap32 x.

(** Linux uapi constants used by both programs. *)
Definition ETH_P_IP : Z := 2048.      (* 0x0800 *)
Definition ETH_P_IPV6 : Z := 34525.   (* 0x86DD *)
Definition IPPROTO_TCP : Z := 6.
Definition IPPROTO_UDP : Z := 17.
Definition IPPROTO_ESP : Z := 50.
Definition IPPROTO_UDPLITE : Z := 136.
Definition PACKET_HOST : Z := 0.
Definition TC_ACT_PIPE : Z := 3.

Definition sizeof_ethhdr : Z := 14.
Definition sizeof_iphdr : Z := 20.
Definition sizeof_ipv6hdr : Z := 40.
Definition sizeof_tcphdr : Z := 20.
Definition sizeof_udphdr : Z := 8.

(** ** The socket buffer *)

Module sk_buff.
(** [len], [pkt_type], [protocol] and [ifindex] are the fields of
    [struct __sk_buff] the programs read.  [data] holds the packet bytes
    from [skb->data] up to [skb->data_end]; [bpf_skb_load_bytes] reads the
    same bytes.  [cookie] and [uid] are what [bpf_get_socket_cookie] and
    [bpf_get_socket_uid] return for this buffer. *)
Record t := {
  len : Z;
  pkt_type : Z;
  protocol : Z;
  ifindex : Z;
  data : list Byte.byte;
  cookie : Z;
  uid : Z
}.
End sk_buff.

Definition byte_val (b : Byte.byte) : Z := Z.of_N (Byte.to_N b).

Definition byte_of_Z (x : Z) : Byte.byte :=
  match Byte.of_N (Z.to_N (wrap 8 x)) with
  | Some b => b
  | None => Byte.x00
  end.

(** Direct packet access at a checked offset. *)
Definition byte_at (d : list Byte.byte) (off : Z) : Z :=
  if off <? 0 then 0
  else match d !! Z.to_nat off with
       | Some b => byte_val b
       | None => 0
       end.

(** A [__be16] at [off], as the little-endian host loads it. *)
Definition load16 (d : list Byte.byte) (off : Z) : Z :=
  Z.lor (byte_at d off) (Z.shiftl (byte_at d (off + 1)) 8).

(** A 32-bit word at [off], as the little-endian host loads it. *)
Definition load32 (d : list Byte.byte) (off : Z) : Z :=
  Z.lor (load16 d off) (Z.shiftl (load16 d (off + 2)) 16).

(** [bpf_skb_load_bytes(skb, off, &b, 1)]: [None] is a non-zero return. *)
Definition bpf_skb_load_bytes (skb : sk_buff.t) (off : Z) : option Z :=
  if off <? 0 then None
  else byte_val <$> sk_buff.data skb !! Z.to_nat off.

(** [bpf_skb_store_bytes(skb, off, &b, 1, 0)]; out of range it fails and
    the packet is left as it was (the programs ignore the return value). *)
Definition bpf_skb_store_bytes (d : list Byte.byte) (off : Z) (b : Z)
  : list Byte.byte :=
  if off <? 0 then d else <[Z.to_nat off := byte_of_Z b]> d.

(** ** BPF maps *)

(** Hash map update with [BPF_NOEXIST]: fails when the key is there or the
    map is full. *)
Definition update_elem_NOEXIST `{Countable K} {V} (max_entries : nat)
    (m : gmap K V) (k : K) (v : V) : gmap K V :=
  match m !! k with
  | Some _ => m
  | None => if (size m <? max_entries)%nat then <[k := v]> m else m
  end.

(** Hash map update with [BPF_ANY]: replaces, or inserts when there is
    room. *)
Definition update_elem_ANY `{Countable K} {V} (max_entries : nat)
    (m : gmap K V) (k : K) (v : V) : gmap K V :=
  match m !! k with
  | Some _ => <[k := v]> m
  | None => if (size m <? max_entries)%nat then <[k := v]> m else m
  end.

(** Array map lookup: NULL outside [0 .. max_entries - 1]. *)
Definition array_lookup {V} (m : list V) (k : Z) : option V :=
  if k <? 0 then None else m !! Z.to_nat k.

(** ** Building packets for examples *)

Definition bytes_of (l : list Z) : list Byte.byte := map byte_of_Z l.

(** A minimal IPv4 header (version 4, ihl 5) with the given protocol
    byte, from 10.0.0.1 to 10.0.0.2. *)
Definition ipv4_header (proto : Z) : list Z :=
  [69; 0; 0; 40; 0; 0; 0; 0; 64; proto; 0; 0; 10; 0; 0; 1; 10; 0; 0; 2].

(** A TCP header from port 443 to port 4660 with the given flags byte. *)
Definition tcp_header (flags : Z) : list Z :=
  [1; 187; 18; 52; 0; 0; 0; 0; 0; 0; 0; 0; 80; flags; 0; 0; 0; 0; 0; 0].

(** A UDP header from port 443 to port 4660. *)
Definition udp_header : list Z := [1; 187; 18; 52; 0; 8; 0; 0].

(** An Ethernet header with the given EtherType. *)
Definition eth_header (ethertype : Z) : list Z :=
  [2; 0; 0; 0; 0; 1; 2; 0; 0; 0; 0; 2;
   Z.shiftr ethertype 8; Z.land ethertype 255].

(** A buffer with the given length, protocol, interface and bytes, owned
    by [uid] with socket cookie [cookie]. *)
Definition mk_skb (len protocol ifindex : Z) (data : list Byte.byte)
    (cookie uid : Z) : sk_buff.t :=
  {| sk_buff.len := len;
     sk_buff.pkt_type := PACKET_HOST;
     sk_buff.protocol := protocol;
     sk_buff.ifindex := ifindex;
     sk_buff.data := data;
     sk_buff.cookie := cookie;
     sk_buff.uid := uid |}.

(** * netd.c *)

Module Netd.

Definition BPF_DROP_UNLESS_DNS : Z := 2.
Definition BPF_PASS : Z := 1.
Definition BPF_DROP : Z := 0.

Definition BPF_NOMATCH : Z := 0.
Definition BPF_MATCH : Z := 1.

Definition BPF_EGRESS : Z := 0.
Definition BPF_INGRESS : Z := 1.

Definition IP_PROTO_OFF : Z := 9.     (* offsetof(struct iphdr, protocol) *)
Definition IPV6_PROTO_OFF : Z := 6.   (* offsetof(struct ipv6hdr, nexthdr) *)
Definition IPPROTO_IHL_OFF : Z := 0.
Definition TCP_FLAG_OFF : Z := 13.
Definition RST_OFFSET : Z := 2.

Definition TAG_SYSTEM_DNS : Z := 4294967170.   (* 0xFFFFFF82 *)

(** The code's own comment gives [AID_APP_START == 10000]. *)
Definition AID_APP_START : Z := 10000.

(** Modelled from the spec: [DEFAULT_CONFIG] is declared in bpf_shared.h,
    which is not among the sources.  The spec has "missing GlobalConfig =>
    treat all restrictions as disabled", and [getConfig] says "Assume
    everything is disabled": the empty bitmask. *)
Definition DEFAULT_CONFIG : Z := 0.

(** The other constants of bpf_shared.h (uids, configuration keys, the
    rule bits of [UidOwnerMatchType], map sizes) are not among the sources
    either and nothing fixes their values: the programs are parametric in
    them. *)
Class BpfShared := {
  AID_SYSTEM : Z;
  AID_CLAT : Z;
  AID_DNS : Z;
  UID_RULES_CONFIGURATION_KEY : Z;
  CURRENT_STATS_MAP_CONFIGURATION_KEY : Z;
  SELECT_MAP_A : Z;
  SELECT_MAP_B : Z;
  DOZABLE_MATCH : Z;
  STANDBY_MATCH : Z;
  POWERSAVE_MATCH : Z;
  RESTRICTED_MATCH : Z;
  LOW_POWER_STANDBY_MATCH : Z;
  IIF_MATCH : Z;
  LOCKDOWN_VPN_MATCH : Z;
  OEM_DENY_1_MATCH : Z;
  OEM_DENY_2_MATCH : Z;
  OEM_DENY_3_MATCH : Z;
  APP_STATS_MAP_SIZE : nat;
  STATS_MAP_SIZE : nat;
  IFACE_STATS_MAP_SIZE : nat
}.

Module StatsValue.
Record t := { rxPackets : Z; rxBytes : Z; txPackets : Z; txBytes : Z }.
Definition zero : t := Build_t 0 0 0 0.
End StatsValue.

Module UidTagValue.
Record t := { uid : Z; tag : Z }.
End UidTagValue.

Module UidOwnerValue.
Record t := { iif : Z; rule : Z }.
End UidOwnerValue.

Module StatsKey.
Record t := { uid : Z; tag : Z; counterSet : Z; ifaceIndex : Z }.

Definition to_tuple (k : t) : Z * Z * Z * Z :=
  (uid k, tag k, counterSet k, ifaceIndex k).
Definition of_tuple (p : Z * Z * Z * Z) : t :=
  let '(a, b, c, d) := p in Build_t a b c d.

#[global] Instance eq_dec : EqDecision t.
Proof. solve_decision. Defined.

#[global] Instance countable : Countable t :=
  inj_countable' to_tuple of_tuple
    (fun k => match k with Build_t _ _ _ _ => eq_refl end).
End StatsKey.

(** The maps of netd.c. *)
Record maps := {
  configuration_map : list Z;
  cookie_tag_map : gmap Z UidTagValue.t;
  uid_counterset_map : gmap Z Z;
  app_uid_stats_map : gmap Z StatsValue.t;
  stats_map_A : gmap StatsKey.t StatsValue.t;
  stats_map_B : gmap StatsKey.t StatsValue.t;
  iface_stats_map : gmap Z StatsValue.t;
  uid_owner_map : gmap Z UidOwnerValue.t;
  uid_permission_map : gmap Z Z
}.

Definition is_system_uid (uid : Z) : bool := uid <? AID_APP_START.

(** ** DEFINE_UPDATE_STATS *)

Definition mtu : Z := 1500.

(** The [packets] and [bytes] locals of [update_##the_stats_map] just
    before the counters are bumped.  [bytes], [payload] and [packets] are
    [uint64_t]; the [int] operands are converted to it. *)
Definition packetize (skb : sk_buff.t) : Z * Z :=
  let packets := 1 in
  let bytes := sk_buff.len skb in
  if bytes >? mtu then
    let is_ipv6 := sk_buff.protocol skb =? htons ETH_P_IPV6 in
    let ip_overhead := if is_ipv6 then sizeof_ipv6hdr else sizeof_iphdr in
    let tcp_overhead := ip_overhead + sizeof_tcphdr + 12 in
    let mss := mtu - tcp_overhead in
    let payload := wrap 64 (bytes - tcp_overhead) in
    let packets := wrap 64 (wrap 64 (payload + mss - 1) / mss) in
    let bytes := wrap 64 (wrap 64 (tcp_overhead * packets) + payload) in
    (packets, bytes)
  else (packets, bytes).

Definition add_tx (value : StatsValue.t) (packets bytes : Z) : StatsValue.t :=
  {| StatsValue.rxPackets := StatsValue.rxPackets value;
     StatsValue.rxBytes := StatsValue.rxBytes value;
     StatsValue.txPackets := wrap 64 (StatsValue.txPackets value + packets);
     StatsValue.txBytes := wrap 64 (StatsValue.txBytes value + bytes) |}.

Definition add_rx (value : StatsValue.t) (packets bytes : Z) : StatsValue.t :=
  {| StatsValue.rxPackets := wrap 64 (StatsValue.rxPackets value + packets);
     StatsValue.rxBytes := wrap 64 (StatsValue.rxBytes value + bytes);
     StatsValue.txPackets := StatsValue.txPackets value;
     StatsValue.txBytes := StatsValue.txBytes value |}.

(** [update_##the_stats_map(skb, direction, key)], for a map of capacity
    [max_entries]. *)
Definition update_stats `{Countable K} (max_entries : nat)
    (the_stats_map : gmap K StatsValue.t)
    (skb : sk_buff.t) (direction : Z) (key : K) : gmap K StatsValue.t :=
  let the_stats_map :=
    match the_stats_map !! key with
    | Some _ => the_stats_map
    | None => update_elem_NOEXIST max_entries the_stats_map key StatsValue.zero
    end in
  match the_stats_map !! key with
  | None => the_stats_map
  | Some value =>
      let '(packets, bytes) := packetize skb in
      if direction =? BPF_EGRESS then
        <[key := add_tx value packets bytes]> the_stats_map
      else if direction =? BPF_INGRESS then
        <[key := add_rx value packets bytes]> the_stats_map
      else the_stats_map
  end.

Section Programs.
Context `{BpfShared}.

Definition update_app_uid_stats_map (m : maps) (skb : sk_buff.t)
    (direction : Z) (key : Z) : maps :=
  {| configuration_map := configuration_map m;
     cookie_tag_map := cookie_tag_map m;
     uid_counterset_map := uid_counterset_map m;
     app_uid_stats_map :=
       update_stats APP_STATS_MAP_SIZE (app_uid_stats_map m) skb direction key;
     stats_map_A := stats_map_A m;
     stats_map_B := stats_map_B m;
     iface_stats_map := iface_stats_map m;
     uid_owner_map := uid_owner_map m;
     uid_permission_map := uid_permission_map m |}.

Definition update_iface_stats_map (m : maps) (skb : sk_buff.t)
    (direction : Z) (key : Z) : maps :=
  {| configuration_map := configuration_map m;
     cookie_tag_map := cookie_tag_map m;
     uid_counterset_map := uid_counterset_map m;
     app_uid_stats_map := app_uid_stats_map m;
     stats_map_A := stats_map_A m;
     stats_map_B := stats_map_B m;
     iface_stats_map :=
       update_stats IFACE_STATS_MAP_SIZE (iface_stats_map m) skb direction key;
     uid_owner_map := uid_owner_map m;
     uid_permission_map := uid_permission_map m |}.

Definition update_stats_map_A (m : maps) (skb : sk_buff.t)
    (direction : Z) (key : StatsKey.t) : maps :=
  {| configuration_map := configuration_map m;
     cookie_tag_map := cookie_tag_map m;
     uid_counterset_map := uid_counterset_map m;
     app_uid_stats_map := app_uid_stats_map m;
     stats_map_A :=
       update_stats STATS_MAP_SIZE (stats_map_A m) skb direction key;
     stats_map_B := stats_map_B m;
     iface_stats_map := iface_stats_map m;
     uid_owner_map := uid_owner_map m;
     uid_permission_map := uid_permission_map m |}.

Definition update_stats_map_B (m : maps) (skb : sk_buff.t)
    (direction : Z) (key : StatsKey.t) : maps :=
  {| configuration_map := configuration_map m;
     cookie_tag_map := cookie_tag_map m;
     uid_counterset_map := uid_counterset_map m;
     app_uid_stats_map := app_uid_stats_map m;
     stats_map_A := stats_map_A m;
     stats_map_B :=
       update_stats STATS_MAP_SIZE (stats_map_B m) skb direction key;
     iface_stats_map := iface_stats_map m;
     uid_owner_map := uid_owner_map m;
     uid_permission_map := uid_permission_map m |}.

Definition update_stats_with_config (m : maps) (skb : sk_buff.t)
    (direction : Z) (key : StatsKey.t) (selectedMap : Z) : maps :=
  if selectedMap =? SELECT_MAP_A then update_stats_map_A m skb direction key
  else if selectedMap =? SELECT_MAP_B then update_stats_map_B m skb direction key
  else m.

(** ** The uid firewall *)

(** C truth of an integer. *)
Definition truthy (x : Z) : bool := negb (x =? 0).

(** In the TCP branch of the IPv4 case the load of the first header byte
    cannot fail once the load at [IP_PROTO_OFF] has succeeded; the [None]
    arm below is there for totality only. *)
Definition skip_owner_match (skb : sk_buff.t) : bool :=
  if sk_buff.protocol skb =? htons ETH_P_IP then
    match bpf_skb_load_bytes skb IP_PROTO_OFF with
    | Some proto =>
        if proto =? IPPROTO_ESP then true
        else if proto =? IPPROTO_TCP then
          match bpf_skb_load_bytes skb IPPROTO_IHL_OFF with
          | Some ihl =>
              let ihl := Z.land ihl 15 in
              match bpf_skb_load_bytes skb (ihl * 4 + TCP_FLAG_OFF) with
              | Some flag => truthy (Z.land (Z.shiftr flag RST_OFFSET) 1)
              | None => false
              end
          | None => false
          end
        else false
    | None => false
    end
  else if sk_buff.protocol skb =? htons ETH_P_IPV6 then
    match bpf_skb_load_bytes skb IPV6_PROTO_OFF with
    | Some proto =>
        if proto =? IPPROTO_ESP then true
        else if proto =? IPPROTO_TCP then
          match bpf_skb_load_bytes skb (sizeof_ipv6hdr + TCP_FLAG_OFF) with
          | Some flag => truthy (Z.land (Z.shiftr flag RST_OFFSET) 1)
          | None => false
          end
        else false
    | None => false
    end
  else false.

Definition getConfig (m : maps) (configKey : Z) : Z :=
  match array_lookup (configuration_map m) configKey with
  | None => DEFAULT_CONFIG
  | Some config => config
  end.

(** Lines 210-212: the owner's rule bits and allowed interface, both 0
    when the uid has no entry. *)
Definition uidRules_of (m : maps) (uid : Z) : Z :=
  match uid_owner_map m !! uid with
  | Some uidEntry => UidOwnerValue.rule uidEntry
  | None => 0
  end.

Definition allowed_iif_of (m : maps) (uid : Z) : Z :=
  match uid_owner_map m !! uid with
  | Some uidEntry => UidOwnerValue.iif uidEntry
  | None => 0
  end.

(** The two shapes of the tests of lines 215-238:
    [(enabledRules & X) && !(uidRules & X)] and
    [(enabledRules & X) && (uidRules & X)]. *)
Definition allow_test (enabledRules uidRules X : Z) : bool :=
  truthy (Z.land enabledRules X) && negb (truthy (Z.land uidRules X)).

Definition deny_test (enabledRules uidRules X : Z) : bool :=
  truthy (Z.land enabledRules X) && truthy (Z.land uidRules X).

(** Lines 240-253, the tail of [bpf_owner_match]: it is reached when
    [enabledRules] is zero and when none of the eight tests under
    [if (enabledRules)] returns. *)
Definition iface_rules (skb : sk_buff.t) (direction uidRules allowed_iif : Z)
  : Z :=
  if (direction =? BPF_INGRESS) && negb (sk_buff.ifindex skb =? 1) then
    if truthy (Z.land uidRules IIF_MATCH) then
      if truthy allowed_iif && negb (sk_buff.ifindex skb =? allowed_iif)
      then BPF_DROP_UNLESS_DNS
      else BPF_PASS
    else if truthy (Z.land uidRules LOCKDOWN_VPN_MATCH) then
      BPF_DROP_UNLESS_DNS
    else BPF_PASS
  else BPF_PASS.

Definition bpf_owner_match (m : maps) (skb : sk_buff.t) (uid : Z)
    (direction : Z) : Z :=
  if skip_owner_match skb then BPF_PASS
  else if is_system_uid uid then BPF_PASS
  else
    let enabledRules := getConfig m UID_RULES_CONFIGURATION_KEY in
    let uidRules := uidRules_of m uid in
    let allowed_iif := allowed_iif_of m uid in
    if truthy enabledRules then
      if allow_test enabledRules uidRules DOZABLE_MATCH then BPF_DROP
      else if deny_test enabledRules uidRules STANDBY_MATCH then BPF_DROP
      else if allow_test enabledRules uidRules POWERSAVE_MATCH then BPF_DROP
      else if allow_test enabledRules uidRules RESTRICTED_MATCH then BPF_DROP
      else if allow_test enabledRules uidRules LOW_POWER_STANDBY_MATCH
      then BPF_DROP
      else if deny_test enabledRules uidRules OEM_DENY_1_MATCH then BPF_DROP
      else if deny_test enabledRules uidRules OEM_DENY_2_MATCH then BPF_DROP
      else if deny_test enabledRules uidRules OEM_DENY_3_MATCH then BPF_DROP
      else iface_rules skb direction uidRules allowed_iif
    else iface_rules skb direction uidRules allowed_iif.

(** ** Traffic accounting *)

(** Lines 266-276: the uid and tag of the socket's entry in
    [cookie_tag_map], or the socket's own uid and tag 0. *)
Definition tagged_uid (m : maps) (skb : sk_buff.t) : Z :=
  match cookie_tag_map m !! sk_buff.cookie skb with
  | Some utag => UidTagValue.uid utag
  | None => sk_buff.uid skb
  end.

Definition tagged_tag (m : maps) (skb : sk_buff.t) : Z :=
  match cookie_tag_map m !! sk_buff.cookie skb with
  | Some utag => UidTagValue.tag utag
  | None => 0
  end.

(** The test of line 281. *)
Definition is_clat (m : maps) (skb : sk_buff.t) : bool :=
  (sk_buff.uid skb =? AID_CLAT) || (tagged_uid m skb =? AID_CLAT).

(** The test of line 296. *)
Definition is_system_dns (m : maps) (skb : sk_buff.t) : bool :=
  (tagged_tag m skb =? TAG_SYSTEM_DNS) && (tagged_uid m skb =? AID_DNS).

(** [uid] after line 297: the uid the traffic is accounted to. *)
Definition accounted_uid (m : maps) (skb : sk_buff.t) : Z :=
  if is_system_dns m skb then sk_buff.uid skb else tagged_uid m skb.

(** [key] at line 306. *)
Definition stats_key (m : maps) (skb : sk_buff.t) : StatsKey.t :=
  let uid := accounted_uid m skb in
  {| StatsKey.uid := uid;
     StatsKey.tag := tagged_tag m skb;
     StatsKey.counterSet :=
       match uid_counterset_map m !! uid with
       | Some counterSet => wrap 32 counterSet
       | None => 0
       end;
     StatsKey.ifaceIndex := sk_buff.ifindex skb |}.

Definition clear_tag (key : StatsKey.t) : StatsKey.t :=
  {| StatsKey.uid := StatsKey.uid key;
     StatsKey.tag := 0;
     StatsKey.counterSet := StatsKey.counterSet key;
     StatsKey.ifaceIndex := StatsKey.ifaceIndex key |}.

Definition bpf_traffic_account (m : maps) (skb : sk_buff.t) (direction : Z)
  : Z * maps :=
  let sock_uid := sk_buff.uid skb in
  if is_clat m skb then (BPF_PASS, m)
  else
    let match_ := bpf_owner_match m skb sock_uid direction in
    if (direction =? BPF_EGRESS) && (match_ =? BPF_DROP) then (match_, m)
    else
      let match_ :=
        if is_system_dns m skb then
          if match_ =? BPF_DROP_UNLESS_DNS then BPF_PASS else match_
        else
          if match_ =? BPF_DROP_UNLESS_DNS then BPF_DROP else match_ in
      let uid := accounted_uid m skb in
      let key := stats_key m skb in
      match array_lookup (configuration_map m)
                         CURRENT_STATS_MAP_CONFIGURATION_KEY with
      | None => (Z.land match_ 1, m)
      | Some selectedMap =>
          let '(m, key) :=
            if truthy (StatsKey.tag key) then
              (update_stats_with_config m skb direction key selectedMap,
               clear_tag key)
            else (m, key) in
          let m := update_stats_with_config m skb direction key selectedMap in
          let m := update_app_uid_stats_map m skb direction uid in
          (Z.land match_ 1, m)
      end.

Definition bpf_cgroup_ingress (m : maps) (skb : sk_buff.t) : Z * maps :=
  bpf_traffic_account m skb BPF_INGRESS.

Definition bpf_cgroup_egress (m : maps) (skb : sk_buff.t) : Z * maps :=
  bpf_traffic_account m skb BPF_EGRESS.

Definition xt_bpf_egress_prog (m : maps) (skb : sk_buff.t) : Z * maps :=
  let sock_uid := sk_buff.uid skb in
  if sock_uid =? AID_CLAT then (BPF_NOMATCH, m)
  else if (sock_uid =? AID_SYSTEM)
          && match cookie_tag_map m !! sk_buff.cookie skb with
             | Some utag => UidTagValue.uid utag =? AID_CLAT
             | None => false
             end
  then (BPF_NOMATCH, m)
  else
    let key := sk_buff.ifindex skb in
    (BPF_MATCH, update_iface_stats_map m skb BPF_EGRESS key).

Definition xt_bpf_ingress_prog (m : maps) (skb : sk_buff.t) : Z * maps :=
  let key := sk_buff.ifindex skb in
  (BPF_MATCH, update_iface_stats_map m skb BPF_INGRESS key).

(** ** Vocabulary of the claims about the firewall *)

(** A bitmask has (one of) the bit(s) of a category. *)
Definition has_bit (mask category : Z) : Prop := Z.land mask category <> 0.

Definition allow_list_categories : list Z :=
  [DOZABLE_MATCH; POWERSAVE_MATCH; RESTRICTED_MATCH; LOW_POWER_STANDBY_MATCH].

Definition deny_list_categories : list Z :=
  [STANDBY_MATCH; OEM_DENY_1_MATCH; OEM_DENY_2_MATCH; OEM_DENY_3_MATCH].

(** Some allow-list category is enabled and the owner lacks its bit, or
    some deny-list category is enabled and the owner has its bit. *)
Definition category_drop (enabledRules uidRules : Z) : Prop :=
  (exists c, c ∈ allow_list_categories
             /\ has_bit enabledRules c /\ ~ has_bit uidRules c)
  \/ (exists c, c ∈ deny_list_categories
                /\ has_bit enabledRules c /\ has_bit uidRules c).

(** The interface restriction applies: the owner has the interface bit,
    a non-zero allowed interface, and the packet came in on another one. *)
Definition iif_mismatch (skb : sk_buff.t) (uidRules allowed_iif : Z) : Prop :=
  has_bit uidRules IIF_MATCH
  /\ allowed_iif <> 0 /\ sk_buff.ifindex skb <> allowed_iif.

(** The lockdown restriction applies: no interface bit, but the lockdown
    bit. *)
Definition lockdown_only (uidRules : Z) : Prop :=
  ~ has_bit uidRules IIF_MATCH /\ has_bit uidRules LOCKDOWN_VPN_MATCH.

(** An interface or lockdown condition applies to the packet. *)
Definition iface_condition (skb : sk_buff.t)
    (direction uidRules allowed_iif : Z) : Prop :=
  direction = BPF_INGRESS /\ sk_buff.ifindex skb <> 1
  /\ (iif_mismatch skb uidRules allowed_iif \/ lockdown_only uidRules).

(** The IP protocol of the packet is ESP: the protocol byte of the IPv4
    header, or the next-header byte of the IPv6 header. *)
Definition is_esp (skb : sk_buff.t) : Prop :=
  (sk_buff.protocol skb = htons ETH_P_IP
   /\ bpf_skb_load_bytes skb 9 = Some IPPROTO_ESP)
  \/ (sk_buff.protocol skb = htons ETH_P_IPV6
      /\ bpf_skb_load_bytes skb 6 = Some IPPROTO_ESP).

(** The packet is a TCP segment with RST set: bit 2 of the flags byte,
    byte 13 of the TCP header, which follows the IPv4 header of
    [ihl] 32-bit words or the 40 bytes of the IPv6 header. *)
Definition is_tcp_rst (skb : sk_buff.t) : Prop :=
  (sk_buff.protocol skb = htons ETH_P_IP
   /\ bpf_skb_load_bytes skb 9 = Some IPPROTO_TCP
   /\ exists vhl flags,
        bpf_skb_load_bytes skb 0 = Some vhl
        /\ bpf_skb_load_bytes skb (Z.land vhl 15 * 4 + 13) = Some flags
        /\ Z.testbit flags 2 = true)
  \/ (sk_buff.protocol skb = htons ETH_P_IPV6
      /\ bpf_skb_load_bytes skb 6 = Some IPPROTO_TCP
      /\ exists flags,
           bpf_skb_load_bytes skb (40 + 13) = Some flags
           /\ Z.testbit flags 2 = true).

(** The maps with another owner table. *)
Definition with_uid_owner_map (m : maps)
    (owners : gmap Z UidOwnerValue.t) : maps :=
  {| configuration_map := configuration_map m;
     cookie_tag_map := cookie_tag_map m;
     uid_counterset_map := uid_counterset_map m;
     app_uid_stats_map := app_uid_stats_map m;
     stats_map_A := stats_map_A m;
     stats_map_B := stats_map_B m;
     iface_stats_map := iface_stats_map m;
     uid_owner_map := owners;
     uid_permission_map := uid_permission_map m |}.

End Programs.

(** What the correction promises for a buffer of [len] bytes above the
    MTU and a per-segment [overhead]: [packets] is the payload divided by
    the segment size, rounded up, and [bytes] adds one overhead per
    segment to the payload. *)
Definition mtu_corrected (overhead len packets bytes : Z) : Prop :=
  let mss := 1500 - overhead in
  let payload := len - overhead in
  (packets - 1) * mss < payload <= packets * mss
  /\ bytes = overhead * packets + payload.

(** ** Vocabulary of the claims about recording *)

(** The counters a packet is added to: those of its slot, or zero when
    the slot is yet to be created. *)
Definition counters_before `{Countable K} (stats : gmap K StatsValue.t)
    (key : K) : StatsValue.t :=
  default StatsValue.zero (stats !! key).

(** The slot is in the table, or the table has room for it. *)
Definition slot_or_room `{Countable K} (max_entries : nat)
    (stats : gmap K StatsValue.t) (key : K) : Prop :=
  is_Some (stats !! key) \/ (size stats < max_entries)%nat.

(** [v] is [old] with [packets] and [bytes] more on the tx side, as 64-bit
    counters count, and the rx side as it was. *)
Definition tx_added (old v : StatsValue.t) (packets bytes : Z) : Prop :=
  StatsValue.txPackets v = (StatsValue.txPackets old + packets) mod 2 ^ 64
  /\ StatsValue.txBytes v = (StatsValue.txBytes old + bytes) mod 2 ^ 64
  /\ StatsValue.rxPackets v = StatsValue.rxPackets old
  /\ StatsValue.rxBytes v = StatsValue.rxBytes old.

(** The same on the rx side. *)
Definition rx_added (old v : StatsValue.t) (packets bytes : Z) : Prop :=
  StatsValue.rxPackets v = (StatsValue.rxPackets old + packets) mod 2 ^ 64
  /\ StatsValue.rxBytes v = (StatsValue.rxBytes old + bytes) mod 2 ^ 64
  /\ StatsValue.txPackets v = StatsValue.txPackets old
  /\ StatsValue.txBytes v = StatsValue.txBytes old.

(** After the update the slot [key] holds the counters it had in [stats]
    with the packet added on the tx (rx) side. *)
Definition tx_recorded `{Countable K} (stats stats' : gmap K StatsValue.t)
    (key : K) (packets bytes : Z) : Prop :=
  exists v, stats' !! key = Some v
            /\ tx_added (counters_before stats key) v packets bytes.

Definition rx_recorded `{Countable K} (stats stats' : gmap K StatsValue.t)
    (key : K) (packets bytes : Z) : Prop :=
  exists v, stats' !! key = Some v
            /\ rx_added (counters_before stats key) v packets bytes.

(** The slots a tagged packet may have to create in a buffer before its
    untagged slot: one when the packet has a tag and the tagged slot is
    not there yet. *)
Definition new_tagged_slots (stats : gmap StatsKey.t StatsValue.t)
    (key : StatsKey.t) : nat :=
  if StatsKey.tag key =? 0 then 0%nat
  else match stats !! key with Some _ => 0%nat | None => 1%nat end.

(** A buffer of capacity [max_entries] has an ingress packet recorded:
    under the packet's key when it has a tag, and under the key with the
    tag cleared, each when the slot is there or there is room for it. *)
Definition buffer_rx_recorded (max_entries : nat)
    (stats stats' : gmap StatsKey.t StatsValue.t) (key : StatsKey.t)
    (packets bytes : Z) : Prop :=
  (StatsKey.tag key <> 0 -> slot_or_room max_entries stats key ->
   rx_recorded stats stats' key packets bytes)
  /\ (is_Some (stats !! clear_tag key)
      \/ (size stats + new_tagged_slots stats key < max_entries)%nat ->
      rx_recorded stats stats' (clear_tag key) packets bytes).

(** An IPv6 packet whose TCP header, with RST set, comes behind one
    hop-by-hop options header of eight bytes: the fixed header names the
    options header (0) as its next header, the options header names TCP
    and gives its own length as 0 (eight bytes), and the flags byte is
    byte 13 of what follows. *)
Definition is_tcp_rst_behind_options (skb : sk_buff.t) : Prop :=
  sk_buff.protocol skb = htons ETH_P_IPV6
  /\ bpf_skb_load_bytes skb 6 = Some 0
  /\ bpf_skb_load_bytes skb 40 = Some IPPROTO_TCP
  /\ bpf_skb_load_bytes skb 41 = Some 0
  /\ exists flags,
       bpf_skb_load_bytes skb (40 + 8 + 13) = Some flags
       /\ Z.testbit flags 2 = true.

(** One concrete choice of the constants, with one bit per rule, to run
    the programs on examples. *)
Definition example_consts : BpfShared :=
  {| AID_SYSTEM := 1000;
     AID_CLAT := 1029;
     AID_DNS := 1051;
     UID_RULES_CONFIGURATION_KEY := 0;
     CURRENT_STATS_MAP_CONFIGURATION_KEY := 1;
     SELECT_MAP_A := 0;
     SELECT_MAP_B := 1;
     DOZABLE_MATCH := 4;
     STANDBY_MATCH := 8;
     POWERSAVE_MATCH := 16;
     RESTRICTED_MATCH := 32;
     LOW_POWER_STANDBY_MATCH := 64;
     IIF_MATCH := 128;
     LOCKDOWN_VPN_MATCH := 256;
     OEM_DENY_1_MATCH := 512;
     OEM_DENY_2_MATCH := 1024;
     OEM_DENY_3_MATCH := 2048;
     APP_STATS_MAP_SIZE := 16;
     STATS_MAP_SIZE := 16;
     IFACE_STATS_MAP_SIZE := 16 |}.

(** Maps with the given configuration, owner and tag tables and empty
    statistics. *)
Definition mk_maps (config : list Z) (owners : gmap Z UidOwnerValue.t)
    (tags : gmap Z UidTagValue.t) : maps :=
  {| configuration_map := config;
     cookie_tag_map := tags;
     uid_counterset_map := ∅;
     app_uid_stats_map := ∅;
     stats_map_A := ∅;
     stats_map_B := ∅;
     iface_stats_map := ∅;
     uid_owner_map := owners;
     uid_permission_map := ∅ |}.

(** Doze is enabled and buffer A is selected; uid 10001 has no entry. *)
Definition doze_maps : maps := mk_maps [4; 0] ∅ ∅.

(** No restriction is enabled; uid 10001 is held to interface 3. *)
Definition iif_maps : maps :=
  mk_maps [0; 0]
          {[ 10001 := {| UidOwnerValue.iif := 3; UidOwnerValue.rule := 128 |} ]}
          ∅.

(** Packets of uid 10001 on interface 2: UDP, ESP, and a TCP reset. *)
Definition udp_skb : sk_buff.t :=
  mk_skb 40 (htons ETH_P_IP) 2 (bytes_of (ipv4_header 17 ++ tcp_header 0))
         77 10001.

Definition esp_skb : sk_buff.t :=
  mk_skb 40 (htons ETH_P_IP) 2 (bytes_of (ipv4_header 50 ++ tcp_header 0))
         77 10001.

Definition rst_skb : sk_buff.t :=
  mk_skb 40 (htons ETH_P_IP) 2 (bytes_of (ipv4_header 6 ++ tcp_header 4))
         77 10001.

(** Standby is enabled and uid 10001 is on the standby list; doze is
    enabled and uid 10001 is exempted from it. *)
Definition standby_maps : maps :=
  mk_maps [8; 0]
          {[ 10001 := {| UidOwnerValue.iif := 0; UidOwnerValue.rule := 8 |} ]}
          ∅.

Definition doze_exempt_maps : maps :=
  mk_maps [4; 0]
          {[ 10001 := {| UidOwnerValue.iif := 0; UidOwnerValue.rule := 4 |} ]}
          ∅.

(** Doze is enabled, and the configuration has no entry for the
    statistics buffer selector (key 1). *)
Definition no_selector_maps : maps := mk_maps [4] ∅ ∅.

(** Doze is enabled and buffer A is selected; the per-app table and
    buffer A are full of other owners' slots. *)
Definition full_stats_maps : maps :=
  {| configuration_map := [4; 0];
     cookie_tag_map := ∅;
     uid_counterset_map := ∅;
     app_uid_stats_map :=
       list_to_map (map (fun i => (Z.of_nat i, StatsValue.zero)) (seq 0 16));
     stats_map_A :=
       list_to_map (map (fun i => (StatsKey.Build_t (Z.of_nat i) 0 0 0,
                                   StatsValue.zero)) (seq 0 16));
     stats_map_B := ∅;
     iface_stats_map := ∅;
     uid_owner_map := ∅;
     uid_permission_map := ∅ |}.

(** An IPv6 header from 2001:db8::1 to 2001:db8::2 with the given next
    header, and a hop-by-hop options header of eight bytes (one PadN
    option) with the given next header. *)
Definition ipv6_fixed_header (nexthdr : Z) : list Z :=
  [96; 0; 0; 0; 0; 28; nexthdr; 64;
   32; 1; 13; 184; 0; 0; 0; 0; 0; 0; 0; 0; 0; 0; 0; 1;
   32; 1; 13; 184; 0; 0; 0; 0; 0; 0; 0; 0; 0; 0; 0; 2].

Definition hop_by_hop_header (nexthdr : Z) : list Z :=
  [nexthdr; 0; 1; 4; 0; 0; 0; 0].

(** A TCP reset of uid 10001 over IPv6, behind a hop-by-hop options
    header. *)
Definition rst6_options_skb : sk_buff.t :=
  mk_skb 68 (htons ETH_P_IPV6) 2
         (bytes_of (ipv6_fixed_header 0 ++ hop_by_hop_header 6 ++ tcp_header 4))
         77 10001.

(** ** The other programs of netd.c *)

Definition TC_ACT_UNSPEC : Z := -1.

(** The code's own comment at line 420 gives
    [AID_USER_OFFSET == PER_USER_RANGE == 100000]. *)
Definition AID_USER_OFFSET : Z := 100000.

(** What these programs take from the headers that are not among the
    sources: two more rule bits and the permission bit of bpf_shared.h, and
    the [is_received_skb] helper of bpf_net_helpers.h.  The programs are
    parametric in them. *)
Class BpfHelpers := {
  HAPPY_BOX_MATCH : Z;
  PENALTY_BOX_MATCH : Z;
  BPF_PERMISSION_INTERNET : Z;
  is_received_skb : sk_buff.t -> bool
}.

Section MorePrograms.
Context `{BpfShared} `{BpfHelpers}.

Definition tc_bpf_ingress_account_prog (m : maps) (skb : sk_buff.t)
  : Z * maps :=
  if is_received_skb skb then
    let key := sk_buff.ifindex skb in
    (TC_ACT_UNSPEC, update_iface_stats_map m skb BPF_INGRESS key)
  else (TC_ACT_UNSPEC, m).

Definition xt_bpf_allowlist_prog (m : maps) (skb : sk_buff.t) : Z :=
  let sock_uid := sk_buff.uid skb in
  if is_system_uid sock_uid then BPF_MATCH
  else if (sock_uid =? 65534) && negb (truthy (sk_buff.cookie skb))
          && is_received_skb skb
  then BPF_MATCH
  else
    match uid_owner_map m !! sock_uid with
    | Some allowlistMatch =>
        if truthy (Z.land (UidOwnerValue.rule allowlistMatch) HAPPY_BOX_MATCH)
        then BPF_MATCH else BPF_NOMATCH
    | None => BPF_NOMATCH
    end.

Definition xt_bpf_denylist_prog (m : maps) (skb : sk_buff.t) : Z :=
  let sock_uid := sk_buff.uid skb in
  match uid_owner_map m !! sock_uid with
  | Some denylistMatch =>
      if truthy (Z.land (UidOwnerValue.rule denylistMatch) PENALTY_BOX_MATCH)
      then BPF_MATCH else BPF_NOMATCH
  | None => BPF_NOMATCH
  end.

(** [inet_socket_create], on what [bpf_get_current_uid_gid] returns: the
    gid in the upper and the uid in the lower 32 bits of a [uint64_t]. *)
Definition inet_socket_create (m : maps) (gid_uid : Z) : Z :=
  let appId := wrap 32 (Z.land gid_uid 4294967295 mod AID_USER_OFFSET) in
  match uid_permission_map m !! appId with
  | None => 1
  | Some permissions =>
      if Z.land permissions BPF_PERMISSION_INTERNET =? BPF_PERMISSION_INTERNET
      then 1 else 0
  end.

End MorePrograms.

(** One concrete choice of these constants; a buffer counts as received
    when its [pkt_type] is [PACKET_HOST]. *)
Definition example_helpers : BpfHelpers :=
  {| HAPPY_BOX_MATCH := 1;
     PENALTY_BOX_MATCH := 2;
     BPF_PERMISSION_INTERNET := 4;
     is_received_skb := fun skb => sk_buff.pkt_type skb =? PACKET_HOST |}.

(** The maps with other permission and per-interface tables. *)
Definition with_uid_permission_map (m : maps) (permissions : gmap Z Z) : maps :=
  {| configuration_map := configuration_map m;
     cookie_tag_map := cookie_tag_map m;
     uid_counterset_map := uid_counterset_map m;
     app_uid_stats_map := app_uid_stats_map m;
     stats_map_A := stats_map_A m;
     stats_map_B := stats_map_B m;
     iface_stats_map := iface_stats_map m;
     uid_owner_map := uid_owner_map m;
     uid_permission_map := permissions |}.

(** Two states agree on the tables that only the control plane writes. *)
Definition same_control_tables (m m' : maps) : Prop :=
  configuration_map m' = configuration_map m
  /\ cookie_tag_map m' = cookie_tag_map m
  /\ uid_counterset_map m' = uid_counterset_map m
  /\ uid_owner_map m' = uid_owner_map m
  /\ uid_permission_map m' = uid_permission_map m.

(** Of the statistics only the packet's slot of the per-interface table
    may differ. *)
Definition only_iface_slot (m : maps) (skb : sk_buff.t) (m' : maps) : Prop :=
  same_control_tables m m'
  /\ app_uid_stats_map m' = app_uid_stats_map m
  /\ stats_map_A m' = stats_map_A m
  /\ stats_map_B m' = stats_map_B m
  /\ forall i, i <> sk_buff.ifindex skb ->
               iface_stats_map m' !! i = iface_stats_map m !! i.

(** A buffer of [len] bytes of the given protocol, with no packet bytes. *)
Definition len_skb (len protocol : Z) : sk_buff.t :=
  mk_skb len protocol 2 [] 77 10001.

End Netd.

(** * dscpPolicy.c *)

Module Dscp.

Definition ECN_MASK : Z := 3.

(** [IP4_OFFSET(field, header)] for the two fields the program uses:
    [offsetof(struct iphdr, tos)] is 1 and [offsetof(struct iphdr, check)]
    is 10. *)
Definition IP4_OFFSET_tos (header : Z) : Z := header + 1.
Definition IP4_OFFSET_check (header : Z) : Z := header + 10.

Definition UPDATE_TOS (dscp tos : Z) : Z :=
  Z.lor (Z.shiftl dscp 2) (Z.land tos ECN_MASK).
Definition UPDATE_PRIORITY (dscp : Z) : Z := Z.shiftr dscp 2 + 96.
Definition UPDATE_FLOW_LABEL (dscp flow_lbl : Z) : Z :=
  Z.shiftl (Z.land dscp 15) 6 + Z.shiftr flow_lbl 6.

Module in6_addr.
(** [struct in6_addr] through its [s6_addr32] view. *)
Record t := { s6_addr32_0 : Z; s6_addr32_1 : Z; s6_addr32_2 : Z; s6_addr32_3 : Z }.
Definition zero : t := Build_t 0 0 0 0.
End in6_addr.

(** Modelled from the spec: the [v6_equal] macro is declared in
    dscpPolicy.h, which is not among the sources.  The spec compares the
    128-bit addresses for equality ("all other fields are exact
    equality", addresses "normalized to 128 bits"): all four words agree. *)
Definition v6_equal (a b : in6_addr.t) : bool :=
  (in6_addr.s6_addr32_0 a =? in6_addr.s6_addr32_0 b)
  && (in6_addr.s6_addr32_1 a =? in6_addr.s6_addr32_1 b)
  && (in6_addr.s6_addr32_2 a =? in6_addr.s6_addr32_2 b)
  && (in6_addr.s6_addr32_3 a =? in6_addr.s6_addr32_3 b).

(** The constants of dscpPolicy.h are not among the sources and nothing
    fixes their values: the program is parametric in them. *)
Class DscpPolicyH := {
  MAX_POLICIES : nat;
  MAP_A : Z;
  SRC_IP_MASK_FLAG : Z;
  DST_IP_MASK_FLAG : Z;
  SRC_PORT_MASK_FLAG : Z;
  DST_PORT_MASK_FLAG : Z;
  PROTO_MASK_FLAG : Z
}.

Module RuleEntry.
(** The fields of [RuleEntry] the program reads and writes. *)
Record t := {
  src_ip : in6_addr.t;
  dst_ip : in6_addr.t;
  ifindex : Z;
  src_port : Z;
  dst_port : Z;
  proto : Z;
  dscp_val : Z
}.
End RuleEntry.

Module DscpPolicy.
(** The fields of [DscpPolicy] the program reads. *)
Record t := {
  src_ip : in6_addr.t;
  dst_ip : in6_addr.t;
  ifindex : Z;
  src_port : Z;
  dst_port_start : Z;
  dst_port_end : Z;
  proto : Z;
  dscp_val : Z;
  present_fields : Z
}.
End DscpPolicy.

(** The maps of dscpPolicy.c. *)
Record maps := {
  switch_comp_map : list Z;
  ipv4_socket_to_policies_map_A : gmap Z RuleEntry.t;
  ipv4_socket_to_policies_map_B : gmap Z RuleEntry.t;
  ipv6_socket_to_policies_map_A : gmap Z RuleEntry.t;
  ipv6_socket_to_policies_map_B : gmap Z RuleEntry.t;
  ipv4_dscp_policies_map : list DscpPolicy.t;
  ipv6_dscp_policies_map : list DscpPolicy.t
}.

(** The locals of [match_policy] that the header parse fills in. *)
Module pkt.
Record t := {
  hdr_size : Z;
  src_ip : in6_addr.t;
  dst_ip : in6_addr.t;
  protocol : Z;
  tos : Z;
  priority : Z;
  flow_lbl : Z;
  sport : Z;
  dport : Z
}.
End pkt.

Definition set_data (skb : sk_buff.t) (d : list Byte.byte) : sk_buff.t :=
  {| sk_buff.len := sk_buff.len skb;
     sk_buff.pkt_type := sk_buff.pkt_type skb;
     sk_buff.protocol := sk_buff.protocol skb;
     sk_buff.ifindex := sk_buff.ifindex skb;
     sk_buff.data := d;
     sk_buff.cookie := sk_buff.cookie skb;
     sk_buff.uid := sk_buff.uid skb |}.

(** ** Kernel helper: bpf_l3_csum_replace with a 2-byte field

    After the kernel's [csum_replace2], which follows RFC 1624: the 16-bit
    checksum [HC] at [off] becomes [~(~HC + ~from + to)] in one's-complement
    arithmetic.  Out of range the helper fails and changes nothing. *)

Definition csum16_add (csum addend : Z) : Z :=
  let res := wrap 16 (csum + addend) in
  wrap 16 (res + (if res <? addend then 1 else 0)).

Definition csum16_sub (csum addend : Z) : Z :=
  csum16_add csum (wrap 16 (Z.lnot addend)).

Definition csum_replace2 (sum old new : Z) : Z :=
  wrap 16 (Z.lnot (csum16_add (csum16_sub (wrap 16 (Z.lnot sum)) old) new)).

Definition bpf_l3_csum_replace (d : list Byte.byte) (off from to : Z)
  : list Byte.byte :=
  if (off <? 0) || (Z.of_nat (length d) <? off + 2) then d
  else
    let sum := csum_replace2 (load16 d off) (wrap 16 from) (wrap 16 to) in
    bpf_skb_store_bytes (bpf_skb_store_bytes d off (Z.land sum 255))
                        (off + 1) (Z.shiftr sum 8).

(** ** Header fields read through the packet pointers

    [struct iphdr] and [struct ipv6hdr] keep the version in the high nibble
    of the first byte; [ihl], respectively [priority], is the low nibble. *)

Definition iph_version (d : list Byte.byte) (iph : Z) : Z :=
  Z.shiftr (byte_at d iph) 4.
Definition iph_ihl (d : list Byte.byte) (iph : Z) : Z :=
  Z.land (byte_at d iph) 15.
Definition iph_tos (d : list Byte.byte) (iph : Z) : Z := byte_at d (iph + 1).
Definition iph_protocol (d : list Byte.byte) (iph : Z) : Z :=
  byte_at d (iph + 9).
Definition iph_saddr (d : list Byte.byte) (iph : Z) : Z := load32 d (iph + 12).
Definition iph_daddr (d : list Byte.byte) (iph : Z) : Z := load32 d (iph + 16).

Definition ip6h_version (d : list Byte.byte) (ip6h : Z) : Z :=
  Z.shiftr (byte_at d ip6h) 4.
Definition ip6h_priority (d : list Byte.byte) (ip6h : Z) : Z :=
  Z.land (byte_at d ip6h) 15.
Definition ip6h_flow_lbl_0 (d : list Byte.byte) (ip6h : Z) : Z :=
  byte_at d (ip6h + 1).
Definition ip6h_nexthdr (d : list Byte.byte) (ip6h : Z) : Z :=
  byte_at d (ip6h + 6).

Definition load_in6_addr (d : list Byte.byte) (off : Z) : in6_addr.t :=
  {| in6_addr.s6_addr32_0 := load32 d off;
     in6_addr.s6_addr32_1 := load32 d (off + 4);
     in6_addr.s6_addr32_2 := load32 d (off + 8);
     in6_addr.s6_addr32_3 := load32 d (off + 12) |}.

Definition ip6h_saddr (d : list Byte.byte) (ip6h : Z) : in6_addr.t :=
  load_in6_addr d (ip6h + 8).
Definition ip6h_daddr (d : list Byte.byte) (ip6h : Z) : in6_addr.t :=
  load_in6_addr d (ip6h + 24).

(** [udp->source]/[tcp->source] and [udp->dest]/[tcp->dest]: the first two
    [__be16] of either transport header. *)
Definition l4_source (d : list Byte.byte) (l4 : Z) : Z := load16 d l4.
Definition l4_dest (d : list Byte.byte) (l4 : Z) : Z := load16 d (l4 + 2).

(** An IPv4 address as the v4-mapped [in6_addr] of lines 98-104. *)
Definition v4_mapped (addr : Z) : in6_addr.t :=
  {| in6_addr.s6_addr32_0 := 0;
     in6_addr.s6_addr32_1 := 0;
     in6_addr.s6_addr32_2 := htonl 65535;
     in6_addr.s6_addr32_3 := addr |}.

(** ** match_policy, the header parse (lines 86-140)

    [None] is one of the [return]s of the parse.  [data_end - data] is the
    length of [d]. *)

Definition parse_ip (d : list Byte.byte) (ipv4 : bool) (l2_header_size : Z)
  : option pkt.t :=
  let data_len := Z.of_nat (length d) in
  if ipv4 then
    let iph := l2_header_size in
    let hdr_size := l2_header_size + sizeof_iphdr in
    if hdr_size >? data_len then None
    else if negb (iph_version d iph =? 4) then None
    else if negb (iph_ihl d iph =? 5) then None
    else Some {| pkt.hdr_size := hdr_size;
                 pkt.src_ip := v4_mapped (iph_saddr d iph);
                 pkt.dst_ip := v4_mapped (iph_daddr d iph);
                 pkt.protocol := iph_protocol d iph;
                 pkt.tos := iph_tos d iph;
                 pkt.priority := 0;
                 pkt.flow_lbl := 0;
                 pkt.sport := 0;
                 pkt.dport := 0 |}
  else
    let ip6h := l2_header_size in
    let hdr_size := l2_header_size + sizeof_ipv6hdr in
    if hdr_size >? data_len then None
    else if negb (ip6h_version d ip6h =? 6) then None
    else Some {| pkt.hdr_size := hdr_size;
                 pkt.src_ip := ip6h_saddr d ip6h;
                 pkt.dst_ip := ip6h_daddr d ip6h;
                 pkt.protocol := ip6h_nexthdr d ip6h;
                 pkt.tos := 0;
                 pkt.priority := ip6h_priority d ip6h;
                 pkt.flow_lbl := ip6h_flow_lbl_0 d ip6h;
                 pkt.sport := 0;
                 pkt.dport := 0 |}.

Definition set_ports (p : pkt.t) (sport dport : Z) : pkt.t :=
  {| pkt.hdr_size := pkt.hdr_size p;
     pkt.src_ip := pkt.src_ip p;
     pkt.dst_ip := pkt.dst_ip p;
     pkt.protocol := pkt.protocol p;
     pkt.tos := pkt.tos p;
     pkt.priority := pkt.priority p;
     pkt.flow_lbl := pkt.flow_lbl p;
     pkt.sport := sport;
     pkt.dport := dport |}.

(** The [switch (protocol)]. *)
Definition parse_transport (d : list Byte.byte) (p : pkt.t) : option pkt.t :=
  let data_len := Z.of_nat (length d) in
  let protocol := pkt.protocol p in
  if (protocol =? IPPROTO_UDP) || (protocol =? IPPROTO_UDPLITE) then
    let udp := pkt.hdr_size p in
    if udp + sizeof_udphdr >? data_len then None
    else Some (set_ports p (l4_source d udp) (l4_dest d udp))
  else if protocol =? IPPROTO_TCP then
    let tcp := pkt.hdr_size p in
    if tcp + sizeof_tcphdr >? data_len then None
    else Some (set_ports p (l4_source d tcp) (l4_dest d tcp))
  else None.

Section Program.
Context `{DscpPolicyH}.

(** ** match_policy, the flow cache (lines 142-173) *)

Definition socket_to_policies_lookup (m : maps) (ipv4 : bool)
    (selected_map cookie : Z) : option RuleEntry.t :=
  if ipv4 then
    if selected_map =? MAP_A then ipv4_socket_to_policies_map_A m !! cookie
    else ipv4_socket_to_policies_map_B m !! cookie
  else
    if selected_map =? MAP_A then ipv6_socket_to_policies_map_A m !! cookie
    else ipv6_socket_to_policies_map_B m !! cookie.

(** The six comparisons that follow [existing_rule &&] at line 157. *)
Definition rule_matches_packet (existing_rule : RuleEntry.t)
    (skb : sk_buff.t) (p : pkt.t) : bool :=
  v6_equal (pkt.src_ip p) (RuleEntry.src_ip existing_rule)
  && v6_equal (pkt.dst_ip p) (RuleEntry.dst_ip existing_rule)
  && (sk_buff.ifindex skb =? RuleEntry.ifindex existing_rule)
  && (ntohs (pkt.sport p) =? htons (RuleEntry.src_port existing_rule))
  && (ntohs (pkt.dport p) =? htons (RuleEntry.dst_port existing_rule))
  && (pkt.protocol p =? RuleEntry.proto existing_rule).

(** The body of that [if]: the cached value is written into the packet. *)
Definition apply_existing_rule (existing_rule : RuleEntry.t)
    (skb : sk_buff.t) (ipv4 : bool) (l2_header_size : Z) (p : pkt.t)
  : sk_buff.t :=
  let d := sk_buff.data skb in
  if ipv4 then
    let newTos := wrap 8 (UPDATE_TOS (RuleEntry.dscp_val existing_rule)
                                     (pkt.tos p)) in
    let d := bpf_l3_csum_replace d (IP4_OFFSET_check l2_header_size)
                                 (htons (pkt.tos p)) (htons newTos) in
    let d := bpf_skb_store_bytes d (IP4_OFFSET_tos l2_header_size) newTos in
    set_data skb d
  else
    let new_priority :=
      wrap 8 (UPDATE_PRIORITY (RuleEntry.dscp_val existing_rule)) in
    let new_flow_label :=
      wrap 8 (UPDATE_FLOW_LABEL (RuleEntry.dscp_val existing_rule)
                                (pkt.flow_lbl p)) in
    let d := bpf_skb_store_bytes d (0 + l2_header_size) new_priority in
    let d := bpf_skb_store_bytes d (1 + l2_header_size) new_flow_label in
    set_data skb d.

(** ** match_policy, the linear scan (lines 175-228) *)

Definition dscp_policies_lookup (m : maps) (ipv4 : bool) (key : Z)
  : option DscpPolicy.t :=
  if ipv4 then array_lookup (ipv4_dscp_policies_map m) key
  else array_lookup (ipv6_dscp_policies_map m) key.

(** One of the five [if]s of lines 197-222: [score++] and
    [temp_mask |= flag] when the field is declared and matches. *)
Definition bump (declared_and_equal : bool) (flag : Z) (acc : Z * Z) : Z * Z :=
  let '(score, temp_mask) := acc in
  if declared_and_equal then (score + 1, wrap 8 (Z.lor temp_mask flag))
  else acc.

Definition declared (policy : DscpPolicy.t) (flag : Z) : bool :=
  Z.land (DscpPolicy.present_fields policy) flag =? flag.

Definition src_ip_equal (policy : DscpPolicy.t) (p : pkt.t) : bool :=
  v6_equal (pkt.src_ip p) (DscpPolicy.src_ip policy).
Definition dst_ip_equal (policy : DscpPolicy.t) (p : pkt.t) : bool :=
  v6_equal (pkt.dst_ip p) (DscpPolicy.dst_ip policy).
Definition src_port_equal (policy : DscpPolicy.t) (p : pkt.t) : bool :=
  ntohs (pkt.sport p) =? htons (DscpPolicy.src_port policy).
Definition dst_port_in_range (policy : DscpPolicy.t) (p : pkt.t) : bool :=
  (ntohs (pkt.dport p) >=? htons (DscpPolicy.dst_port_start policy))
  && (ntohs (pkt.dport p) <=? htons (DscpPolicy.dst_port_end policy)).
Definition proto_equal (policy : DscpPolicy.t) (p : pkt.t) : bool :=
  pkt.protocol p =? DscpPolicy.proto policy.

(** [score] and [temp_mask] at line 224. *)
Definition score_policy (policy : DscpPolicy.t) (p : pkt.t) : Z * Z :=
  let acc := (0, 0) in
  let acc := bump (declared policy SRC_IP_MASK_FLAG && src_ip_equal policy p)
                  SRC_IP_MASK_FLAG acc in
  let acc := bump (declared policy DST_IP_MASK_FLAG && dst_ip_equal policy p)
                  DST_IP_MASK_FLAG acc in
  let acc := bump (declared policy SRC_PORT_MASK_FLAG
                   && src_port_equal policy p)
                  SRC_PORT_MASK_FLAG acc in
  let acc := bump (declared policy DST_PORT_MASK_FLAG
                   && dst_port_in_range policy p)
                  DST_PORT_MASK_FLAG acc in
  let acc := bump (declared policy PROTO_MASK_FLAG && proto_equal policy p)
                  PROTO_MASK_FLAG acc in
  acc.

(** One iteration of the [for] loop on [(best_score, best_match)]. *)
Definition scan_step (m : maps) (skb : sk_buff.t) (ipv4 : bool) (p : pkt.t)
    (best : Z * Z) (i : nat) : Z * Z :=
  let '(best_score, best_match) := best in
  let key := Z.of_nat i in
  match dscp_policies_lookup m ipv4 key with
  | None => best
  | Some policy =>
      if (DscpPolicy.present_fields policy =? 0)
         || negb (DscpPolicy.ifindex policy =? sk_buff.ifindex skb)
      then best
      else
        let '(score, temp_mask) := score_policy policy p in
        if (score >? best_score)
           && (temp_mask =? DscpPolicy.present_fields policy)
        then (score, Z.of_nat i)
        else best
  end.

(** The whole loop: [i] runs over [0 .. MAX_POLICIES - 1], starting from
    [best_score = -1] and [best_match = 0]. *)
Definition scan_policies (m : maps) (skb : sk_buff.t) (ipv4 : bool)
    (p : pkt.t) : Z * Z :=
  fold_left (scan_step m skb ipv4 p) (seq 0 MAX_POLICIES) (-1, 0).

(** ** match_policy, the slow path after the scan (lines 230-287) *)

Definition socket_to_policies_update (m : maps) (ipv4 : bool)
    (selected_map cookie : Z) (value : RuleEntry.t) : maps :=
  if ipv4 then
    if selected_map =? MAP_A then
      {| switch_comp_map := switch_comp_map m;
         ipv4_socket_to_policies_map_A :=
           update_elem_ANY MAX_POLICIES (ipv4_socket_to_policies_map_A m)
                           cookie value;
         ipv4_socket_to_policies_map_B := ipv4_socket_to_policies_map_B m;
         ipv6_socket_to_policies_map_A := ipv6_socket_to_policies_map_A m;
         ipv6_socket_to_policies_map_B := ipv6_socket_to_policies_map_B m;
         ipv4_dscp_policies_map := ipv4_dscp_policies_map m;
         ipv6_dscp_policies_map := ipv6_dscp_policies_map m |}
    else
      {| switch_comp_map := switch_comp_map m;
         ipv4_socket_to_policies_map_A := ipv4_socket_to_policies_map_A m;
         ipv4_socket_to_policies_map_B :=
           update_elem_ANY MAX_POLICIES (ipv4_socket_to_policies_map_B m)
                           cookie value;
         ipv6_socket_to_policies_map_A := ipv6_socket_to_policies_map_A m;
         ipv6_socket_to_policies_map_B := ipv6_socket_to_policies_map_B m;
         ipv4_dscp_policies_map := ipv4_dscp_policies_map m;
         ipv6_dscp_policies_map := ipv6_dscp_policies_map m |}
  else
    if selected_map =? MAP_A then
      {| switch_comp_map := switch_comp_map m;
         ipv4_socket_to_policies_map_A := ipv4_socket_to_policies_map_A m;
         ipv4_socket_to_policies_map_B := ipv4_socket_to_policies_map_B m;
         ipv6_socket_to_policies_map_A :=
           update_elem_ANY MAX_POLICIES (ipv6_socket_to_policies_map_A m)
                           cookie value;
         ipv6_socket_to_policies_map_B := ipv6_socket_to_policies_map_B m;
         ipv4_dscp_policies_map := ipv4_dscp_policies_map m;
         ipv6_dscp_policies_map := ipv6_dscp_policies_map m |}
    else
      {| switch_comp_map := switch_comp_map m;
         ipv4_socket_to_policies_map_A := ipv4_socket_to_policies_map_A m;
         ipv4_socket_to_policies_map_B := ipv4_socket_to_policies_map_B m;
         ipv6_socket_to_policies_map_A := ipv6_socket_to_policies_map_A m;
         ipv6_socket_to_policies_map_B :=
           update_elem_ANY MAX_POLICIES (ipv6_socket_to_policies_map_B m)
                           cookie value;
         ipv4_dscp_policies_map := ipv4_dscp_policies_map m;
         ipv6_dscp_policies_map := ipv6_dscp_policies_map m |}.

(** From [int best_score = -1] to the final [return]: the scan, the second
    lookup of the winner, the store into the flow cache and the rewrite of
    the packet. *)
Definition match_by_scan (m : maps) (skb : sk_buff.t) (ipv4 : bool)
    (l2_header_size selected_map cookie : Z) (p : pkt.t) : maps * sk_buff.t :=
  let '(best_score, best_match) := scan_policies m skb ipv4 p in
  if best_score >? 0 then
    let policy := dscp_policies_lookup m ipv4 best_match in
    let new_dscp :=
      match policy with
      | Some pol => wrap 8 (DscpPolicy.dscp_val pol)
      | None => 0
      end in
    let new_tos :=
      match policy with
      | Some _ => if ipv4 then wrap 8 (UPDATE_TOS new_dscp (pkt.tos p)) else 0
      | None => 0
      end in
    let new_priority :=
      match policy with
      | Some _ => if ipv4 then 0 else wrap 8 (UPDATE_PRIORITY new_dscp)
      | None => 0
      end in
    let new_flow_lbl :=
      match policy with
      | Some _ =>
          if ipv4 then 0
          else wrap 8 (UPDATE_FLOW_LABEL new_dscp (pkt.flow_lbl p))
      | None => 0
      end in
    let value := {| RuleEntry.src_ip := pkt.src_ip p;
                    RuleEntry.dst_ip := pkt.dst_ip p;
                    RuleEntry.ifindex := sk_buff.ifindex skb;
                    RuleEntry.src_port := pkt.sport p;
                    RuleEntry.dst_port := pkt.dport p;
                    RuleEntry.proto := pkt.protocol p;
                    RuleEntry.dscp_val := new_dscp |} in
    let m := socket_to_policies_update m ipv4 selected_map cookie value in
    let d := sk_buff.data skb in
    if ipv4 && negb (new_tos =? Z.land (pkt.tos p) 252) then
      let d := bpf_l3_csum_replace d (IP4_OFFSET_check l2_header_size)
                                   (htons (pkt.tos p)) (htons new_tos) in
      let d := bpf_skb_store_bytes d (IP4_OFFSET_tos l2_header_size) new_tos in
      (m, set_data skb d)
    else if negb ipv4
            && (negb (new_priority =? pkt.priority p)
                || negb (new_flow_lbl =? pkt.flow_lbl p)) then
      let d := bpf_skb_store_bytes d l2_header_size new_priority in
      let d := bpf_skb_store_bytes d (l2_header_size + 1) new_flow_lbl in
      (m, set_data skb d)
    else (m, skb)
  else (m, skb).

(** ** match_policy *)

Definition match_policy (m : maps) (skb : sk_buff.t) (ipv4 is_eth : bool)
  : maps * sk_buff.t :=
  let d := sk_buff.data skb in
  let data_len := Z.of_nat (length d) in
  let l2_header_size := if is_eth then sizeof_ethhdr else 0 in
  if l2_header_size >? data_len then (m, skb)
  else
    match array_lookup (switch_comp_map m) 0 with
    | None => (m, skb)
    | Some selected_map =>
        let cookie := sk_buff.cookie skb in
        if cookie =? 0 then (m, skb)
        else
          match parse_ip d ipv4 l2_header_size with
          | None => (m, skb)
          | Some p =>
              match parse_transport d p with
              | None => (m, skb)
              | Some p =>
                  let existing_rule :=
                    socket_to_policies_lookup m ipv4 selected_map cookie in
                  match existing_rule with
                  | Some existing_rule =>
                      if rule_matches_packet existing_rule skb p then
                        (m, apply_existing_rule existing_rule skb ipv4
                                                l2_header_size p)
                      else match_by_scan m skb ipv4 l2_header_size
                                         selected_map cookie p
                  | None => match_by_scan m skb ipv4 l2_header_size
                                          selected_map cookie p
                  end
              end
          end
    end.

Definition schedcls_set_dscp_ether (m : maps) (skb : sk_buff.t)
  : Z * (maps * sk_buff.t) :=
  if negb (sk_buff.pkt_type skb =? PACKET_HOST) then (TC_ACT_PIPE, (m, skb))
  else if sk_buff.protocol skb =? htons ETH_P_IP then
    (TC_ACT_PIPE, match_policy m skb true true)
  else if sk_buff.protocol skb =? htons ETH_P_IPV6 then
    (TC_ACT_PIPE, match_policy m skb false true)
  else (TC_ACT_PIPE, (m, skb)).

(** ** Vocabulary of the claims about the matcher *)

(** What [match_by_scan] goes on with: the index of the winner of the
    scan when [best_score > 0]. *)
Definition selected_policy (m : maps) (skb : sk_buff.t) (ipv4 : bool)
    (p : pkt.t) : option Z :=
  let '(best_score, best_match) := scan_policies m skb ipv4 p in
  if best_score >? 0 then Some best_match else None.

(** Rule [i] takes part in the comparison of line 224 and passes its
    second conjunct: it is in the table, its mask is not zero, its
    interface is the packet's, and the fields that matched are all the
    fields it declares. *)
Definition eligible (m : maps) (skb : sk_buff.t) (ipv4 : bool) (p : pkt.t)
    (i : nat) : bool :=
  (i <? MAX_POLICIES)%nat
  && match dscp_policies_lookup m ipv4 (Z.of_nat i) with
     | None => false
     | Some policy =>
         negb (DscpPolicy.present_fields policy =? 0)
         && (DscpPolicy.ifindex policy =? sk_buff.ifindex skb)
         && (snd (score_policy policy p) =? DscpPolicy.present_fields policy)
     end.

(** The score the scan computes for rule [i]. *)
Definition score_at (m : maps) (ipv4 : bool) (p : pkt.t) (i : nat) : Z :=
  match dscp_policies_lookup m ipv4 (Z.of_nat i) with
  | None => 0
  | Some policy => fst (score_policy policy p)
  end.

(** The five fields of a rule: the flag that declares the field, and
    whether the packet satisfies it. *)
Definition field_tests (policy : DscpPolicy.t) (p : pkt.t) : list (Z * bool) :=
  [(SRC_IP_MASK_FLAG, src_ip_equal policy p);
   (DST_IP_MASK_FLAG, dst_ip_equal policy p);
   (SRC_PORT_MASK_FLAG, src_port_equal policy p);
   (DST_PORT_MASK_FLAG, dst_port_in_range policy p);
   (PROTO_MASK_FLAG, proto_equal policy p)].

(** Some field the rule declares is not satisfied by the packet. *)
Definition partial_match (policy : DscpPolicy.t) (p : pkt.t) : Prop :=
  exists (k : nat) (flag : Z),
    field_tests policy p !! k = Some (flag, false)
    /\ declared policy flag = true.

Definition mask_flags : list Z :=
  [SRC_IP_MASK_FLAG; DST_IP_MASK_FLAG; SRC_PORT_MASK_FLAG;
   DST_PORT_MASK_FLAG; PROTO_MASK_FLAG].

(** The five flags are non-empty and share no bit. *)
Definition flags_distinct : Prop :=
  (forall k f, mask_flags !! k = Some f -> f <> 0)
  /\ (forall j k f g, mask_flags !! j = Some f -> mask_flags !! k = Some g ->
                     j <> k -> Z.land f g = 0).

(** The flags of the fields that the rule declares and the packet
    satisfies, and the flags of the fields that the rule declares. *)
Definition matched_fields (policy : DscpPolicy.t) (p : pkt.t) : list Z :=
  omap (fun test : Z * bool =>
          if declared policy (fst test) && snd test then Some (fst test)
          else None)
       (field_tests policy p).

Definition declared_fields (policy : DscpPolicy.t) : list Z :=
  omap (fun flag => if declared policy flag then Some flag else None)
       mask_flags.

(** The score of a rule for a packet: how many of the fields it declares
    the packet satisfies. *)
Definition matched_count (policy : DscpPolicy.t) (p : pkt.t) : Z :=
  Z.of_nat (length (matched_fields policy p)).

(** The bits of a list of flags. *)
Definition mask_of (flags : list Z) : Z := foldr Z.lor 0 flags.

(** The rule applies to the packet: its mask is not zero and has no bit
    but those of the fields it declares (in the eight bits that the
    program's mask of matched fields has), its interface is the packet's,
    and the packet satisfies every field it declares. *)
Definition applies (policy : DscpPolicy.t) (skb : sk_buff.t) (p : pkt.t)
  : Prop :=
  DscpPolicy.present_fields policy <> 0
  /\ DscpPolicy.ifindex policy = sk_buff.ifindex skb
  /\ DscpPolicy.present_fields policy
     = wrap 8 (mask_of (declared_fields policy))
  /\ ~ partial_match policy p.

(** The rule at index [i] of the table of the packet's family, for the
    indices that the scan visits. *)
Definition rule_at (m : maps) (ipv4 : bool) (i : nat) : option DscpPolicy.t :=
  if (i <? MAX_POLICIES)%nat then dscp_policies_lookup m ipv4 (Z.of_nat i)
  else None.

(** ** Vocabulary of the claims about the header parse *)

Definition l2_header_size (is_eth : bool) : Z :=
  if is_eth then sizeof_ethhdr else 0.

(** The header parse of [match_policy] on its own: the checks and field
    reads of lines 63 and 86-140. *)
Definition extract (skb : sk_buff.t) (ipv4 is_eth : bool) : option pkt.t :=
  let d := sk_buff.data skb in
  if l2_header_size is_eth >? Z.of_nat (length d) then None
  else match parse_ip d ipv4 (l2_header_size is_eth) with
       | None => None
       | Some p => parse_transport d p
       end.

(** [size] bytes from offset [off] on lie within the captured bytes. *)
Definition fits (skb : sk_buff.t) (off size : Z) : Prop :=
  off + size <= Z.of_nat (length (sk_buff.data skb)).

Definition ip_header_size (ipv4 : bool) : Z :=
  if ipv4 then sizeof_iphdr else sizeof_ipv6hdr.

(** The version nibble, header-length nibble and protocol byte of the IP
    header of the frame. *)
Definition ip_version (skb : sk_buff.t) (is_eth : bool) : Z :=
  Z.shiftr (byte_at (sk_buff.data skb) (l2_header_size is_eth)) 4.

Definition ip_ihl (skb : sk_buff.t) (is_eth : bool) : Z :=
  Z.land (byte_at (sk_buff.data skb) (l2_header_size is_eth)) 15.

Definition ip_protocol (skb : sk_buff.t) (ipv4 is_eth : bool) : Z :=
  byte_at (sk_buff.data skb)
          (l2_header_size is_eth + (if ipv4 then 9 else 6)).

Definition is_transport (proto : Z) : Prop :=
  proto = IPPROTO_UDP \/ proto = IPPROTO_UDPLITE \/ proto = IPPROTO_TCP.

Definition transport_header_size (proto : Z) : Z :=
  if proto =? IPPROTO_TCP then sizeof_tcphdr else sizeof_udphdr.

(** A header does not fit within the captured bytes, the version field is
    not the declared family's, or an IPv4 header has a length other than
    5 words. *)
Definition malformed (skb : sk_buff.t) (ipv4 is_eth : bool) : Prop :=
  ~ fits skb 0 (l2_header_size is_eth)
  \/ ~ fits skb (l2_header_size is_eth) (ip_header_size ipv4)
  \/ ip_version skb is_eth <> (if ipv4 then 4 else 6)
  \/ (ipv4 = true /\ ip_ihl skb is_eth <> 5)
  \/ (is_transport (ip_protocol skb ipv4 is_eth)
      /\ ~ fits skb (l2_header_size is_eth + ip_header_size ipv4)
                    (transport_header_size (ip_protocol skb ipv4 is_eth))).

(** ** Vocabulary of the claims about the flow cache *)

(** The cached tuple is the packet's, field by field. *)
Definition same_flow (existing_rule : RuleEntry.t) (skb : sk_buff.t)
    (p : pkt.t) : Prop :=
  pkt.src_ip p = RuleEntry.src_ip existing_rule
  /\ pkt.dst_ip p = RuleEntry.dst_ip existing_rule
  /\ sk_buff.ifindex skb = RuleEntry.ifindex existing_rule
  /\ pkt.sport p = RuleEntry.src_port existing_rule
  /\ pkt.dport p = RuleEntry.dst_port existing_rule
  /\ pkt.protocol p = RuleEntry.proto existing_rule.

(** The ports of a cache entry are 16-bit values, as [__be16] fields are. *)
Definition ports_in_range (existing_rule : RuleEntry.t) : Prop :=
  0 <= RuleEntry.src_port existing_rule < 65536
  /\ 0 <= RuleEntry.dst_port existing_rule < 65536.

(** Every entry of the four caches has 16-bit ports. *)
Definition cache_ports_ok (m : maps) : Prop :=
  forall (ipv4 : bool) (selected_map cookie : Z) (e : RuleEntry.t),
    socket_to_policies_lookup m ipv4 selected_map cookie = Some e ->
    ports_in_range e.

(** The entry the slow path stores for a packet: its tuple and the DSCP
    value of the winner. *)
Definition rule_of_packet (skb : sk_buff.t) (p : pkt.t) (new_dscp : Z)
  : RuleEntry.t :=
  {| RuleEntry.src_ip := pkt.src_ip p;
     RuleEntry.dst_ip := pkt.dst_ip p;
     RuleEntry.ifindex := sk_buff.ifindex skb;
     RuleEntry.src_port := pkt.sport p;
     RuleEntry.dst_port := pkt.dport p;
     RuleEntry.proto := pkt.protocol p;
     RuleEntry.dscp_val := new_dscp |}.

(** The maps with the socket's entry removed from the cache the lookup
    reads. *)
Definition socket_to_policies_delete (m : maps) (ipv4 : bool)
    (selected_map cookie : Z) : maps :=
  {| switch_comp_map := switch_comp_map m;
     ipv4_socket_to_policies_map_A :=
       if ipv4 && (selected_map =? MAP_A)
       then delete cookie (ipv4_socket_to_policies_map_A m)
       else ipv4_socket_to_policies_map_A m;
     ipv4_socket_to_policies_map_B :=
       if ipv4 && negb (selected_map =? MAP_A)
       then delete cookie (ipv4_socket_to_policies_map_B m)
       else ipv4_socket_to_policies_map_B m;
     ipv6_socket_to_policies_map_A :=
       if negb ipv4 && (selected_map =? MAP_A)
       then delete cookie (ipv6_socket_to_policies_map_A m)
       else ipv6_socket_to_policies_map_A m;
     ipv6_socket_to_policies_map_B :=
       if negb ipv4 && negb (selected_map =? MAP_A)
       then delete cookie (ipv6_socket_to_policies_map_B m)
       else ipv6_socket_to_policies_map_B m;
     ipv4_dscp_policies_map := ipv4_dscp_policies_map m;
     ipv6_dscp_policies_map := ipv6_dscp_policies_map m |}.

End Program.

(** What the proofs about the score and the scan carry along.  A score
    of zero comes with an empty mask. *)
Definition score_ok (acc : Z * Z) : Prop :=
  0 <= fst acc /\ (fst acc = 0 -> snd acc = 0).

Section Invariant.
Context `{DscpPolicyH}.

(** What holds of [(best_score, best_match)] after the first [n] rules:
    no rule so far was eligible, or the best is the first of the eligible
    rules of highest score. *)
Definition scan_inv (m : maps) (skb : sk_buff.t) (ipv4 : bool) (p : pkt.t)
    (n : nat) (best : Z * Z) : Prop :=
  (fst best = -1
   /\ forall j, (j < n)%nat -> eligible m skb ipv4 p j = false)
  \/ (exists i : nat,
        (i < n)%nat /\ snd best = Z.of_nat i
        /\ eligible m skb ipv4 p i = true
        /\ score_at m ipv4 p i = fst best
        /\ forall j, (j < n)%nat -> eligible m skb ipv4 p j = true ->
                     score_at m ipv4 p j <= fst best
                     /\ (score_at m ipv4 p j = fst best -> (i <= j)%nat)).

End Invariant.

(** One concrete choice of the constants, with one bit per field and a
    table of four rules, to run the program on examples. *)
Definition example_consts : DscpPolicyH :=
  {| MAX_POLICIES := 4;
     MAP_A := 1;
     SRC_IP_MASK_FLAG := 1;
     DST_IP_MASK_FLAG := 2;
     SRC_PORT_MASK_FLAG := 4;
     DST_PORT_MASK_FLAG := 8;
     PROTO_MASK_FLAG := 16 |}.

(** 10.0.0.1 and 10.0.0.2 as the host loads them from the packet. *)
Definition addr_10_0_0_1 : Z := 16777226.
Definition addr_10_0_0_2 : Z := 33554442.

(** A rule for interface 2 that declares [present_fields], with source
    10.0.0.1, the one destination port [dst_port] (in network order),
    protocol UDP and the given DSCP value. *)
Definition mk_policy (present_fields dst_port dscp_val : Z) : DscpPolicy.t :=
  {| DscpPolicy.src_ip := v4_mapped addr_10_0_0_1;
     DscpPolicy.dst_ip := v4_mapped addr_10_0_0_2;
     DscpPolicy.ifindex := 2;
     DscpPolicy.src_port := htons 443;
     DscpPolicy.dst_port_start := dst_port;
     DscpPolicy.dst_port_end := dst_port;
     DscpPolicy.proto := IPPROTO_UDP;
     DscpPolicy.dscp_val := dscp_val;
     DscpPolicy.present_fields := present_fields |}.

(** Rule 0 declares source address and destination port 80, rule 1 the
    protocol, rule 2 nothing, rule 3 the source address. *)
Definition example_policies : list DscpPolicy.t :=
  [mk_policy 9 (htons 80) 10; mk_policy 16 (htons 80) 20;
   mk_policy 0 (htons 80) 30; mk_policy 1 (htons 80) 40].

(** Buffer A is selected; the IPv4 cache A holds [cache]. *)
Definition mk_maps (cache : gmap Z RuleEntry.t) : maps :=
  {| switch_comp_map := [1];
     ipv4_socket_to_policies_map_A := cache;
     ipv4_socket_to_policies_map_B := ∅;
     ipv6_socket_to_policies_map_A := ∅;
     ipv6_socket_to_policies_map_B := ∅;
     ipv4_dscp_policies_map := example_policies;
     ipv6_dscp_policies_map := [] |}.

(** An Ethernet frame on interface 2 of socket 77 carrying UDP from
    10.0.0.1:443 to 10.0.0.2:4660, and what the parse reads from it. *)
Definition udp_frame : sk_buff.t :=
  mk_skb 42 (htons ETH_P_IP) 2
         (bytes_of (eth_header ETH_P_IP ++ ipv4_header 17 ++ udp_header))
         77 10001.

Definition udp_pkt : pkt.t :=
  {| pkt.hdr_size := 34;
     pkt.src_ip := v4_mapped addr_10_0_0_1;
     pkt.dst_ip := v4_mapped addr_10_0_0_2;
     pkt.protocol := IPPROTO_UDP;
     pkt.tos := 0;
     pkt.priority := 0;
     pkt.flow_lbl := 0;
     pkt.sport := htons 443;
     pkt.dport := htons 4660 |}.

(** The same frame cut short in the middle of the UDP header, and one
    carrying ICMP. *)
Definition short_frame : sk_buff.t :=
  mk_skb 38 (htons ETH_P_IP) 2
         (bytes_of (eth_header ETH_P_IP ++ ipv4_header 17 ++ [1; 187; 18; 52]))
         77 10001.

Definition icmp_frame : sk_buff.t :=
  mk_skb 42 (htons ETH_P_IP) 2
         (bytes_of (eth_header ETH_P_IP ++ ipv4_header 1 ++ udp_header))
         77 10001.

(** A cache entry left by an earlier flow of socket 77: the same tuple
    but for the destination port 80, marked with DSCP 46. *)
Definition stale_rule : RuleEntry.t :=
  {| RuleEntry.src_ip := v4_mapped addr_10_0_0_1;
     RuleEntry.dst_ip := v4_mapped addr_10_0_0_2;
     RuleEntry.ifindex := 2;
     RuleEntry.src_port := htons 443;
     RuleEntry.dst_port := htons 80;
     RuleEntry.proto := IPPROTO_UDP;
     RuleEntry.dscp_val := 46 |}.

(** ** Vocabulary of further properties *)

Section MoreVocabulary.
Context `{DscpPolicyH}.

(** The cache that [match_policy] reads and writes for a family and a
    value of the buffer selector. *)
Definition selected_cache (m : maps) (ipv4 : bool) (selected_map : Z)
  : gmap Z RuleEntry.t :=
  if ipv4 then
    if selected_map =? MAP_A then ipv4_socket_to_policies_map_A m
    else ipv4_socket_to_policies_map_B m
  else
    if selected_map =? MAP_A then ipv6_socket_to_policies_map_A m
    else ipv6_socket_to_policies_map_B m.

(** No cache holds more entries than its capacity. *)
Definition cache_sizes_ok (m : maps) : Prop :=
  forall (ipv4 : bool) (selected_map : Z),
    (size (selected_cache m ipv4 selected_map) <= MAX_POLICIES)%nat.

End MoreVocabulary.

(** The offsets the program may write: the TOS byte and the two checksum
    bytes of an IPv4 header, the first two bytes of an IPv6 header. *)
Definition marking_offset (ipv4 : bool) (l2 off : Z) : Prop :=
  if ipv4 then off = l2 + 1 \/ off = l2 + 10 \/ off = l2 + 11
  else off = l2 \/ off = l2 + 1.

(** [skb'] is [skb] but for the bytes at the marking offsets. *)
Definition marks_only (ipv4 : bool) (l2 : Z) (skb skb' : sk_buff.t) : Prop :=
  sk_buff.len skb' = sk_buff.len skb
  /\ sk_buff.pkt_type skb' = sk_buff.pkt_type skb
  /\ sk_buff.protocol skb' = sk_buff.protocol skb
  /\ sk_buff.ifindex skb' = sk_buff.ifindex skb
  /\ sk_buff.cookie skb' = sk_buff.cookie skb
  /\ sk_buff.uid skb' = sk_buff.uid skb
  /\ length (sk_buff.data skb') = length (sk_buff.data skb)
  /\ forall i : nat, ~ marking_offset ipv4 l2 (Z.of_nat i) ->
                     sk_buff.data skb' !! i = sk_buff.data skb !! i.

(** Two parses agree on the flow tuple and on where the transport header
    starts. *)
Definition same_tuple (p p' : pkt.t) : Prop :=
  pkt.hdr_size p' = pkt.hdr_size p
  /\ pkt.src_ip p' = pkt.src_ip p
  /\ pkt.dst_ip p' = pkt.dst_ip p
  /\ pkt.protocol p' = pkt.protocol p
  /\ pkt.sport p' = pkt.sport p
  /\ pkt.dport p' = pkt.dport p.

(** An IPv6 header (version 6, traffic class and flow label 0) carrying
    UDP from 2001:db8::1 to 2001:db8::2. *)
Definition ipv6_header : list Z :=
  [96; 0; 0; 0; 0; 8; 17; 64;
   32; 1; 13; 184; 0; 0; 0; 0; 0; 0; 0; 0; 0; 0; 0; 1;
   32; 1; 13; 184; 0; 0; 0; 0; 0; 0; 0; 0; 0; 0; 0; 2].

Definition udp6_frame : sk_buff.t :=
  mk_skb 62 (htons ETH_P_IPV6) 2
         (bytes_of (eth_header ETH_P_IPV6 ++ ipv6_header ++ udp_header))
         77 10001.

(** Buffer A is selected; the IPv6 cache A holds [cache]. *)
Definition mk_maps6 (cache : gmap Z RuleEntry.t) : maps :=
  {| switch_comp_map := [1];
     ipv4_socket_to_policies_map_A := ∅;
     ipv4_socket_to_policies_map_B := ∅;
     ipv6_socket_to_policies_map_A := cache;
     ipv6_socket_to_policies_map_B := ∅;
     ipv4_dscp_policies_map := example_policies;
     ipv6_dscp_policies_map := [] |}.

(** The cache entry of the flow of [udp_frame], marked with DSCP 46. *)
Definition fresh_rule : RuleEntry.t :=
  {| RuleEntry.src_ip := v4_mapped addr_10_0_0_1;
     RuleEntry.dst_ip := v4_mapped addr_10_0_0_2;
     RuleEntry.ifindex := 2;
     RuleEntry.src_port := htons 443;
     RuleEntry.dst_port := htons 4660;
     RuleEntry.proto := IPPROTO_UDP;
     RuleEntry.dscp_val := 46 |}.

(** The UDP frame as another host's traffic seen in promiscuous mode, as
    an ARP frame, and as a packet without a socket. *)
Definition other_host_frame : sk_buff.t :=
  {| sk_buff.len := 42;
     sk_buff.pkt_type := 3;
     sk_buff.protocol := htons ETH_P_IP;
     sk_buff.ifindex := 2;
     sk_buff.data := sk_buff.data udp_frame;
     sk_buff.cookie := 77;
     sk_buff.uid := 10001 |}.

Definition arp_frame : sk_buff.t :=
  mk_skb 42 (htons 2054) 2 (sk_buff.data udp_frame) 77 10001.

Definition no_socket_frame : sk_buff.t :=
  mk_skb 42 (htons ETH_P_IP) 2 (sk_buff.data udp_frame) 0 10001.

(** What the parse reads from [udp6_frame], and the cache entry of its
    flow marked with DSCP 46. *)
Definition udp6_pkt : pkt.t :=
  {| pkt.hdr_size := 54;
     pkt.src_ip := ip6h_saddr (sk_buff.data udp6_frame) 14;
     pkt.dst_ip := ip6h_daddr (sk_buff.data udp6_frame) 14;
     pkt.protocol := IPPROTO_UDP;
     pkt.tos := 0;
     pkt.priority := 0;
     pkt.flow_lbl := 0;
     pkt.sport := htons 443;
     pkt.dport := htons 4660 |}.

Definition fresh_rule6 : RuleEntry.t := rule_of_packet udp6_frame udp6_pkt 46.

End Dscp.

(** * Properties of netd.c *)

Module NetdProofs.
Import Netd.

Lemma wrap64_small (x : Z) : 0 <= x < 2 ^ 64 -> wrap 64 x = x.
Proof. intros Hx. unfold wrap. by apply Z.mod_small. Qed.

(** The correction for a buffer of at most [mtu] bytes. *)
Lemma packetize_small (skb : sk_buff.t) :
  sk_buff.len skb <= 1500 -> packetize skb = (1, sk_buff.len skb).
Proof.
  intros Hle. unfold packetize, mtu.
  destruct (sk_buff.len skb >? 1500) eqn:Hgt; [lia | done].
Qed.

(** The correction above [mtu], for a per-segment overhead [o] between 1
    and 1499: no [uint64_t] operation wraps for a 32-bit length. *)
Lemma packetize_arith (len o : Z) :
  1500 < len < 2 ^ 32 -> 0 < o < 1500 ->
  let mss := 1500 - o in
  let payload := wrap 64 (len - o) in
  let packets := wrap 64 (wrap 64 (payload + mss - 1) / mss) in
  let bytes := wrap 64 (wrap 64 (o * packets) + payload) in
  payload = len - o
  /\ (packets - 1) * mss < payload <= packets * mss
  /\ bytes = o * packets + payload.
Proof.
  intros Hlen Ho mss payload packets bytes.
  assert (H32 : 2 ^ 32 = 4294967296) by reflexivity.
  assert (H64 : 2 ^ 64 = 18446744073709551616) by reflexivity.
  assert (Hpay : payload = len - o).
  { subst payload. apply wrap64_small. lia. }
  assert (Hmss : 0 < mss) by (subst mss; lia).
  assert (Hq : 0 <= (payload + mss - 1) / mss <= payload).
  { split.
    - apply Z.div_pos; lia.
    - apply Z.div_le_upper_bound; nia. }
  assert (Hpk : packets = (payload + mss - 1) / mss).
  { subst packets. rewrite (wrap64_small (payload + mss - 1)) by lia.
    apply wrap64_small. lia. }
  pose proof (Z.div_mod (payload + mss - 1) mss ltac:(lia)) as Hdm.
  pose proof (Z.mod_pos_bound (payload + mss - 1) mss Hmss) as Hmod.
  rewrite <- Hpk in Hdm.
  split; [exact Hpay |]. split; [nia |].
  subst bytes. rewrite (wrap64_small (o * packets)) by nia.
  apply wrap64_small. nia.
Qed.

Lemma packetize_large (skb : sk_buff.t) :
  1500 < sk_buff.len skb < 2 ^ 32 ->
  let overhead :=
    (if sk_buff.protocol skb =? htons ETH_P_IPV6 then 40 else 20) + 20 + 12 in
  mtu_corrected overhead (sk_buff.len skb)
                (fst (packetize skb)) (snd (packetize skb)).
Proof.
  intros Hlen overhead. unfold packetize, mtu.
  destruct (sk_buff.len skb >? 1500) eqn:Hgt; [| lia].
  unfold sizeof_ipv6hdr, sizeof_iphdr, sizeof_tcphdr. cbn [fst snd].
  fold overhead.
  assert (Ho : 0 < overhead < 1500).
  { subst overhead. destruct (sk_buff.protocol skb =? htons ETH_P_IPV6); lia. }
  destruct (packetize_arith (sk_buff.len skb) overhead Hlen Ho)
    as (Hpay & Hceil & Hbytes).
  unfold mtu_corrected. rewrite Hpay in Hceil, Hbytes |- *.
  split; assumption.
Qed.

(** What an update does to a slot that is there. *)
Lemma update_stats_present `{Countable K} (max_entries : nat)
    (m : gmap K StatsValue.t) (skb : sk_buff.t) (key : K)
    (value : StatsValue.t) :
  m !! key = Some value ->
  update_stats max_entries m skb BPF_EGRESS key
    = <[key := add_tx value (fst (packetize skb)) (snd (packetize skb))]> m
  /\ update_stats max_entries m skb BPF_INGRESS key
    = <[key := add_rx value (fst (packetize skb)) (snd (packetize skb))]> m.
Proof.
  intros Hm. unfold update_stats. rewrite Hm. cbn zeta. rewrite Hm.
  destruct (packetize skb) as [packets bytes]. split; reflexivity.
Qed.

(** Get-or-create: a missing slot is created with zeroed counters when the
    map has room, and left missing when it is full. *)
Lemma update_stats_absent `{Countable K} (max_entries : nat)
    (m : gmap K StatsValue.t) (skb : sk_buff.t) (direction : Z) (key : K) :
  m !! key = None ->
  update_stats max_entries m skb direction key
    = if (size m <? max_entries)%nat
      then update_stats max_entries (<[key := StatsValue.zero]> m)
                        skb direction key
      else m.
Proof.
  intros Hm. unfold update_stats, update_elem_NOEXIST. rewrite Hm.
  destruct (size m <? max_entries)%nat; cbn zeta.
  - rewrite !lookup_insert_eq. reflexivity.
  - rewrite Hm. reflexivity.
Qed.

(** What an update records: the slot is there afterwards, created when
    it was missing and the map had room, with the packet added to the
    counters of the direction. *)
Lemma update_stats_recorded `{Countable K} (max_entries : nat)
    (m : gmap K StatsValue.t) (skb : sk_buff.t) (key : K) :
  slot_or_room max_entries m key ->
  tx_recorded m (update_stats max_entries m skb BPF_EGRESS key) key
              (fst (packetize skb)) (snd (packetize skb))
  /\ rx_recorded m (update_stats max_entries m skb BPF_INGRESS key) key
                 (fst (packetize skb)) (snd (packetize skb)).
Proof.
  intros Hslot. unfold tx_recorded, rx_recorded, counters_before.
  destruct (m !! key) as [value |] eqn:Hm.
  - destruct (update_stats_present max_entries m skb key value Hm)
      as [-> ->].
    split; eexists; (split; [apply lookup_insert_eq |]);
      unfold tx_added, rx_added; cbn; repeat split; reflexivity.
  - destruct Hslot as [[value Hv] | Hroom]; [congruence |].
    apply Nat.ltb_lt in Hroom.
    rewrite (update_stats_absent _ _ _ BPF_EGRESS),
      (update_stats_absent _ _ _ BPF_INGRESS), !Hroom by done.
    destruct (update_stats_present max_entries (<[key := StatsValue.zero]> m)
                skb key StatsValue.zero (lookup_insert_eq _ _ _))
      as [-> ->].
    split; eexists; (split; [apply lookup_insert_eq |]);
      unfold tx_added, rx_added; cbn; repeat split; reflexivity.
Qed.

(** C1: for every recorded packet (a buffer of a 32-bit length whose slot
    [key] is in the statistics map, or is created by this very update
    because the map has room), the slot holds afterwards the counters it
    had (zero for a new slot) with [packets] and [bytes] added on the side
    of the direction, where: up to 1500 bytes [packets] is 1 and [bytes]
    is the length; above 1500 bytes, with overhead = (20 for IPv4, 40 for
    IPv6) + 20 + 12, mss = 1500 - overhead and payload = length -
    overhead, [packets] is payload / mss rounded up and [bytes] is
    overhead * packets + payload; an IPv4 buffer of 3000 bytes records 3
    packets and 3104 bytes. *)
Theorem update_stats_mtu_correction `{Countable K} (max_entries : nat)
    (m : gmap K StatsValue.t) (skb : sk_buff.t) (key : K) :
  0 <= sk_buff.len skb < 2 ^ 32 ->
  slot_or_room max_entries m key ->
  exists packets bytes : Z,
    tx_recorded m (update_stats max_entries m skb BPF_EGRESS key) key
                packets bytes
    /\ rx_recorded m (update_stats max_entries m skb BPF_INGRESS key) key
                   packets bytes
    /\ (sk_buff.len skb <= 1500 -> packets = 1 /\ bytes = sk_buff.len skb)
    /\ (sk_buff.len skb > 1500 -> sk_buff.protocol skb = htons ETH_P_IP ->
        mtu_corrected (20 + 20 + 12) (sk_buff.len skb) packets bytes)
    /\ (sk_buff.len skb > 1500 -> sk_buff.protocol skb = htons ETH_P_IPV6 ->
        mtu_corrected (40 + 20 + 12) (sk_buff.len skb) packets bytes)
    /\ (sk_buff.len skb = 3000 -> sk_buff.protocol skb = htons ETH_P_IP ->
        packets = 3 /\ bytes = 3104).
Proof.
  intros Hlen Hslot.
  exists (fst (packetize skb)), (snd (packetize skb)).
  destruct (update_stats_recorded max_entries m skb key Hslot) as [Htx Hrx].
  split; [exact Htx |]. split; [exact Hrx |].
  split; [| split; [| split]].
  - intros Hle. rewrite (packetize_small skb Hle). split; reflexivity.
  - intros Hgt Hv4. pose proof (packetize_large skb ltac:(lia)) as Hc.
    rewrite Hv4 in Hc. exact Hc.
  - intros Hgt Hv6. pose proof (packetize_large skb ltac:(lia)) as Hc.
    rewrite Hv6 in Hc. exact Hc.
  - intros H3000 Hv4. unfold packetize. rewrite H3000, Hv4.
    split; reflexivity.
Qed.

(** The first packet of uid 10001, 3000 bytes of IPv4 on egress, creates
    the slot with 3 packets and 3104 bytes sent; the next one of 100 bytes
    on ingress adds 1 packet and 100 bytes received. *)
Lemma update_stats_mtu_correction_witness :
  (exists v,
     update_stats 16 (∅ : gmap Z StatsValue.t)
                  (mk_skb 3000 (htons ETH_P_IP) 2 [] 0 10001) BPF_EGRESS 10001
       !! 10001 = Some v
     /\ StatsValue.txPackets v = 3 /\ StatsValue.txBytes v = 3104)
  /\ (exists v,
        update_stats 16
          ({[ 10001 := StatsValue.Build_t 0 0 3 3104 ]} : gmap Z StatsValue.t)
          (mk_skb 100 (htons ETH_P_IP) 2 [] 0 10001) BPF_INGRESS 10001
          !! 10001 = Some v
        /\ StatsValue.rxPackets v = 1 /\ StatsValue.rxBytes v = 100
        /\ StatsValue.txPackets v = 3 /\ StatsValue.txBytes v = 3104).
Proof.
  split.
  - destruct (update_stats_mtu_correction 16 (∅ : gmap Z StatsValue.t)
                (mk_skb 3000 (htons ETH_P_IP) 2 [] 0 10001) 10001)
      as (packets & bytes & (v & Hv & Hp & Hb & _) & _ & _ & _ & _ & H3000).
    + simpl. lia.
    + right. vm_compute. lia.
    + destruct H3000 as [-> ->]; [reflexivity | reflexivity |].
      exists v. split; [exact Hv |]. split; [exact Hp | exact Hb].
  - destruct (update_stats_mtu_correction 16
                ({[ 10001 := StatsValue.Build_t 0 0 3 3104 ]}
                 : gmap Z StatsValue.t)
                (mk_skb 100 (htons ETH_P_IP) 2 [] 0 10001) 10001)
      as (packets & bytes & _ & (v & Hv & Hp & Hb & Htp & Htb) & Hsmall & _).
    + simpl. lia.
    + left. by eexists.
    + destruct Hsmall as [-> ->]; [simpl; lia |].
      exists v. split; [exact Hv |]. repeat split; assumption.
Defined.

Section Firewall.
Context `{BpfShared}.

Lemma truthy_true (x : Z) : truthy x = true <-> x <> 0.
Proof. unfold truthy. destruct (Z.eqb_spec x 0); cbn; split; intros; lia || done. Qed.

Lemma truthy_false (x : Z) : truthy x = false <-> x = 0.
Proof. unfold truthy. destruct (Z.eqb_spec x 0); cbn; split; intros; lia || done. Qed.

Lemma allow_test_true (e u c : Z) :
  allow_test e u c = true <-> has_bit e c /\ ~ has_bit u c.
Proof.
  unfold allow_test, has_bit.
  rewrite andb_true_iff, negb_true_iff, truthy_true, truthy_false. lia.
Qed.

Lemma deny_test_true (e u c : Z) :
  deny_test e u c = true <-> has_bit e c /\ has_bit u c.
Proof.
  unfold deny_test, has_bit. rewrite andb_true_iff, !truthy_true. done.
Qed.

(** The eight tests of lines 215-238, in the order of the code. *)
Lemma category_drop_tests (e u : Z) :
  category_drop e u <->
  allow_test e u DOZABLE_MATCH
  || deny_test e u STANDBY_MATCH
  || allow_test e u POWERSAVE_MATCH
  || allow_test e u RESTRICTED_MATCH
  || allow_test e u LOW_POWER_STANDBY_MATCH
  || deny_test e u OEM_DENY_1_MATCH
  || deny_test e u OEM_DENY_2_MATCH
  || deny_test e u OEM_DENY_3_MATCH = true.
Proof.
  rewrite !orb_true_iff, !allow_test_true, !deny_test_true.
  unfold category_drop, allow_list_categories, deny_list_categories.
  split.
  - intros [(c & Hin & Hc) | (c & Hin & Hc)];
      rewrite !elem_of_cons, elem_of_nil in Hin;
      destruct Hin as [-> | [-> | [-> | [-> | []]]]]; tauto.
  - intros [[[[[[[Hc | Hc] | Hc] | Hc] | Hc] | Hc] | Hc] | Hc];
      [left | right | left | left | left | right | right | right];
      eexists; (split; [| exact Hc]); rewrite !elem_of_cons; tauto.
Qed.

(** With no rule enabled none of the tests can fire. *)
Lemma category_drop_disabled (u : Z) : ~ category_drop 0 u.
Proof.
  unfold category_drop, has_bit.
  intros [(c & _ & Hc & _) | (c & _ & Hc & _)]; by rewrite Z.land_0_l in Hc.
Qed.

Lemma iface_rules_not_drop (skb : sk_buff.t) (direction u iif : Z) :
  iface_rules skb direction u iif <> BPF_DROP.
Proof.
  unfold iface_rules.
  repeat match goal with |- context [if ?b then _ else _] => destruct b end;
    done.
Qed.

(** Past the two carve-outs the function is the eight tests followed by
    the interface rules. *)
Lemma bpf_owner_match_rules (m : maps) (skb : sk_buff.t) (uid direction : Z) :
  skip_owner_match skb = false -> is_system_uid uid = false ->
  (category_drop (getConfig m UID_RULES_CONFIGURATION_KEY) (uidRules_of m uid)
   /\ bpf_owner_match m skb uid direction = BPF_DROP)
  \/ (~ category_drop (getConfig m UID_RULES_CONFIGURATION_KEY)
                      (uidRules_of m uid)
      /\ bpf_owner_match m skb uid direction
         = iface_rules skb direction (uidRules_of m uid) (allowed_iif_of m uid)).
Proof.
  intros Hskip Hsys. unfold bpf_owner_match. rewrite Hskip, Hsys. cbn zeta.
  set (e := getConfig m UID_RULES_CONFIGURATION_KEY).
  set (u := uidRules_of m uid).
  destruct (truthy e) eqn:He.
  - rewrite (category_drop_tests e u).
    repeat match goal with
           | |- context [if ?b then BPF_DROP else _] =>
               destruct b; [left; split; [cbn; by rewrite ?orb_true_r | done] |]
           end.
    right. split; [cbn; done | done].
  - apply truthy_false in He. rewrite He. right.
    split; [apply category_drop_disabled | done].
Qed.

Lemma iface_rules_pass (skb : sk_buff.t) (direction u iif : Z) :
  ~ iface_condition skb direction u iif ->
  iface_rules skb direction u iif = BPF_PASS.
Proof.
  intros Hif. unfold iface_rules.
  unfold iface_condition, iif_mismatch, lockdown_only, has_bit in Hif.
  destruct (Z.eqb_spec direction BPF_INGRESS) as [Hd | Hd]; [| done].
  destruct (Z.eqb_spec (sk_buff.ifindex skb) 1) as [Hi | Hi]; [done |].
  cbn [andb negb].
  destruct (truthy (Z.land u IIF_MATCH)) eqn:Hiif.
  - apply truthy_true in Hiif.
    destruct (truthy iif) eqn:Ha; [| done].
    apply truthy_true in Ha.
    destruct (Z.eqb_spec (sk_buff.ifindex skb) iif); [done |].
    exfalso. apply Hif. tauto.
  - apply truthy_false in Hiif.
    destruct (truthy (Z.land u LOCKDOWN_VPN_MATCH)) eqn:Hl; [| done].
    apply truthy_true in Hl. exfalso. apply Hif.
    split; [done |]. split; [done |]. right. split; [lia | done].
Qed.

(** C4: for an owner uid that is not system-privileged and a packet that
    the ESP/RST carve-out does not exempt, with the global bitmask read
    from the configuration table (the default when the entry is missing)
    and the owner's bitmask read from the owner's entry of the owner table
    (zero when the owner has none): the evaluator returns Drop if and only
    if some allow-list category (doze, power-save, restricted,
    low-power-standby) is enabled globally while the owner lacks its bit,
    or some deny-list category (standby, OEM-deny-1/2/3) is enabled
    globally while the owner has its bit; when neither holds and no
    interface or lockdown condition applies, it returns Pass. *)
Theorem bpf_owner_match_drop_iff (m : maps) (skb : sk_buff.t)
    (uid direction : Z) :
  is_system_uid uid = false ->
  skip_owner_match skb = false ->
  let enabledRules :=
    default DEFAULT_CONFIG
            (array_lookup (configuration_map m) UID_RULES_CONFIGURATION_KEY) in
  let uidRules := from_option UidOwnerValue.rule 0 (uid_owner_map m !! uid) in
  let allowed_iif := from_option UidOwnerValue.iif 0 (uid_owner_map m !! uid) in
  (bpf_owner_match m skb uid direction = BPF_DROP
   <-> category_drop enabledRules uidRules)
  /\ (~ category_drop enabledRules uidRules ->
      ~ iface_condition skb direction uidRules allowed_iif ->
      bpf_owner_match m skb uid direction = BPF_PASS).
Proof.
  intros Hsys Hskip enabledRules uidRules allowed_iif.
  assert (He : enabledRules = getConfig m UID_RULES_CONFIGURATION_KEY).
  { subst enabledRules. unfold getConfig. by destruct (array_lookup _ _). }
  assert (Hu : uidRules = uidRules_of m uid).
  { subst uidRules. unfold uidRules_of. by destruct (uid_owner_map m !! uid). }
  assert (Hi : allowed_iif = allowed_iif_of m uid).
  { subst allowed_iif. unfold allowed_iif_of.
    by destruct (uid_owner_map m !! uid). }
  rewrite He, Hu, Hi. clear He Hu Hi enabledRules uidRules allowed_iif.
  destruct (bpf_owner_match_rules m skb uid direction Hskip Hsys)
    as [[Hcat Hres] | [Hcat Hres]].
  - split; [tauto | intros Hn; contradiction].
  - split.
    + split; [| contradiction].
      rewrite Hres. intros Hdrop. by apply iface_rules_not_drop in Hdrop.
    + intros _ Hif. rewrite Hres. by apply iface_rules_pass.
Qed.

Lemma rst_bit (flags : Z) :
  Z.testbit flags 2 = true ->
  truthy (Z.land (Z.shiftr flags RST_OFFSET) 1) = true.
Proof.
  intros Hbit. apply truthy_true. unfold RST_OFFSET.
  change 1 with (Z.ones 1). rewrite Z.land_ones by lia.
  change (2 ^ 1) with 2. rewrite <- Z.bit0_mod.
  rewrite Z.shiftr_spec by lia. change (0 + 2) with 2. by rewrite Hbit.
Qed.

Lemma skip_owner_match_esp (skb : sk_buff.t) :
  is_esp skb -> skip_owner_match skb = true.
Proof.
  unfold is_esp, skip_owner_match, IP_PROTO_OFF, IPV6_PROTO_OFF.
  intros [[-> ->] | [-> ->]]; reflexivity.
Qed.

Lemma skip_owner_match_rst (skb : sk_buff.t) :
  is_tcp_rst skb -> skip_owner_match skb = true.
Proof.
  unfold is_tcp_rst, skip_owner_match, IP_PROTO_OFF, IPV6_PROTO_OFF,
    IPPROTO_IHL_OFF, TCP_FLAG_OFF, sizeof_ipv6hdr.
  intros [(-> & -> & vhl & flags & -> & -> & Hbit)
         | (-> & -> & flags & -> & Hbit)];
    cbn; by apply rst_bit.
Qed.


Lemma iface_rules_mismatch (skb : sk_buff.t) (u iif : Z) :
  sk_buff.ifindex skb <> 1 -> iif_mismatch skb u iif ->
  iface_rules skb BPF_INGRESS u iif = BPF_DROP_UNLESS_DNS.
Proof.
  intros Hlo (Hbit & Hiif & Hne). unfold iface_rules.
  destruct (Z.eqb_spec (sk_buff.ifindex skb) 1); [done |].
  apply truthy_true in Hbit, Hiif. rewrite Hbit, Hiif.
  by destruct (Z.eqb_spec (sk_buff.ifindex skb) iif).
Qed.

Lemma iface_rules_wildcard (skb : sk_buff.t) (direction u : Z) :
  has_bit u IIF_MATCH -> iface_rules skb direction u 0 = BPF_PASS.
Proof.
  intros Hbit. unfold iface_rules. apply truthy_true in Hbit. rewrite Hbit.
  by destruct ((direction =? BPF_INGRESS) && negb (sk_buff.ifindex skb =? 1)).
Qed.

Lemma iface_rules_lockdown (skb : sk_buff.t) (u iif : Z) :
  sk_buff.ifindex skb <> 1 -> lockdown_only u ->
  iface_rules skb BPF_INGRESS u iif = BPF_DROP_UNLESS_DNS.
Proof.
  intros Hlo (Hno & Hbit). unfold iface_rules.
  destruct (Z.eqb_spec (sk_buff.ifindex skb) 1); [done |].
  assert (Hz : Z.land u IIF_MATCH = 0).
  { unfold has_bit in Hno. lia. }
  apply truthy_false in Hz. apply truthy_true in Hbit. by rewrite Hz, Hbit.
Qed.

(** The caller's treatment of a drop-unless-DNS verdict. *)
Lemma bpf_traffic_account_resolves (m : maps) (skb : sk_buff.t)
    (direction : Z) :
  is_clat m skb = false ->
  bpf_owner_match m skb (sk_buff.uid skb) direction = BPF_DROP_UNLESS_DNS ->
  fst (bpf_traffic_account m skb direction)
  = if is_system_dns m skb then BPF_PASS else BPF_DROP.
Proof.
  intros Hclat Hmatch. unfold bpf_traffic_account.
  rewrite Hclat, Hmatch. cbn [andb Z.eqb BPF_DROP_UNLESS_DNS BPF_DROP].
  rewrite andb_false_r.
  destruct (array_lookup _ _);
    [destruct (truthy _) |]; by destruct (is_system_dns m skb).
Qed.

(** C5, amended: for every ingress packet not arriving on the loopback
    interface that the ESP/RST carve-out does not exempt, from a
    non-system owner not dropped by a restriction category: if the
    owner has the interface-restriction bit and a non-zero allowed
    interface that differs from the ingress interface, the evaluator
    returns DropUnlessExempt; with allowed interface 0 it returns Pass; if
    the interface-restriction bit is absent but the lockdown-VPN bit is
    set, it returns DropUnlessExempt; and the caller turns DropUnlessExempt
    into Pass exactly for the platform's own DNS traffic and into Drop
    otherwise. *)
Theorem iface_rules_drop_unless_dns (m : maps) (skb : sk_buff.t) (uid : Z) :
  skip_owner_match skb = false ->
  is_system_uid uid = false ->
  sk_buff.ifindex skb <> 1 ->
  ~ category_drop (getConfig m UID_RULES_CONFIGURATION_KEY)
                  (uidRules_of m uid) ->
  (iif_mismatch skb (uidRules_of m uid) (allowed_iif_of m uid) ->
   bpf_owner_match m skb uid BPF_INGRESS = BPF_DROP_UNLESS_DNS)
  /\ (has_bit (uidRules_of m uid) IIF_MATCH -> allowed_iif_of m uid = 0 ->
      bpf_owner_match m skb uid BPF_INGRESS = BPF_PASS)
  /\ (lockdown_only (uidRules_of m uid) ->
      bpf_owner_match m skb uid BPF_INGRESS = BPF_DROP_UNLESS_DNS)
  /\ (uid = sk_buff.uid skb -> is_clat m skb = false ->
      bpf_owner_match m skb uid BPF_INGRESS = BPF_DROP_UNLESS_DNS ->
      fst (bpf_traffic_account m skb BPF_INGRESS)
      = if is_system_dns m skb then BPF_PASS else BPF_DROP).
Proof.
  intros Hskip Hsys Hlo Hcat.
  destruct (bpf_owner_match_rules m skb uid BPF_INGRESS Hskip Hsys)
    as [[Hc _] | [_ Hres]]; [contradiction |].
  rewrite Hres. split; [| split; [| split]].
  - by apply iface_rules_mismatch.
  - intros Hbit ->. by apply iface_rules_wildcard.
  - by apply iface_rules_lockdown.
  - intros -> Hclat Hdns. apply bpf_traffic_account_resolves; [done |].
    by rewrite Hres.
Qed.

(** C8: a missing global configuration entry is read as the empty bitmask,
    under which no restriction category drops and the evaluator returns
    Pass unless an interface or lockdown condition applies; a missing
    owner entry is read as a zero restriction bitmask with allowed
    interface 0 (the wildcard), and the evaluator answers as it does for
    an owner table holding that entry. *)
Theorem missing_entries_default (m : maps) (skb : sk_buff.t)
    (uid direction : Z) :
  (array_lookup (configuration_map m) UID_RULES_CONFIGURATION_KEY = None ->
   getConfig m UID_RULES_CONFIGURATION_KEY = 0
   /\ (forall uidRules,
         ~ category_drop (getConfig m UID_RULES_CONFIGURATION_KEY) uidRules)
   /\ bpf_owner_match m skb uid direction <> BPF_DROP
   /\ (~ iface_condition skb direction (uidRules_of m uid)
                         (allowed_iif_of m uid) ->
       bpf_owner_match m skb uid direction = BPF_PASS))
  /\ (uid_owner_map m !! uid = None ->
      uidRules_of m uid = 0
      /\ allowed_iif_of m uid = 0
      /\ bpf_owner_match m skb uid direction
         = bpf_owner_match
             (with_uid_owner_map m
                (<[uid := {| UidOwnerValue.iif := 0;
                             UidOwnerValue.rule := 0 |}]> (uid_owner_map m)))
             skb uid direction).
Proof.
  split.
  - intros Hcfg.
    assert (Hget : getConfig m UID_RULES_CONFIGURATION_KEY = 0).
    { unfold getConfig. by rewrite Hcfg. }
    assert (Hno : forall u,
               ~ category_drop (getConfig m UID_RULES_CONFIGURATION_KEY) u).
    { intros u. rewrite Hget. apply category_drop_disabled. }
    split; [exact Hget |]. split; [exact Hno |].
    destruct (skip_owner_match skb) eqn:Hskip.
    { unfold bpf_owner_match. rewrite Hskip. done. }
    destruct (is_system_uid uid) eqn:Hsys.
    { unfold bpf_owner_match. rewrite Hskip, Hsys. done. }
    destruct (bpf_owner_match_rules m skb uid direction Hskip Hsys)
      as [[Hc _] | [_ Hres]]; [by apply Hno in Hc |].
    rewrite Hres. split.
    + apply iface_rules_not_drop.
    + apply iface_rules_pass.
  - intros Hown.
    unfold bpf_owner_match, uidRules_of, allowed_iif_of, getConfig.
    cbn [with_uid_owner_map uid_owner_map configuration_map].
    rewrite Hown, lookup_insert_eq. done.
Qed.

End Firewall.

Section Accounting.
Context `{BpfShared}.

(** An update leaves every other slot alone. *)
Lemma update_stats_lookup_ne `{Countable K} (max_entries : nat)
    (m : gmap K StatsValue.t) (skb : sk_buff.t) (direction : Z) (k k' : K) :
  k <> k' -> update_stats max_entries m skb direction k !! k' = m !! k'.
Proof.
  intros Hne. unfold update_stats, update_elem_NOEXIST.
  destruct (m !! k) eqn:Hk; cbn zeta.
  - rewrite Hk. destruct (packetize skb) as [packets bytes].
    destruct (direction =? BPF_EGRESS); [by rewrite lookup_insert_ne |].
    destruct (direction =? BPF_INGRESS); [by rewrite lookup_insert_ne |].
    done.
  - destruct (size m <? max_entries)%nat.
    + rewrite lookup_insert_eq. destruct (packetize skb) as [packets bytes].
      destruct (direction =? BPF_EGRESS);
        [by rewrite !lookup_insert_ne |].
      destruct (direction =? BPF_INGRESS);
        [by rewrite !lookup_insert_ne |].
      by rewrite lookup_insert_ne.
    + by rewrite Hk.
Qed.

Lemma update_stats_with_config_app (m : maps) (skb : sk_buff.t)
    (direction : Z) (key : StatsKey.t) (selectedMap : Z) :
  app_uid_stats_map (update_stats_with_config m skb direction key selectedMap)
  = app_uid_stats_map m.
Proof.
  unfold update_stats_with_config.
  destruct (selectedMap =? SELECT_MAP_A); [done |].
  by destruct (selectedMap =? SELECT_MAP_B).
Qed.

Lemma update_stats_with_config_A (m : maps) (skb : sk_buff.t)
    (direction : Z) (key : StatsKey.t) :
  stats_map_A (update_stats_with_config m skb direction key SELECT_MAP_A)
  = update_stats STATS_MAP_SIZE (stats_map_A m) skb direction key.
Proof. unfold update_stats_with_config. by rewrite Z.eqb_refl. Qed.

Lemma update_stats_with_config_B (m : maps) (skb : sk_buff.t)
    (direction : Z) (key : StatsKey.t) :
  SELECT_MAP_B <> SELECT_MAP_A ->
  stats_map_B (update_stats_with_config m skb direction key SELECT_MAP_B)
  = update_stats STATS_MAP_SIZE (stats_map_B m) skb direction key.
Proof.
  intros Hne. unfold update_stats_with_config.
  destruct (Z.eqb_spec SELECT_MAP_B SELECT_MAP_A); [done |].
  by rewrite Z.eqb_refl.
Qed.

Lemma clear_tag_untagged (key : StatsKey.t) :
  StatsKey.tag key = 0 -> clear_tag key = key.
Proof. destruct key as [u t c i]. cbn. by intros ->. Qed.

Lemma clear_tag_tagged (key : StatsKey.t) :
  StatsKey.tag key <> 0 -> key <> clear_tag key.
Proof. destruct key as [u t c i]. cbn. intros Ht [=]. done. Qed.

(** The maps an accounted packet leaves behind, table by table. *)
Lemma bpf_traffic_account_records (m : maps) (skb : sk_buff.t)
    (direction selectedMap : Z) :
  is_clat m skb = false ->
  (direction =? BPF_EGRESS)
  && (bpf_owner_match m skb (sk_buff.uid skb) direction =? BPF_DROP) = false ->
  array_lookup (configuration_map m) CURRENT_STATS_MAP_CONFIGURATION_KEY
  = Some selectedMap ->
  let m' := snd (bpf_traffic_account m skb direction) in
  let key := stats_key m skb in
  app_uid_stats_map m'
  = update_stats APP_STATS_MAP_SIZE (app_uid_stats_map m) skb direction
                 (accounted_uid m skb)
  /\ (selectedMap = SELECT_MAP_A ->
      stats_map_A m'
      = update_stats STATS_MAP_SIZE
          (if truthy (StatsKey.tag key)
           then update_stats STATS_MAP_SIZE (stats_map_A m) skb direction key
           else stats_map_A m)
          skb direction (clear_tag key))
  /\ (selectedMap = SELECT_MAP_B -> SELECT_MAP_B <> SELECT_MAP_A ->
      stats_map_B m'
      = update_stats STATS_MAP_SIZE
          (if truthy (StatsKey.tag key)
           then update_stats STATS_MAP_SIZE (stats_map_B m) skb direction key
           else stats_map_B m)
          skb direction (clear_tag key)).
Proof.
  intros Hclat Hcount Hsel m' key. subst m'.
  unfold bpf_traffic_account. rewrite Hclat, Hcount, Hsel. fold key.
  destruct (truthy (StatsKey.tag key)) eqn:Htag; cbn [snd].
  - split; [| split].
    + cbn [update_app_uid_stats_map app_uid_stats_map].
      by rewrite !update_stats_with_config_app.
    + intros ->. cbn [update_app_uid_stats_map stats_map_A].
      by rewrite !update_stats_with_config_A.
    + intros -> Hne. cbn [update_app_uid_stats_map stats_map_B].
      by rewrite !update_stats_with_config_B.
  - apply truthy_false in Htag. rewrite (clear_tag_untagged key Htag).
    split; [| split].
    + cbn [update_app_uid_stats_map app_uid_stats_map].
      by rewrite !update_stats_with_config_app.
    + intros ->. cbn [update_app_uid_stats_map stats_map_A].
      by rewrite !update_stats_with_config_A.
    + intros -> Hne. cbn [update_app_uid_stats_map stats_map_B].
      by rewrite !update_stats_with_config_B.
Qed.

(** An update creates at most the slot of its key. *)
Lemma update_stats_size `{Countable K} (max_entries : nat)
    (m : gmap K StatsValue.t) (skb : sk_buff.t) (direction : Z) (key : K) :
  (size (update_stats max_entries m skb direction key)
   <= size m + match m !! key with Some _ => 0 | None => 1 end)%nat.
Proof.
  unfold update_stats, update_elem_NOEXIST.
  destruct (m !! key) as [value |] eqn:Hkey; cbn zeta.
  - rewrite Hkey. destruct (packetize skb) as [packets bytes].
    destruct (direction =? BPF_EGRESS);
      [rewrite map_size_insert_Some by done; lia |].
    destruct (direction =? BPF_INGRESS);
      [rewrite map_size_insert_Some by done; lia | lia].
  - destruct (size m <? max_entries)%nat; [| rewrite Hkey; lia].
    rewrite lookup_insert_eq. destruct (packetize skb) as [packets bytes].
    assert (Hins : size (<[key := StatsValue.zero]> m) = S (size m))
      by by apply map_size_insert_None.
    destruct (direction =? BPF_EGRESS);
      [rewrite map_size_insert_Some by (by rewrite lookup_insert_eq); lia |].
    destruct (direction =? BPF_INGRESS);
      [rewrite map_size_insert_Some by (by rewrite lookup_insert_eq); lia |].
    lia.
Qed.

(** The two updates of lines 319-324 on the selected buffer, the first
    one under the tagged key when there is a tag: each slot gets the
    packet once. *)
Lemma buffer_updates_recorded (stats : gmap StatsKey.t StatsValue.t)
    (skb : sk_buff.t) (key : StatsKey.t) :
  buffer_rx_recorded STATS_MAP_SIZE stats
    (update_stats STATS_MAP_SIZE
       (if truthy (StatsKey.tag key)
        then update_stats STATS_MAP_SIZE stats skb BPF_INGRESS key
        else stats)
       skb BPF_INGRESS (clear_tag key))
    key (fst (packetize skb)) (snd (packetize skb)).
Proof.
  split.
  - intros Htag Hslot. pose proof Htag as Ht. apply truthy_true in Ht.
    rewrite Ht.
    destruct (update_stats_recorded STATS_MAP_SIZE stats skb key Hslot)
      as [_ (v & Hv & Hadd)].
    exists v. split; [| exact Hadd].
    rewrite update_stats_lookup_ne; [exact Hv |].
    intros Heq. by apply (clear_tag_tagged key Htag).
  - intros Hroom.
    set (stats1 := if truthy (StatsKey.tag key)
                   then update_stats STATS_MAP_SIZE stats skb BPF_INGRESS key
                   else stats).
    assert (Hsame : stats1 !! clear_tag key = stats !! clear_tag key
                    /\ (size stats1
                        <= size stats + new_tagged_slots stats key)%nat).
    { subst stats1. unfold new_tagged_slots, truthy.
      destruct (Z.eqb_spec (StatsKey.tag key) 0) as [Hz | Hnz]; cbn [negb].
      - split; [done | lia].
      - split; [| apply update_stats_size].
        apply update_stats_lookup_ne. by apply clear_tag_tagged. }
    destruct Hsame as [Hlook Hsize].
    assert (Hslot : slot_or_room STATS_MAP_SIZE stats1 (clear_tag key)).
    { destruct Hroom as [Hsome | Hfree].
      - left. by rewrite Hlook.
      - right. lia. }
    destruct (update_stats_recorded STATS_MAP_SIZE stats1 skb (clear_tag key)
                Hslot) as [_ (v & Hv & Hadd)].
    exists v. split; [exact Hv |].
    unfold counters_before in Hadd |- *. by rewrite <- Hlook.
Qed.


End Accounting.

Section Examples.
#[local] Existing Instance example_consts.

(** Standby is enabled and the owner's entry has the standby bit: Drop.
    Doze is enabled and the owner's entry has the doze bit: Pass.  Doze is
    enabled and the owner has no entry: Drop. *)
Lemma bpf_owner_match_drop_iff_witness :
  bpf_owner_match standby_maps udp_skb 10001 BPF_EGRESS = BPF_DROP
  /\ bpf_owner_match doze_exempt_maps udp_skb 10001 BPF_EGRESS = BPF_PASS
  /\ bpf_owner_match doze_maps udp_skb 10001 BPF_EGRESS = BPF_DROP.
Proof.
  destruct (bpf_owner_match_drop_iff standby_maps udp_skb 10001 BPF_EGRESS)
    as [[_ Hstandby] _]; [reflexivity | reflexivity |].
  destruct (bpf_owner_match_drop_iff doze_exempt_maps udp_skb 10001 BPF_EGRESS)
    as [_ Hexempt]; [reflexivity | reflexivity |].
  destruct (bpf_owner_match_drop_iff doze_maps udp_skb 10001 BPF_EGRESS)
    as [[_ Hdoze] _]; [reflexivity | reflexivity |].
  split; [| split].
  - apply Hstandby. right. exists STANDBY_MATCH.
    split; [| split; by vm_compute].
    unfold deny_list_categories. rewrite !elem_of_cons. by left.
  - apply Hexempt.
    + intros Hcat. apply category_drop_tests in Hcat. vm_compute in Hcat.
      discriminate Hcat.
    + intros (Hdir & _). vm_compute in Hdir. discriminate Hdir.
  - apply Hdoze. left. exists DOZABLE_MATCH.
    split; [| split; [by vm_compute | vm_compute; tauto]].
    unfold allow_list_categories. rewrite !elem_of_cons. by left.
Defined.

(** C5 as stated fails on an ESP packet: it comes in on interface 2, its
    non-system owner is held to interface 3 and no restriction category is
    enabled, and the evaluator returns Pass, not DropUnlessExempt. *)
Lemma iface_rules_esp_counterexample :
  is_system_uid 10001 = false
  /\ sk_buff.ifindex esp_skb <> 1
  /\ ~ category_drop (getConfig iif_maps UID_RULES_CONFIGURATION_KEY)
                     (uidRules_of iif_maps 10001)
  /\ iif_mismatch esp_skb (uidRules_of iif_maps 10001)
                  (allowed_iif_of iif_maps 10001)
  /\ bpf_owner_match iif_maps esp_skb 10001 BPF_INGRESS = BPF_PASS
  /\ bpf_owner_match iif_maps esp_skb 10001 BPF_INGRESS
     <> BPF_DROP_UNLESS_DNS.
Proof.
  split; [reflexivity |]. split; [by vm_compute |].
  split; [apply category_drop_disabled |].
  split; [by vm_compute |].
  split; [reflexivity | by vm_compute].
Qed.

Lemma iface_rules_drop_unless_dns_witness :
  bpf_owner_match iif_maps udp_skb 10001 BPF_INGRESS = BPF_DROP_UNLESS_DNS
  /\ fst (bpf_traffic_account iif_maps udp_skb BPF_INGRESS) = BPF_DROP.
Proof.
  destruct (iface_rules_drop_unless_dns iif_maps udp_skb 10001)
    as (Hmis & _ & _ & Hcaller).
  - reflexivity.
  - reflexivity.
  - by vm_compute.
  - apply category_drop_disabled.
  - assert (Hm : bpf_owner_match iif_maps udp_skb 10001 BPF_INGRESS
                 = BPF_DROP_UNLESS_DNS).
    { apply Hmis. by vm_compute. }
    split; [exact Hm |].
    exact (Hcaller eq_refl eq_refl Hm).
Defined.

Lemma missing_entries_default_witness :
  bpf_owner_match (mk_maps [] ∅ ∅) udp_skb 10001 BPF_INGRESS <> BPF_DROP
  /\ uidRules_of doze_maps 10001 = 0
  /\ allowed_iif_of doze_maps 10001 = 0.
Proof.
  destruct (missing_entries_default (mk_maps [] ∅ ∅) udp_skb 10001
              BPF_INGRESS) as [Hcfg _].
  destruct (missing_entries_default doze_maps udp_skb 10001 BPF_INGRESS)
    as [_ Hown].
  destruct (Hcfg eq_refl) as (_ & _ & Hnot & _).
  destruct (Hown eq_refl) as (Hrules & Hiif & _).
  split; [exact Hnot |]. split; [exact Hrules | exact Hiif].
Defined.





End Examples.


End NetdProofs.

(** * Properties of dscpPolicy.c *)

Module DscpProofs.
Import Dscp.

Section Matcher.
Context `{DscpPolicyH}.

(** ** The score of one rule *)

Lemma bump_score_ok (b : bool) (flag : Z) (acc : Z * Z) :
  score_ok acc -> score_ok (bump b flag acc).
Proof.
  destruct acc as [score temp_mask]. unfold score_ok, bump. cbn.
  intros [Hpos Hz]. destruct b; cbn; [lia | done].
Qed.

Lemma score_policy_ok (policy : DscpPolicy.t) (p : pkt.t) :
  score_ok (score_policy policy p).
Proof.
  unfold score_policy. repeat apply bump_score_ok. by split.
Qed.

Lemma score_at_nonneg (m : maps) (ipv4 : bool) (p : pkt.t) (i : nat) :
  0 <= score_at m ipv4 p i.
Proof.
  unfold score_at. destruct (dscp_policies_lookup m ipv4 (Z.of_nat i));
    [apply score_policy_ok | done].
Qed.

(** An eligible rule has matched at least one field. *)
Lemma eligible_score_pos (m : maps) (skb : sk_buff.t) (ipv4 : bool)
    (p : pkt.t) (i : nat) :
  eligible m skb ipv4 p i = true -> 0 < score_at m ipv4 p i.
Proof.
  unfold eligible, score_at.
  destruct (dscp_policies_lookup m ipv4 (Z.of_nat i)) as [policy |];
    [| by rewrite andb_false_r].
  rewrite !andb_true_iff, negb_true_iff.
  intros (_ & (Hpf & _) & Hmask).
  apply Z.eqb_neq in Hpf. apply Z.eqb_eq in Hmask.
  destruct (score_policy_ok policy p) as [Hpos Hz].
  destruct (Z.eq_dec (fst (score_policy policy p)) 0) as [H0 | H0]; [| lia].
  apply Hz in H0. congruence.
Qed.

(** ** The scan *)

(** One iteration, in terms of eligibility and score. *)
Lemma scan_step_eligible (m : maps) (skb : sk_buff.t) (ipv4 : bool)
    (p : pkt.t) (best : Z * Z) (n : nat) :
  (n < MAX_POLICIES)%nat ->
  scan_step m skb ipv4 p best n
  = if eligible m skb ipv4 p n && (score_at m ipv4 p n >? fst best)
    then (score_at m ipv4 p n, Z.of_nat n)
    else best.
Proof.
  intros Hn. apply Nat.ltb_lt in Hn.
  unfold scan_step, eligible, score_at. rewrite Hn.
  destruct best as [best_score best_match]. cbn [fst andb].
  destruct (dscp_policies_lookup m ipv4 (Z.of_nat n)) as [policy |];
    [| done].
  destruct (DscpPolicy.present_fields policy =? 0); [done |].
  destruct (DscpPolicy.ifindex policy =? sk_buff.ifindex skb); [| done].
  cbn [orb negb andb].
  destruct (score_policy policy p) as [score temp_mask]. cbn [fst snd].
  destruct (temp_mask =? DscpPolicy.present_fields policy);
    destruct (score >? best_score); done.
Qed.

Lemma scan_inv_step (m : maps) (skb : sk_buff.t) (ipv4 : bool) (p : pkt.t)
    (n : nat) (best : Z * Z) :
  (n < MAX_POLICIES)%nat ->
  scan_inv m skb ipv4 p n best ->
  scan_inv m skb ipv4 p (S n) (scan_step m skb ipv4 p best n).
Proof.
  intros Hn Hinv. rewrite scan_step_eligible by done.
  pose proof (score_at_nonneg m ipv4 p n) as Hpos.
  destruct (eligible m skb ipv4 p n) eqn:Hel; cbn [andb].
  - destruct (Z.gtb_spec (score_at m ipv4 p n) (fst best)) as [Hgt | Hle].
    + right. exists n. cbn [fst snd].
      split; [lia |]. split; [done |]. split; [done |]. split; [done |].
      intros j Hj Hej.
      destruct (Nat.eq_dec j n) as [-> | Hne]; [split; [lia | done] |].
      destruct Hinv as [(_ & Hnone) | (i & _ & _ & _ & _ & Hbest)].
      * rewrite Hnone in Hej by lia. done.
      * destruct (Hbest j ltac:(lia) Hej) as [Hj_le _]. lia.
    + destruct Hinv as [(Hm1 & _) | (i & Hi & Hbm & Hei & Hsi & Hbest)];
        [lia |].
      right. exists i.
      split; [lia |]. split; [done |]. split; [done |]. split; [done |].
      intros j Hj Hej.
      destruct (Nat.eq_dec j n) as [-> | Hne]; [split; [done | lia] |].
      apply Hbest; [lia | done].
  - destruct Hinv as [(Hm1 & Hnone) | (i & Hi & Hbm & Hei & Hsi & Hbest)].
    + left. split; [done |]. intros j Hj.
      destruct (Nat.eq_dec j n) as [-> | Hne]; [done |].
      apply Hnone. lia.
    + right. exists i.
      split; [lia |]. split; [done |]. split; [done |]. split; [done |].
      intros j Hj Hej.
      destruct (Nat.eq_dec j n) as [-> | Hne]; [congruence |].
      apply Hbest; [lia | done].
Qed.

Lemma scan_prefix_inv (m : maps) (skb : sk_buff.t) (ipv4 : bool) (p : pkt.t)
    (n : nat) :
  (n <= MAX_POLICIES)%nat ->
  scan_inv m skb ipv4 p n
           (fold_left (scan_step m skb ipv4 p) (seq 0 n) (-1, 0)).
Proof.
  induction n as [| n IH]; intros Hn.
  - left. split; [done |]. intros j Hj. lia.
  - rewrite seq_S, fold_left_app. cbn [fold_left Nat.add].
    apply scan_inv_step; [lia |]. apply IH. lia.
Qed.

Lemma scan_policies_inv (m : maps) (skb : sk_buff.t) (ipv4 : bool)
    (p : pkt.t) :
  scan_inv m skb ipv4 p MAX_POLICIES (scan_policies m skb ipv4 p).
Proof. by apply scan_prefix_inv. Qed.

Lemma eligible_below (m : maps) (skb : sk_buff.t) (ipv4 : bool) (p : pkt.t)
    (j : nat) :
  eligible m skb ipv4 p j = true -> (j < MAX_POLICIES)%nat.
Proof.
  unfold eligible. rewrite andb_true_iff. intros [Hj _].
  by apply Nat.ltb_lt.
Qed.

(** The winner, when there is one. *)
Lemma selected_policy_some (m : maps) (skb : sk_buff.t) (ipv4 : bool)
    (p : pkt.t) (best_match : Z) :
  selected_policy m skb ipv4 p = Some best_match ->
  exists i : nat,
    best_match = Z.of_nat i
    /\ eligible m skb ipv4 p i = true
    /\ forall j, eligible m skb ipv4 p j = true ->
                 score_at m ipv4 p j <= score_at m ipv4 p i
                 /\ (score_at m ipv4 p j = score_at m ipv4 p i -> (i <= j)%nat).
Proof.
  unfold selected_policy.
  pose proof (scan_policies_inv m skb ipv4 p) as Hinv.
  destruct (scan_policies m skb ipv4 p) as [best_score bm].
  unfold scan_inv in Hinv. cbn [fst snd] in Hinv.
  destruct (Z.gtb_spec best_score 0) as [Hgt | Hle]; [| done].
  intros [= <-].
  destruct Hinv as [(Hm1 & _) | (i & Hi & Hbm & Hei & Hsi & Hbest)]; [lia |].
  exists i. split; [done |]. split; [done |].
  intros j Hej. rewrite Hsi. apply Hbest; [| done].
  by apply eligible_below in Hej.
Qed.

Lemma selected_policy_none (m : maps) (skb : sk_buff.t) (ipv4 : bool)
    (p : pkt.t) :
  selected_policy m skb ipv4 p = None ->
  forall j, eligible m skb ipv4 p j = false.
Proof.
  unfold selected_policy.
  pose proof (scan_policies_inv m skb ipv4 p) as Hinv.
  destruct (scan_policies m skb ipv4 p) as [best_score bm].
  unfold scan_inv in Hinv. cbn [fst snd] in Hinv.
  destruct (Z.gtb_spec best_score 0) as [Hgt | Hle]; [done |].
  intros _ j.
  destruct (eligible m skb ipv4 p j) eqn:Hej; [| done].
  pose proof (eligible_below _ _ _ _ _ Hej) as Hj.
  destruct Hinv as [(_ & Hnone) | (i & Hi & Hbm & Hei & Hsi & Hbest)].
  - rewrite Hnone in Hej by done. done.
  - pose proof (eligible_score_pos _ _ _ _ _ Hei). lia.
Qed.

(** [selected_policy] is what the slow path acts on: without a winner it
    returns with the maps and the packet as they were, and with one it
    stores the packet's tuple with the winner's DSCP value. *)
Lemma match_by_scan_unselected (m : maps) (skb : sk_buff.t) (ipv4 : bool)
    (l2 selected_map cookie : Z) (p : pkt.t) :
  selected_policy m skb ipv4 p = None ->
  match_by_scan m skb ipv4 l2 selected_map cookie p = (m, skb).
Proof.
  unfold selected_policy, match_by_scan.
  destruct (scan_policies m skb ipv4 p) as [best_score best_match].
  by destruct (best_score >? 0).
Qed.

Lemma match_by_scan_selected (m : maps) (skb : sk_buff.t) (ipv4 : bool)
    (l2 selected_map cookie : Z) (p : pkt.t) (best_match : Z)
    (policy : DscpPolicy.t) :
  selected_policy m skb ipv4 p = Some best_match ->
  dscp_policies_lookup m ipv4 best_match = Some policy ->
  fst (match_by_scan m skb ipv4 l2 selected_map cookie p)
  = socket_to_policies_update m ipv4 selected_map cookie
      (rule_of_packet skb p (wrap 8 (DscpPolicy.dscp_val policy))).
Proof.
  unfold selected_policy, match_by_scan.
  destruct (scan_policies m skb ipv4 p) as [best_score bm].
  destruct (best_score >? 0); [| done].
  intros [= ->] ->.
  repeat match goal with
         | |- context [if ?b then _ else _] => destruct b
         end; reflexivity.
Qed.

(** ** Rules that cannot win *)

Lemma land_wrap8 (x F : Z) : Z.land x F = 0 -> Z.land (wrap 8 x) F = 0.
Proof.
  intros Hx. unfold wrap. rewrite <- Z.land_ones by lia.
  rewrite <- Z.land_assoc, (Z.land_comm (Z.ones 8) F), Z.land_assoc, Hx.
  apply Z.land_0_l.
Qed.

(** A step of the score leaves the bits of [F] out of the mask when it
    does not fire or fires for a flag that shares no bit with [F]. *)
Lemma bump_misses (F : Z) (b : bool) (flag : Z) (acc : Z * Z) :
  b = false \/ Z.land flag F = 0 ->
  Z.land (snd acc) F = 0 ->
  Z.land (snd (bump b flag acc)) F = 0.
Proof.
  destruct acc as [score temp_mask]. unfold bump. cbn [snd].
  intros [-> | Hflag] Hacc; [done |].
  destruct b; cbn [snd]; [| done].
  apply land_wrap8. by rewrite Z.land_lor_distr_l, Hacc, Hflag.
Qed.

(** The mask of matched fields misses the bits of a field that the
    packet does not satisfy. *)
Lemma score_mask_misses (policy : DscpPolicy.t) (p : pkt.t) (k : nat)
    (F : Z) :
  flags_distinct ->
  field_tests policy p !! k = Some (F, false) ->
  Z.land (snd (score_policy policy p)) F = 0.
Proof.
  intros [_ Hdis] Hk. unfold score_policy.
  assert (Hpair : forall j f, mask_flags !! j = Some f -> j <> k ->
                              Z.land f F = 0).
  { intros j f Hj Hne. apply (Hdis j k f F); [done | | done].
    destruct k as [| [| [| [| [| k]]]]]; cbn in Hk |- *;
      [congruence .. | by destruct k]. }
  destruct k as [| [| [| [| [| k]]]]]; cbn in Hk;
    [| | | | | by destruct k];
    injection Hk as <- Hfalse; rewrite Hfalse;
    repeat (apply bump_misses;
            [first [ left; apply andb_false_r
                   | right;
                     first [ by apply (Hpair 0%nat)
                           | by apply (Hpair 1%nat)
                           | by apply (Hpair 2%nat)
                           | by apply (Hpair 3%nat)
                           | by apply (Hpair 4%nat) ] ] |]);
    done.
Qed.

Lemma partial_match_mask (policy : DscpPolicy.t) (p : pkt.t) :
  flags_distinct -> partial_match policy p ->
  snd (score_policy policy p) <> DscpPolicy.present_fields policy.
Proof.
  intros Hflags (k & F & Hk & Hdecl) Heq.
  pose proof (score_mask_misses policy p k F Hflags Hk) as Hmiss.
  unfold declared in Hdecl. apply Z.eqb_eq in Hdecl.
  rewrite Heq, Hdecl in Hmiss.
  destruct Hflags as [Hnz _]. apply (Hnz k F); [| done].
  destruct k as [| [| [| [| [| k]]]]]; cbn in Hk |- *;
    [congruence .. | by destruct k].
Qed.

(** ** Eligibility and score, read off the rule and the packet *)

Lemma wrap8_lor (a b : Z) : wrap 8 (Z.lor (wrap 8 a) b) = wrap 8 (Z.lor a b).
Proof.
  unfold wrap. rewrite <- !Z.land_ones by lia.
  rewrite !Z.land_lor_distr_l, <- Z.land_assoc, Z.land_diag. done.
Qed.

(** The five steps of the score as a fold over the five field tests:
    the score counts the tests that fire and the mask collects their
    flags. *)
Lemma score_fold (policy : DscpPolicy.t) (tests : list (Z * bool))
    (score t0 : Z) :
  fold_left (fun acc (test : Z * bool) =>
               bump (declared policy (fst test) && snd test) (fst test) acc)
            tests (score, wrap 8 t0)
  = (score
     + Z.of_nat (length (omap (fun test : Z * bool =>
                                 if declared policy (fst test) && snd test
                                 then Some (fst test) else None) tests)),
     wrap 8 (Z.lor t0
               (mask_of (omap (fun test : Z * bool =>
                                 if declared policy (fst test) && snd test
                                 then Some (fst test) else None) tests)))).
Proof.
  revert score t0. induction tests as [| [flag ok] tests IH]; intros score t0.
  - cbn. by rewrite Z.add_0_r, Z.lor_0_r.
  - cbn [fold_left omap list_omap fst snd].
    destruct (declared policy flag && ok); cbn [bump].
    + rewrite wrap8_lor, IH. cbn [length mask_of foldr].
      f_equal; [lia |]. fold (mask_of (omap
        (fun test : Z * bool =>
           if declared policy (fst test) && snd test then Some (fst test)
           else None) tests)).
      by rewrite Z.lor_assoc.
    + apply IH.
Qed.

Lemma score_policy_counts (policy : DscpPolicy.t) (p : pkt.t) :
  score_policy policy p
  = (matched_count policy p, wrap 8 (mask_of (matched_fields policy p))).
Proof.
  pose proof (score_fold policy (field_tests policy p) 0 0) as Hfold.
  rewrite Z.add_0_l, Z.lor_0_l in Hfold. exact Hfold.
Qed.

(** When the packet satisfies every declared field, the matched fields
    are the declared ones. *)
Lemma matched_all_declared (policy : DscpPolicy.t) (p : pkt.t) :
  ~ partial_match policy p ->
  matched_fields policy p = declared_fields policy.
Proof.
  intros Hnp.
  assert (Hk : forall (k : nat) (flag : Z),
             field_tests policy p !! k = Some (flag, false) ->
             declared policy flag = false).
  { intros k flag Hl. destruct (declared policy flag) eqn:Hd; [| done].
    exfalso. apply Hnp. by exists k, flag. }
  unfold matched_fields, declared_fields, field_tests, mask_flags in *.
  cbn [omap list_omap fst snd].
  destruct (src_ip_equal policy p) eqn:H0;
    [rewrite andb_true_r | rewrite (Hk 0%nat _ eq_refl), andb_false_l];
  (destruct (dst_ip_equal policy p) eqn:H1;
    [rewrite andb_true_r | rewrite (Hk 1%nat _ eq_refl), andb_false_l]);
  (destruct (src_port_equal policy p) eqn:H2;
    [rewrite andb_true_r | rewrite (Hk 2%nat _ eq_refl), andb_false_l]);
  (destruct (dst_port_in_range policy p) eqn:H3;
    [rewrite andb_true_r | rewrite (Hk 3%nat _ eq_refl), andb_false_l]);
  (destruct (proto_equal policy p) eqn:H4;
    [rewrite andb_true_r | rewrite (Hk 4%nat _ eq_refl), andb_false_l]);
  reflexivity.
Qed.

(** The test of the scan is the test of the rule against the packet. *)
Lemma eligible_applies (m : maps) (skb : sk_buff.t) (ipv4 : bool)
    (p : pkt.t) (i : nat) (policy : DscpPolicy.t) :
  flags_distinct ->
  rule_at m ipv4 i = Some policy ->
  eligible m skb ipv4 p i = true <-> applies policy skb p.
Proof.
  intros Hflags Hrule. unfold rule_at in Hrule. unfold eligible, applies.
  destruct (i <? MAX_POLICIES)%nat; [| done]. rewrite Hrule. cbn [andb].
  rewrite !andb_true_iff, negb_true_iff, Z.eqb_neq, !Z.eqb_eq.
  rewrite score_policy_counts. cbn [snd].
  split.
  - intros [[Hpf Hif] Hmask].
    assert (Hnp : ~ partial_match policy p).
    { intros Hpartial.
      apply (partial_match_mask policy p Hflags Hpartial).
      by rewrite score_policy_counts. }
    split; [done |]. split; [done |]. split; [| done].
    by rewrite <- (matched_all_declared policy p Hnp).
  - intros (Hpf & Hif & Hmask & Hnp).
    split; [done |]. by rewrite (matched_all_declared policy p Hnp).
Qed.

Lemma eligible_rule_at (m : maps) (skb : sk_buff.t) (ipv4 : bool)
    (p : pkt.t) (i : nat) :
  eligible m skb ipv4 p i = true ->
  exists policy, rule_at m ipv4 i = Some policy.
Proof.
  unfold eligible, rule_at. destruct (i <? MAX_POLICIES)%nat; [| done].
  destruct (dscp_policies_lookup m ipv4 (Z.of_nat i)) as [policy |];
    [eauto | done].
Qed.

Lemma score_at_counts (m : maps) (ipv4 : bool) (p : pkt.t) (i : nat)
    (policy : DscpPolicy.t) :
  rule_at m ipv4 i = Some policy ->
  score_at m ipv4 p i = matched_count policy p.
Proof.
  unfold rule_at, score_at. destruct (i <? MAX_POLICIES)%nat; [| done].
  intros ->. by rewrite score_policy_counts.
Qed.

(** C2: for every rule table and every flow tuple, the five field flags
    being non-empty and sharing no bit: a rule is eligible when it applies
    to the packet (non-zero mask, the packet's interface, every declared
    field satisfied) and its score is the number of declared fields the
    packet satisfies.  When some rule of the table is eligible the matcher
    selects an eligible rule whose score no eligible rule exceeds, and
    among the eligible rules of that score the one with the lowest table
    index (first wins); when no rule is eligible it selects none. *)
Theorem scan_selects_best_first (m : maps) (skb : sk_buff.t) (ipv4 : bool)
    (p : pkt.t) :
  flags_distinct ->
  match selected_policy m skb ipv4 p with
  | Some best_match =>
      exists (i : nat) (policy : DscpPolicy.t),
        best_match = Z.of_nat i
        /\ rule_at m ipv4 i = Some policy
        /\ applies policy skb p
        /\ forall (j : nat) (policy' : DscpPolicy.t),
             rule_at m ipv4 j = Some policy' -> applies policy' skb p ->
             matched_count policy' p <= matched_count policy p
             /\ (matched_count policy' p = matched_count policy p ->
                 (i <= j)%nat)
  | None =>
      forall (j : nat) (policy' : DscpPolicy.t),
        rule_at m ipv4 j = Some policy' -> ~ applies policy' skb p
  end.
Proof.
  intros Hflags.
  destruct (selected_policy m skb ipv4 p) as [best_match |] eqn:Hsel.
  - apply selected_policy_some in Hsel as (i & Hbm & Hel & Hbest).
    destruct (eligible_rule_at m skb ipv4 p i Hel) as [policy Hrule].
    exists i, policy. split; [done |]. split; [done |].
    split; [by apply (eligible_applies m skb ipv4 p i policy Hflags Hrule) |].
    intros j policy' Hrule' Happ.
    apply (eligible_applies m skb ipv4 p j policy' Hflags Hrule') in Happ.
    rewrite <- (score_at_counts m ipv4 p i policy Hrule).
    rewrite <- (score_at_counts m ipv4 p j policy' Hrule').
    by apply Hbest.
  - intros j policy' Hrule' Happ.
    apply (eligible_applies m skb ipv4 p j policy' Hflags Hrule') in Happ.
    by rewrite (selected_policy_none m skb ipv4 p Hsel j) in Happ.
Qed.

(** C3: for every rule table and every flow tuple, a rule whose
    present-fields mask is all zero is not eligible and is never selected;
    and, the five field flags being non-empty and sharing no bit, a rule
    with a declared field that the packet does not satisfy (only a proper
    subset of its declared fields matches) is not eligible and is never
    selected, whatever score it was given. *)
Theorem absent_and_partial_rules_never_selected (m : maps)
    (skb : sk_buff.t) (ipv4 : bool) (p : pkt.t) (i : nat)
    (policy : DscpPolicy.t) :
  dscp_policies_lookup m ipv4 (Z.of_nat i) = Some policy ->
  (DscpPolicy.present_fields policy = 0 ->
   eligible m skb ipv4 p i = false
   /\ selected_policy m skb ipv4 p <> Some (Z.of_nat i))
  /\ (flags_distinct -> partial_match policy p ->
      eligible m skb ipv4 p i = false
      /\ selected_policy m skb ipv4 p <> Some (Z.of_nat i)).
Proof.
  intros Hlookup.
  assert (Hsel : eligible m skb ipv4 p i = false ->
                 selected_policy m skb ipv4 p <> Some (Z.of_nat i)).
  { intros Hne Hs.
    apply selected_policy_some in Hs as (i' & Hi' & Hel & _).
    apply Nat2Z.inj in Hi'. subst i'. congruence. }
  split.
  - intros Hzero.
    assert (Hne : eligible m skb ipv4 p i = false).
    { unfold eligible. rewrite Hlookup, Hzero. cbn. apply andb_false_r. }
    split; [exact Hne | by apply Hsel].
  - intros Hflags Hpartial.
    assert (Hne : eligible m skb ipv4 p i = false).
    { unfold eligible. rewrite Hlookup.
      pose proof (partial_match_mask policy p Hflags Hpartial) as Hmask.
      apply Z.eqb_neq in Hmask. rewrite Hmask.
      by rewrite !andb_false_r. }
    split; [exact Hne | by apply Hsel].
Qed.

(** ** The header parse *)

(** Without a tuple the program leaves the maps and the packet alone. *)
Lemma match_policy_no_tuple (m : maps) (skb : sk_buff.t) (ipv4 is_eth : bool) :
  extract skb ipv4 is_eth = None ->
  match_policy m skb ipv4 is_eth = (m, skb).
Proof.
  unfold extract, match_policy, l2_header_size. intros Hex.
  destruct (_ >? _); [done |].
  destruct (array_lookup (switch_comp_map m) 0); [| done].
  destruct (sk_buff.cookie skb =? 0); [done |].
  destruct (parse_ip _ _ _) as [p |]; [| done].
  by rewrite Hex.
Qed.

(** With a tuple, a selected buffer and a socket cookie, what is left of
    the program is the flow cache and the scan. *)
Lemma match_policy_tuple (m : maps) (skb : sk_buff.t) (ipv4 is_eth : bool)
    (selected_map : Z) (p : pkt.t) :
  array_lookup (switch_comp_map m) 0 = Some selected_map ->
  sk_buff.cookie skb <> 0 ->
  extract skb ipv4 is_eth = Some p ->
  match_policy m skb ipv4 is_eth
  = match socket_to_policies_lookup m ipv4 selected_map (sk_buff.cookie skb)
    with
    | Some existing_rule =>
        if rule_matches_packet existing_rule skb p
        then (m, apply_existing_rule existing_rule skb ipv4
                                     (l2_header_size is_eth) p)
        else match_by_scan m skb ipv4 (l2_header_size is_eth) selected_map
                           (sk_buff.cookie skb) p
    | None => match_by_scan m skb ipv4 (l2_header_size is_eth) selected_map
                            (sk_buff.cookie skb) p
    end.
Proof.
  unfold extract, match_policy, l2_header_size. intros Hsel Hcookie Hex.
  destruct (_ >? _); [done |]. rewrite Hsel.
  destruct (Z.eqb_spec (sk_buff.cookie skb) 0); [done |].
  destruct (parse_ip _ _ _) as [p0 |]; [| done].
  by rewrite Hex.
Qed.

Ltac split_tests :=
  repeat match goal with
         | |- context [?a >? ?b] => destruct (Z.gtb_spec a b)
         | |- context [?a =? ?b] => destruct (Z.eqb_spec a b)
         end.

Lemma extract_none_iff (skb : sk_buff.t) (ipv4 is_eth : bool) :
  extract skb ipv4 is_eth = None
  <-> malformed skb ipv4 is_eth
      \/ ~ is_transport (ip_protocol skb ipv4 is_eth).
Proof.
  unfold extract, parse_ip, parse_transport, malformed, fits, ip_version,
    ip_ihl, ip_protocol, transport_header_size, is_transport, iph_version,
    iph_ihl, iph_protocol, ip6h_version, ip6h_nexthdr, ip_header_size,
    l2_header_size, sizeof_ethhdr, sizeof_iphdr, sizeof_ipv6hdr,
    sizeof_tcphdr, sizeof_udphdr, IPPROTO_UDP, IPPROTO_UDPLITE, IPPROTO_TCP.
  set (n := Z.of_nat (length (sk_buff.data skb))).
  destruct ipv4, is_eth; cbn [pkt.protocol pkt.hdr_size];
    split_tests; cbn [negb orb pkt.protocol pkt.hdr_size]; split_tests;
    (split; [intros Hnone; try discriminate Hnone | intros Hbad; try done]);
    try (left; lia); try (right; lia);
    try (left; right; lia); try (left; right; right; left; lia);
    try (left; right; right; right; left; split; [done | lia]);
    try (left; right; right; right; right; split; lia);
    try (exfalso; intuition (try lia; try congruence)).
Qed.

(** C7: the header parse yields no tuple exactly when a header does not
    fit within the captured bytes, the IP version field is not the
    declared family's, an IPv4 header has a header length other than 5
    words, or the transport protocol is not UDP, UDP-Lite or TCP; and
    whenever it yields no tuple the program returns with the maps and the
    packet as they were: nothing is classified, cached or marked. *)
Theorem extraction_fails_benignly (skb : sk_buff.t) (ipv4 is_eth : bool) :
  (extract skb ipv4 is_eth = None
   <-> malformed skb ipv4 is_eth
       \/ ~ is_transport (ip_protocol skb ipv4 is_eth))
  /\ (malformed skb ipv4 is_eth ->
      forall m, match_policy m skb ipv4 is_eth = (m, skb))
  /\ (~ is_transport (ip_protocol skb ipv4 is_eth) ->
      forall m, match_policy m skb ipv4 is_eth = (m, skb)).
Proof.
  pose proof (extract_none_iff skb ipv4 is_eth) as Hiff.
  split; [exact Hiff |]. split.
  - intros Hbad m. apply match_policy_no_tuple, Hiff. by left.
  - intros Hna m. apply match_policy_no_tuple, Hiff. by right.
Qed.

(** ** The flow cache *)

Lemma byte_val_range (b : Byte.byte) : 0 <= byte_val b < 256.
Proof.
  unfold byte_val. pose proof (Byte.to_N_bounded b). lia.
Qed.

Lemma byte_at_range (d : list Byte.byte) (off : Z) : 0 <= byte_at d off < 256.
Proof.
  unfold byte_at. destruct (off <? 0); [lia |].
  destruct (d !! Z.to_nat off); [apply byte_val_range | lia].
Qed.

Lemma load16_range (d : list Byte.byte) (off : Z) :
  0 <= load16 d off < 65536.
Proof.
  unfold load16.
  pose proof (byte_at_range d off) as Hlo.
  pose proof (byte_at_range d (off + 1)) as Hhi.
  rewrite Z.shiftl_mul_pow2 by lia. change (2 ^ 8) with 256.
  pose proof (Z.add_lor_land (byte_at d off) (byte_at d (off + 1) * 256))
    as Hadd.
  assert (0 <= Z.land (byte_at d off) (byte_at d (off + 1) * 256))
    by (apply Z.land_nonneg; lia).
  assert (0 <= Z.lor (byte_at d off) (byte_at d (off + 1) * 256))
    by (apply Z.lor_nonneg; lia).
  lia.
Qed.

(** The ports of a parsed tuple are 16-bit values. *)
Lemma extract_ports_range (skb : sk_buff.t) (ipv4 is_eth : bool) (p : pkt.t) :
  extract skb ipv4 is_eth = Some p ->
  0 <= pkt.sport p < 65536 /\ 0 <= pkt.dport p < 65536.
Proof.
  unfold extract, parse_transport.
  destruct (_ >? _); [done |].
  destruct (parse_ip _ _ _) as [p0 |]; [| done].
  destruct (_ || _).
  - destruct (_ >? _); [done |]. intros [= <-]. cbn.
    split; apply load16_range.
  - destruct (_ =? _); [| done].
    destruct (_ >? _); [done |]. intros [= <-]. cbn.
    split; apply load16_range.
Qed.

Lemma land_shiftl_low (a b : Z) : Z.land (Z.shiftl a 8) (Z.land b 255) = 0.
Proof.
  apply Z.bits_inj'. intros n Hn. rewrite !Z.land_spec, Z.bits_0.
  destruct (Z.lt_ge_cases n 8).
  - by rewrite Z.shiftl_spec_low.
  - change 255 with (Z.ones 8). rewrite Z.ones_spec_high by lia.
    by rewrite !andb_false_r.
Qed.

Lemma bswap16_val (x : Z) :
  bswap16 x = 256 * (x mod 256) + (x / 256) mod 256.
Proof.
  unfold bswap16.
  pose proof (Z.add_lor_land (Z.shiftl (Z.land x 255) 8)
                             (Z.land (Z.shiftr x 8) 255)) as Hadd.
  rewrite land_shiftl_low, Z.add_0_r in Hadd. rewrite Hadd.
  change 255 with (Z.ones 8). rewrite !Z.land_ones by lia.
  rewrite Z.shiftl_mul_pow2, Z.shiftr_div_pow2 by lia.
  change (2 ^ 8) with 256. lia.
Qed.

(** The byte swap loses nothing on 16-bit values. *)
Lemma bswap16_inj (x y : Z) :
  0 <= x < 65536 -> 0 <= y < 65536 -> bswap16 x = bswap16 y -> x = y.
Proof.
  intros Hx Hy. rewrite !bswap16_val. intros Heq.
  Z.div_mod_to_equations. lia.
Qed.

Lemma v6_equal_eq (a b : in6_addr.t) : v6_equal a b = true <-> a = b.
Proof.
  destruct a as [a0 a1 a2 a3], b as [b0 b1 b2 b3]. unfold v6_equal. cbn.
  rewrite !andb_true_iff, !Z.eqb_eq. split.
  - intros [[[-> ->] ->] ->]. done.
  - intros [= -> -> -> ->]. done.
Qed.

(** The test of line 157 is the comparison of the two tuples. *)
Lemma rule_matches_packet_same_flow (existing_rule : RuleEntry.t)
    (skb : sk_buff.t) (p : pkt.t) :
  ports_in_range existing_rule ->
  0 <= pkt.sport p < 65536 -> 0 <= pkt.dport p < 65536 ->
  rule_matches_packet existing_rule skb p = true
  <-> same_flow existing_rule skb p.
Proof.
  intros [Hsp Hdp] Hs Hd. unfold rule_matches_packet, same_flow, ntohs, htons.
  rewrite !andb_true_iff, !v6_equal_eq, !Z.eqb_eq. split.
  - intros [[[[[Ha Hb] Hi] Hps] Hpd] Hpr].
    apply bswap16_inj in Hps; [| done ..].
    apply bswap16_inj in Hpd; [| done ..]. done.
  - intros (Ha & Hb & Hi & Hps & Hpd & Hpr).
    by rewrite Ha, Hb, Hi, Hps, Hpd, Hpr.
Qed.

(** The scan reads the rule tables only. *)
Lemma scan_policies_tables (m m' : maps) (skb : sk_buff.t) (ipv4 : bool)
    (p : pkt.t) :
  ipv4_dscp_policies_map m = ipv4_dscp_policies_map m' ->
  ipv6_dscp_policies_map m = ipv6_dscp_policies_map m' ->
  scan_policies m skb ipv4 p = scan_policies m' skb ipv4 p.
Proof.
  intros H4 H6. unfold scan_policies.
  generalize (seq 0 MAX_POLICIES) (-1, 0).
  intros l. induction l as [| i l IH]; intros best; [done |].
  cbn [fold_left]. rewrite IH. f_equal.
  unfold scan_step, dscp_policies_lookup. by rewrite H4, H6.
Qed.

(** So does the packet the slow path leaves behind. *)
Lemma match_by_scan_packet (m m' : maps) (skb : sk_buff.t) (ipv4 : bool)
    (l2 selected_map cookie : Z) (p : pkt.t) :
  ipv4_dscp_policies_map m = ipv4_dscp_policies_map m' ->
  ipv6_dscp_policies_map m = ipv6_dscp_policies_map m' ->
  snd (match_by_scan m skb ipv4 l2 selected_map cookie p)
  = snd (match_by_scan m' skb ipv4 l2 selected_map cookie p).
Proof.
  intros H4 H6. unfold match_by_scan.
  rewrite (scan_policies_tables m m' skb ipv4 p H4 H6).
  destruct (scan_policies m' skb ipv4 p) as [best_score best_match].
  destruct (best_score >? 0); [| done].
  unfold dscp_policies_lookup. rewrite H4, H6.
  repeat match goal with
         | |- context [if ?b then _ else _] => destruct b
         end; done.
Qed.

Lemma socket_to_policies_lookup_delete (m : maps) (ipv4 : bool)
    (selected_map cookie : Z) :
  socket_to_policies_lookup (socket_to_policies_delete m ipv4 selected_map
                                                       cookie)
                            ipv4 selected_map cookie = None.
Proof.
  unfold socket_to_policies_lookup, socket_to_policies_delete.
  destruct ipv4, (selected_map =? MAP_A); cbn; apply lookup_delete_eq.
Qed.

(** What the program writes into the cache keeps ports 16-bit: the
    assumption of the next theorem on the cached entry holds of every
    entry the program itself has stored. *)
Lemma update_elem_ANY_lookup (max_entries : nat) (cache : gmap Z RuleEntry.t)
    (k k' : Z) (v e : RuleEntry.t) :
  update_elem_ANY max_entries cache k v !! k' = Some e ->
  e = v \/ cache !! k' = Some e.
Proof.
  unfold update_elem_ANY.
  destruct (cache !! k); [| destruct (_ <? _)%nat]; rewrite ?lookup_insert;
    try case_decide; intros Hl; try (right; exact Hl);
    left; congruence.
Qed.

Lemma socket_to_policies_update_lookup (m : maps) (ipv4 ipv4' : bool)
    (selected_map selected_map' cookie cookie' : Z) (v e : RuleEntry.t) :
  socket_to_policies_lookup
    (socket_to_policies_update m ipv4 selected_map cookie v)
    ipv4' selected_map' cookie' = Some e ->
  e = v \/ socket_to_policies_lookup m ipv4' selected_map' cookie' = Some e.
Proof.
  unfold socket_to_policies_lookup, socket_to_policies_update.
  destruct ipv4, ipv4', (selected_map =? MAP_A), (selected_map' =? MAP_A);
    cbn; intros Hl; try (right; exact Hl);
    by apply update_elem_ANY_lookup in Hl.
Qed.

Lemma match_by_scan_maps (m : maps) (skb : sk_buff.t) (ipv4 : bool)
    (l2 selected_map cookie : Z) (p : pkt.t) :
  fst (match_by_scan m skb ipv4 l2 selected_map cookie p) = m
  \/ exists new_dscp,
       fst (match_by_scan m skb ipv4 l2 selected_map cookie p)
       = socket_to_policies_update m ipv4 selected_map cookie
                                   (rule_of_packet skb p new_dscp).
Proof.
  unfold match_by_scan.
  destruct (scan_policies m skb ipv4 p) as [best_score best_match].
  destruct (best_score >? 0); [| by left].
  right.
  exists (match dscp_policies_lookup m ipv4 best_match with
          | Some pol => wrap 8 (DscpPolicy.dscp_val pol)
          | None => 0
          end).
  repeat match goal with
         | |- context [if ?b then _ else _] => destruct b
         end; reflexivity.
Qed.

Lemma match_policy_keeps_ports (m : maps) (skb : sk_buff.t)
    (ipv4 is_eth : bool) :
  cache_ports_ok m -> cache_ports_ok (fst (match_policy m skb ipv4 is_eth)).
Proof.
  intros Hok.
  destruct (extract skb ipv4 is_eth) as [p |] eqn:Hex;
    [| by rewrite match_policy_no_tuple].
  destruct (array_lookup (switch_comp_map m) 0) as [selected_map |] eqn:Hsel.
  2: { unfold match_policy. rewrite Hsel. by destruct (_ >? _). }
  destruct (Z.eq_dec (sk_buff.cookie skb) 0) as [Hc | Hc].
  { unfold match_policy. rewrite Hsel, Hc. by destruct (_ >? _). }
  rewrite (match_policy_tuple m skb ipv4 is_eth selected_map p) by done.
  assert (Hscan : cache_ports_ok
                    (fst (match_by_scan m skb ipv4 (l2_header_size is_eth)
                            selected_map (sk_buff.cookie skb) p))).
  { destruct (match_by_scan_maps m skb ipv4 (l2_header_size is_eth)
                selected_map (sk_buff.cookie skb) p) as [-> | [dscp ->]];
      [done |].
    intros ipv4' sel' cookie' e Hl.
    apply socket_to_policies_update_lookup in Hl as [-> | Hl];
      [| by apply (Hok ipv4' sel' cookie')].
    by apply (extract_ports_range skb ipv4 is_eth). }
  destruct (socket_to_policies_lookup _ _ _ _) as [existing_rule |];
    [| done].
  by destruct (rule_matches_packet existing_rule skb p).
Qed.


End Matcher.

Section MatcherExamples.
#[local] Existing Instance example_consts.

Lemma example_flags_distinct : flags_distinct.
Proof.
  split.
  - intros k f Hk.
    destruct k as [| [| [| [| [| k]]]]]; cbn in Hk;
      [| | | | | by destruct k];
      injection Hk as <-; done.
  - intros j k f g Hj Hk Hne.
    destruct j as [| [| [| [| [| j]]]]]; cbn in Hj;
      [| | | | | by destruct j];
      injection Hj as <-;
      destruct k as [| [| [| [| [| k]]]]]; cbn in Hk;
      try done; try (by destruct k); injection Hk as <-; done.
Defined.

(** Rules 1 and 3 both match one field: the lower index wins. *)
Example example_tie_break :
  selected_policy (mk_maps ∅) udp_frame true udp_pkt = Some 1
  /\ eligible (mk_maps ∅) udp_frame true udp_pkt 3 = true
  /\ score_at (mk_maps ∅) true udp_pkt 3 = score_at (mk_maps ∅) true udp_pkt 1.
Proof. by vm_compute. Qed.

(** In the example table rules 1 and 3 apply to the packet, each with
    one field: rule 1 is selected. *)
Lemma scan_selects_best_first_witness :
  exists (i : nat) (policy : DscpPolicy.t),
    1 = Z.of_nat i
    /\ rule_at (mk_maps ∅) true i = Some policy
    /\ applies policy udp_frame udp_pkt
    /\ forall (j : nat) (policy' : DscpPolicy.t),
         rule_at (mk_maps ∅) true j = Some policy' ->
         applies policy' udp_frame udp_pkt ->
         matched_count policy' udp_pkt <= matched_count policy udp_pkt
         /\ (matched_count policy' udp_pkt = matched_count policy udp_pkt ->
             (i <= j)%nat).
Proof.
  exact (scan_selects_best_first (mk_maps ∅) udp_frame true udp_pkt
                                 example_flags_distinct).
Defined.

(** Rule 0 declares source address and destination port; the packet has
    the address but not the port, and rule 0 is not selected although it
    scored. *)
Lemma absent_and_partial_rules_never_selected_witness :
  score_at (mk_maps ∅) true udp_pkt 0 = 1
  /\ selected_policy (mk_maps ∅) udp_frame true udp_pkt <> Some 0
  /\ selected_policy (mk_maps ∅) udp_frame true udp_pkt <> Some 2.
Proof.
  split; [reflexivity |].
  destruct (absent_and_partial_rules_never_selected (mk_maps ∅) udp_frame
              true udp_pkt 0 (mk_policy 9 (htons 80) 10) eq_refl)
    as [_ Hpartial].
  destruct (absent_and_partial_rules_never_selected (mk_maps ∅) udp_frame
              true udp_pkt 2 (mk_policy 0 (htons 80) 30) eq_refl)
    as [Hzero _].
  split.
  - apply Hpartial; [exact example_flags_distinct |].
    exists 3%nat, 8. split; reflexivity.
  - apply Hzero. reflexivity.
Defined.

(** A frame cut short inside the UDP header and an ICMP frame both come
    back untouched; the full UDP frame parses. *)
Lemma extraction_fails_benignly_witness :
  extract udp_frame true true = Some udp_pkt
  /\ match_policy (mk_maps ∅) short_frame true true = (mk_maps ∅, short_frame)
  /\ match_policy (mk_maps ∅) icmp_frame true true = (mk_maps ∅, icmp_frame).
Proof.
  split; [reflexivity |].
  destruct (extraction_fails_benignly short_frame true true)
    as (_ & Hbad & _).
  destruct (extraction_fails_benignly icmp_frame true true)
    as (_ & _ & Hna).
  split.
  - apply Hbad. right. right. right. right. split.
    + left. reflexivity.
    + unfold fits. vm_compute. intros Hfits. by apply Hfits.
  - apply Hna. vm_compute. intros [Hp | [Hp | Hp]]; discriminate Hp.
Defined.


End MatcherExamples.

End DscpProofs.

(** * More properties of netd.c *)

Module NetdExtras.
Import Netd NetdProofs.

(** ** The packetization correction *)

(** What the correction gives above the MTU, with the overhead as a
    number. *)
Lemma packetize_large_facts (skb : sk_buff.t) :
  1500 < sk_buff.len skb < 2 ^ 32 ->
  exists overhead,
    (overhead = 52 \/ overhead = 72)
    /\ (sk_buff.protocol skb =? htons ETH_P_IPV6) = (overhead =? 72)
    /\ mtu_corrected overhead (sk_buff.len skb)
                     (fst (packetize skb)) (snd (packetize skb)).
Proof.
  intros Hlen. pose proof (packetize_large skb Hlen) as Hc. cbn zeta in Hc.
  destruct (sk_buff.protocol skb =? htons ETH_P_IPV6).
  - exists 72. split; [by right |]. split; [done | exact Hc].
  - exists 52. split; [by left |]. split; [done | exact Hc].
Qed.

(** X1: above the MTU the corrected byte count is the length plus one
    overhead for every segment but the first; it fills the estimated
    number of MTU-sized frames and no fewer, and there are at least two. *)
Theorem packetize_fills_frames (skb : sk_buff.t) :
  1500 < sk_buff.len skb < 2 ^ 32 ->
  let overhead :=
    if sk_buff.protocol skb =? htons ETH_P_IPV6 then 72 else 52 in
  let packets := fst (packetize skb) in
  let bytes := snd (packetize skb) in
  2 <= packets
  /\ (packets - 1) * 1500 < bytes <= packets * 1500
  /\ bytes = sk_buff.len skb + overhead * (packets - 1).
Proof.
  intros Hlen overhead packets bytes.
  destruct (packetize_large_facts skb Hlen) as (o & Ho & Hproto & Hc).
  unfold mtu_corrected in Hc. fold packets bytes in Hc.
  assert (Hov : overhead = o).
  { subst overhead. rewrite Hproto. by destruct Ho as [-> | ->]. }
  rewrite Hov. destruct Ho as [-> | ->]; nia.
Qed.

Lemma packetize_fills_frames_witness :
  packetize (len_skb 3000 (htons ETH_P_IPV6)) = (3, 3144)
  /\ (3 - 1) * 1500 < 3144 <= 3 * 1500.
Proof.
  destruct (packetize_fills_frames (len_skb 3000 (htons ETH_P_IPV6)))
    as (_ & Hframes & _).
  - simpl. lia.
  - split; [reflexivity | exact Hframes].
Defined.

(** X2: the correction is monotone: of two buffers of the same protocol
    the longer one is never recorded with fewer packets or fewer bytes. *)
Theorem packetize_monotone (skb1 skb2 : sk_buff.t) :
  sk_buff.protocol skb1 = sk_buff.protocol skb2 ->
  0 <= sk_buff.len skb1 <= sk_buff.len skb2 ->
  sk_buff.len skb2 < 2 ^ 32 ->
  fst (packetize skb1) <= fst (packetize skb2)
  /\ snd (packetize skb1) <= snd (packetize skb2).
Proof.
  intros Hproto Hle Hmax.
  destruct (Z.le_gt_cases (sk_buff.len skb2) 1500) as [H2 | H2].
  - rewrite (packetize_small skb1) by lia.
    rewrite (packetize_small skb2) by lia. cbn. lia.
  - destruct (packetize_large_facts skb2 ltac:(lia)) as (o2 & Ho2 & Hp2 & Hc2).
    unfold mtu_corrected in Hc2.
    destruct (Z.le_gt_cases (sk_buff.len skb1) 1500) as [H1 | H1].
    + rewrite (packetize_small skb1) by lia. cbn [fst snd].
      destruct Ho2 as [-> | ->]; nia.
    + destruct (packetize_large_facts skb1 ltac:(lia))
        as (o1 & Ho1 & Hp1 & Hc1).
      unfold mtu_corrected in Hc1.
      assert (o1 = o2) as ->.
      { rewrite Hproto, Hp2 in Hp1.
        destruct Ho1 as [-> | ->], Ho2 as [-> | ->]; done. }
      destruct Ho2 as [-> | ->]; nia.
Qed.

Lemma packetize_monotone_witness :
  fst (packetize (len_skb 1500 (htons ETH_P_IP)))
  <= fst (packetize (len_skb 1501 (htons ETH_P_IP)))
  /\ snd (packetize (len_skb 1500 (htons ETH_P_IP)))
     <= snd (packetize (len_skb 1501 (htons ETH_P_IP))).
Proof.
  apply packetize_monotone; [reflexivity | simpl; lia | simpl; lia].
Defined.

(** ** A statistics map under updates *)

(** X3: an update for a key that is not in a full map changes nothing (the
    packet is not recorded); an update never makes a map outgrow its
    capacity, and never removes a slot. *)
Theorem update_stats_capacity `{Countable K} (max_entries : nat)
    (m : gmap K StatsValue.t) (skb : sk_buff.t) (direction : Z) (key : K) :
  (m !! key = None -> (max_entries <= size m)%nat ->
   update_stats max_entries m skb direction key = m)
  /\ ((size m <= max_entries)%nat ->
      (size (update_stats max_entries m skb direction key) <= max_entries)%nat)
  /\ (forall k, is_Some (m !! k) ->
                is_Some (update_stats max_entries m skb direction key !! k)).
Proof.
  split; [| split].
  - intros Hnone Hfull. rewrite update_stats_absent by done.
    destruct (Nat.ltb_spec (size m) max_entries); [lia | done].
  - intros Hsize. unfold update_stats, update_elem_NOEXIST.
    destruct (m !! key) as [value |] eqn:Hkey; cbn zeta.
    + rewrite Hkey. destruct (packetize skb) as [packets bytes].
      destruct (direction =? BPF_EGRESS);
        [by rewrite map_size_insert_Some |].
      destruct (direction =? BPF_INGRESS);
        [by rewrite map_size_insert_Some | done].
    + destruct (Nat.ltb_spec (size m) max_entries) as [Hroom | Hfull];
        [| by rewrite Hkey].
      rewrite lookup_insert_eq. destruct (packetize skb) as [packets bytes].
      assert (Hins : size (<[key := StatsValue.zero]> m) = S (size m))
        by by apply map_size_insert_None.
      destruct (direction =? BPF_EGRESS);
        [rewrite map_size_insert_Some by (by rewrite lookup_insert_eq); lia |].
      destruct (direction =? BPF_INGRESS);
        [rewrite map_size_insert_Some by (by rewrite lookup_insert_eq); lia |].
      lia.
  - intros k Hk.
    destruct (decide (key = k)) as [<- | Hne];
      [| by rewrite update_stats_lookup_ne].
    destruct Hk as [value Hv]. unfold update_stats. rewrite Hv. cbn zeta.
    rewrite Hv. destruct (packetize skb) as [packets bytes].
    destruct (direction =? BPF_EGRESS); [by rewrite lookup_insert_eq |].
    destruct (direction =? BPF_INGRESS); [by rewrite lookup_insert_eq |].
    by rewrite Hv.
Qed.

(** X4: an update touches the counters of its direction only: egress
    leaves the rx counters of the slot as they were, ingress the tx
    counters, and any other direction the whole slot. *)
Theorem update_stats_direction `{Countable K} (max_entries : nat)
    (m : gmap K StatsValue.t) (skb : sk_buff.t) (direction : Z) (key : K)
    (value : StatsValue.t) :
  m !! key = Some value ->
  exists value',
    update_stats max_entries m skb direction key !! key = Some value'
    /\ (direction = BPF_EGRESS ->
        StatsValue.rxPackets value' = StatsValue.rxPackets value
        /\ StatsValue.rxBytes value' = StatsValue.rxBytes value)
    /\ (direction = BPF_INGRESS ->
        StatsValue.txPackets value' = StatsValue.txPackets value
        /\ StatsValue.txBytes value' = StatsValue.txBytes value)
    /\ (direction <> BPF_EGRESS -> direction <> BPF_INGRESS ->
        value' = value).
Proof.
  intros Hv. unfold update_stats. rewrite Hv. cbn zeta. rewrite Hv.
  destruct (packetize skb) as [packets bytes].
  destruct (Z.eqb_spec direction BPF_EGRESS) as [-> | Heg].
  - eexists. split; [apply lookup_insert_eq |].
    split; [done |]. split; [discriminate | done].
  - destruct (Z.eqb_spec direction BPF_INGRESS) as [-> | Hin].
    + eexists. split; [apply lookup_insert_eq |].
      split; [discriminate |]. split; [done | done].
    + exists value. split; [done |]. split; [done |]. split; done.
Qed.

Lemma update_stats_direction_witness :
  exists value',
    update_stats 16 ({[ 7 := StatsValue.Build_t 1 2 3 4 ]} : gmap Z StatsValue.t)
                 (len_skb 100 (htons ETH_P_IP)) BPF_EGRESS 7 !! 7
    = Some value'
    /\ StatsValue.rxPackets value' = 1 /\ StatsValue.rxBytes value' = 2.
Proof.
  destruct (update_stats_direction 16
              ({[ 7 := StatsValue.Build_t 1 2 3 4 ]} : gmap Z StatsValue.t)
              (len_skb 100 (htons ETH_P_IP)) BPF_EGRESS 7
              (StatsValue.Build_t 1 2 3 4))
    as (value' & Hl & Heg & _); [reflexivity |].
  exists value'. split; [exact Hl |]. by apply Heg.
Defined.

Lemma update_stats_capacity_witness :
  update_stats 1 ({[ 7 := StatsValue.zero ]} : gmap Z StatsValue.t)
               (len_skb 100 (htons ETH_P_IP)) BPF_EGRESS 8
  = {[ 7 := StatsValue.zero ]}.
Proof.
  destruct (update_stats_capacity 1
              ({[ 7 := StatsValue.zero ]} : gmap Z StatsValue.t)
              (len_skb 100 (htons ETH_P_IP)) BPF_EGRESS 8) as [Hfull _].
  apply Hfull; [reflexivity | vm_compute; lia].
Defined.

(** ** The verdict of the accounting function *)

Section Verdicts.
Context `{BpfShared}.

Lemma land_1_bit (x : Z) : Z.land x 1 = 0 \/ Z.land x 1 = 1.
Proof.
  pose proof (Z.land_ones x 1 ltac:(lia)) as Hl.
  change (Z.ones 1) with 1 in Hl. change (2 ^ 1) with 2 in Hl.
  rewrite Hl. pose proof (Z.mod_pos_bound x 2). lia.
Qed.

Lemma iface_rules_range (skb : sk_buff.t) (direction u iif : Z) :
  iface_rules skb direction u iif = BPF_PASS
  \/ iface_rules skb direction u iif = BPF_DROP_UNLESS_DNS.
Proof.
  unfold iface_rules.
  repeat match goal with |- context [if ?b then _ else _] => destruct b end;
    auto.
Qed.

Lemma bpf_owner_match_range (m : maps) (skb : sk_buff.t) (uid direction : Z) :
  bpf_owner_match m skb uid direction = BPF_DROP
  \/ bpf_owner_match m skb uid direction = BPF_PASS
  \/ bpf_owner_match m skb uid direction = BPF_DROP_UNLESS_DNS.
Proof.
  destruct (skip_owner_match skb) eqn:Hskip.
  { unfold bpf_owner_match. rewrite Hskip. auto. }
  destruct (is_system_uid uid) eqn:Hsys.
  { unfold bpf_owner_match. rewrite Hskip, Hsys. auto. }
  destruct (bpf_owner_match_rules m skb uid direction Hskip Hsys)
    as [[_ ->] | [_ ->]]; [auto |].
  destruct (iface_rules_range skb direction (uidRules_of m uid)
              (allowed_iif_of m uid)) as [-> | ->]; auto.
Qed.

(** The verdict in terms of the owner evaluation, past the clat test. *)
Lemma bpf_traffic_account_verdict_eq (m : maps) (skb : sk_buff.t)
    (direction : Z) :
  is_clat m skb = false ->
  fst (bpf_traffic_account m skb direction)
  = let match_ := bpf_owner_match m skb (sk_buff.uid skb) direction in
    if match_ =? BPF_DROP_UNLESS_DNS
    then (if is_system_dns m skb then BPF_PASS else BPF_DROP)
    else match_.
Proof.
  intros Hclat. unfold bpf_traffic_account. rewrite Hclat. cbn zeta.
  destruct (bpf_owner_match_range m skb (sk_buff.uid skb) direction)
    as [-> | [-> | ->]]; cbn [Z.eqb BPF_DROP BPF_PASS BPF_DROP_UNLESS_DNS
                              Pos.eqb andb].
  - destruct (direction =? BPF_EGRESS); cbn [andb fst]; [done |].
    destruct (array_lookup _ _); [destruct (truthy _) |];
      by destruct (is_system_dns m skb).
  - rewrite andb_false_r.
    destruct (array_lookup _ _); [destruct (truthy _) |];
      by destruct (is_system_dns m skb).
  - rewrite andb_false_r.
    destruct (array_lookup _ _); [destruct (truthy _) |];
      by destruct (is_system_dns m skb).
Qed.

(** X5: the verdict of the accounting function is always 0 or 1, as the
    comment at line 311 wants it for the kernel's verifier. *)
Theorem bpf_traffic_account_verdict_bit (m : maps) (skb : sk_buff.t)
    (direction : Z) :
  fst (bpf_traffic_account m skb direction) = BPF_DROP
  \/ fst (bpf_traffic_account m skb direction) = BPF_PASS.
Proof.
  destruct (is_clat m skb) eqn:Hclat.
  { unfold bpf_traffic_account. rewrite Hclat. by right. }
  rewrite bpf_traffic_account_verdict_eq by done. cbn zeta.
  destruct (bpf_owner_match_range m skb (sk_buff.uid skb) direction)
    as [-> | [-> | ->]]; cbn; [by left | by right |].
  destruct (is_system_dns m skb); auto.
Qed.

(** X6: traffic of a system uid always gets Pass from the accounting
    function, whatever the maps hold. *)
Theorem system_uid_always_passes (m : maps) (skb : sk_buff.t)
    (direction : Z) :
  is_system_uid (sk_buff.uid skb) = true ->
  fst (bpf_traffic_account m skb direction) = BPF_PASS.
Proof.
  intros Hsys.
  destruct (is_clat m skb) eqn:Hclat.
  { unfold bpf_traffic_account. by rewrite Hclat. }
  rewrite bpf_traffic_account_verdict_eq by done.
  assert (Hm : bpf_owner_match m skb (sk_buff.uid skb) direction = BPF_PASS).
  { unfold bpf_owner_match. rewrite Hsys. by destruct (skip_owner_match skb). }
  by rewrite Hm.
Qed.

(** X7: the interface and lockdown rules bear on ingress from a
    non-loopback interface only: on any other direction, on the loopback
    interface, and on the owner's allowed interface when it has the
    interface bit, the evaluator never answers DropUnlessExempt. *)
Theorem drop_unless_dns_only_on_foreign_ingress (m : maps) (skb : sk_buff.t)
    (uid direction : Z) :
  direction <> BPF_INGRESS
  \/ sk_buff.ifindex skb = 1
  \/ (has_bit (uidRules_of m uid) IIF_MATCH
      /\ sk_buff.ifindex skb = allowed_iif_of m uid) ->
  bpf_owner_match m skb uid direction <> BPF_DROP_UNLESS_DNS.
Proof.
  intros Hcase.
  destruct (skip_owner_match skb) eqn:Hskip.
  { unfold bpf_owner_match. by rewrite Hskip. }
  destruct (is_system_uid uid) eqn:Hsys.
  { unfold bpf_owner_match. by rewrite Hskip, Hsys. }
  destruct (bpf_owner_match_rules m skb uid direction Hskip Hsys)
    as [[_ ->] | [_ ->]]; [done |].
  rewrite iface_rules_pass; [done |].
  unfold iface_condition, iif_mismatch, lockdown_only.
  intros (Hd & Hlo & [(_ & _ & Hne) | (Hno & _)]);
    destruct Hcase as [Hc | [Hc | [Hbit Hc]]]; done.
Qed.

(** X8: the DNS exemption bears on DropUnlessExempt only: past the clat
    test, a Pass or Drop of the owner evaluation is the verdict as it is,
    whether or not the traffic is the platform's DNS traffic. *)
Theorem dns_tag_never_overrides (m : maps) (skb : sk_buff.t)
    (direction : Z) :
  is_clat m skb = false ->
  bpf_owner_match m skb (sk_buff.uid skb) direction <> BPF_DROP_UNLESS_DNS ->
  fst (bpf_traffic_account m skb direction)
  = bpf_owner_match m skb (sk_buff.uid skb) direction.
Proof.
  intros Hclat Hne. rewrite bpf_traffic_account_verdict_eq by done.
  cbn zeta.
  by destruct (Z.eqb_spec (bpf_owner_match m skb (sk_buff.uid skb) direction)
                          BPF_DROP_UNLESS_DNS).
Qed.

(** ** What the accounting function leaves alone *)

Lemma update_stats_with_config_frame (m : maps) (skb : sk_buff.t)
    (direction : Z) (key : StatsKey.t) (selectedMap : Z) :
  let m' := update_stats_with_config m skb direction key selectedMap in
  same_control_tables m m'
  /\ iface_stats_map m' = iface_stats_map m
  /\ app_uid_stats_map m' = app_uid_stats_map m
  /\ (selectedMap = SELECT_MAP_A -> stats_map_B m' = stats_map_B m)
  /\ (selectedMap <> SELECT_MAP_A -> stats_map_A m' = stats_map_A m)
  /\ (selectedMap <> SELECT_MAP_A -> selectedMap <> SELECT_MAP_B ->
      stats_map_B m' = stats_map_B m)
  /\ (forall k, k <> key -> stats_map_A m' !! k = stats_map_A m !! k)
  /\ (forall k, k <> key -> stats_map_B m' !! k = stats_map_B m !! k).
Proof.
  unfold update_stats_with_config, same_control_tables.
  destruct (Z.eqb_spec selectedMap SELECT_MAP_A) as [HA | HA];
    [| destruct (Z.eqb_spec selectedMap SELECT_MAP_B) as [HB | HB]];
    cbn; repeat split; intros; try done;
    by rewrite update_stats_lookup_ne.
Qed.

(** The maps the function returns: the ones it was given, or those after
    the updates of lines 319-325. *)
Lemma bpf_traffic_account_maps (m : maps) (skb : sk_buff.t) (direction : Z) :
  snd (bpf_traffic_account m skb direction) = m
  \/ exists selectedMap,
       array_lookup (configuration_map m) CURRENT_STATS_MAP_CONFIGURATION_KEY
       = Some selectedMap
       /\ snd (bpf_traffic_account m skb direction)
          = update_app_uid_stats_map
              (update_stats_with_config
                 (if truthy (StatsKey.tag (stats_key m skb))
                  then update_stats_with_config m skb direction
                         (stats_key m skb) selectedMap
                  else m)
                 skb direction (clear_tag (stats_key m skb)) selectedMap)
              skb direction (accounted_uid m skb).
Proof.
  unfold bpf_traffic_account.
  destruct (is_clat m skb); [by left |]. cbn zeta.
  destruct (_ && _); [by left |].
  destruct (array_lookup _ _) as [selectedMap |]; [| by left].
  right. exists selectedMap. split; [done |].
  destruct (truthy (StatsKey.tag (stats_key m skb))) eqn:Htag; cbn [snd];
    [done |].
  apply truthy_false in Htag. by rewrite (clear_tag_untagged _ Htag).
Qed.

(** X9: the accounting function writes statistics and nothing else: the
    configuration, tag, counter-set, owner and permission tables and the
    per-interface statistics come back as they were.  When the
    configuration has no entry for the buffer selector nothing at all is
    recorded.  A buffer that the selector does not name is left as it was:
    buffer B under selector A, buffer A under any other selector, and both
    buffers under a selector value that names neither, where only the
    per-app table is written. *)
Theorem bpf_traffic_account_frame (m : maps) (skb : sk_buff.t)
    (direction : Z) :
  let m' := snd (bpf_traffic_account m skb direction) in
  let selector :=
    array_lookup (configuration_map m) CURRENT_STATS_MAP_CONFIGURATION_KEY in
  same_control_tables m m'
  /\ iface_stats_map m' = iface_stats_map m
  /\ (selector = None -> m' = m)
  /\ (selector = Some SELECT_MAP_A -> stats_map_B m' = stats_map_B m)
  /\ (forall selectedMap, selector = Some selectedMap ->
                          selectedMap <> SELECT_MAP_A ->
                          stats_map_A m' = stats_map_A m)
  /\ (forall selectedMap, selector = Some selectedMap ->
                          selectedMap <> SELECT_MAP_A ->
                          selectedMap <> SELECT_MAP_B ->
                          stats_map_A m' = stats_map_A m
                          /\ stats_map_B m' = stats_map_B m).
Proof.
  intros m' selector. subst m' selector.
  destruct (bpf_traffic_account_maps m skb direction)
    as [-> | (sel & Hsel & ->)].
  { unfold same_control_tables. repeat split; done. }
  rewrite Hsel.
  set (key := stats_key m skb).
  set (m1 := if truthy (StatsKey.tag key)
             then update_stats_with_config m skb direction key sel else m).
  pose proof (update_stats_with_config_frame m skb direction key sel)
    as (Hc1 & Hi1 & _ & HB1 & HA1 & HN1 & _).
  pose proof (update_stats_with_config_frame m1 skb direction
                (clear_tag key) sel) as (Hc2 & Hi2 & _ & HB2 & HA2 & HN2 & _).
  cbn zeta in Hc1, Hi1, HB1, HA1, HN1, Hc2, Hi2, HB2, HA2, HN2.
  assert (Hcm1 : same_control_tables m m1
                 /\ iface_stats_map m1 = iface_stats_map m
                 /\ (sel = SELECT_MAP_A -> stats_map_B m1 = stats_map_B m)
                 /\ (sel <> SELECT_MAP_A -> stats_map_A m1 = stats_map_A m)
                 /\ (sel <> SELECT_MAP_A -> sel <> SELECT_MAP_B ->
                     stats_map_B m1 = stats_map_B m)).
  { subst m1. destruct (truthy (StatsKey.tag key)); [done |].
    unfold same_control_tables. repeat split; done. }
  destruct Hcm1 as (Hcm & Him & HBm & HAm & HNm).
  unfold same_control_tables in *.
  cbn [update_app_uid_stats_map configuration_map cookie_tag_map
       uid_counterset_map uid_owner_map uid_permission_map iface_stats_map
       stats_map_A stats_map_B].
  destruct Hcm as (? & ? & ? & ? & ?), Hc2 as (? & ? & ? & ? & ?).
  split; [repeat split; congruence |].
  split; [congruence |]. split; [done |]. split; [| split].
  - intros [= Hs]. rewrite HB2, HBm; done.
  - intros s [= <-] Hne. rewrite HA2, HAm; done.
  - intros s [= <-] HneA HneB. split.
    + rewrite HA2, HAm; done.
    + rewrite HN2, HNm; done.
Qed.

(** X10: in the statistics tables the function writes the slots of the
    packet only: the per-app table at the accounted uid, the buffers at
    the packet's key and at that key without its tag. *)
Theorem bpf_traffic_account_slots (m : maps) (skb : sk_buff.t)
    (direction : Z) :
  let m' := snd (bpf_traffic_account m skb direction) in
  (forall uid, uid <> accounted_uid m skb ->
               app_uid_stats_map m' !! uid = app_uid_stats_map m !! uid)
  /\ (forall k, k <> stats_key m skb -> k <> clear_tag (stats_key m skb) ->
                stats_map_A m' !! k = stats_map_A m !! k
                /\ stats_map_B m' !! k = stats_map_B m !! k).
Proof.
  intros m'. subst m'.
  destruct (bpf_traffic_account_maps m skb direction)
    as [-> | (sel & Hsel & ->)]; [done |].
  set (key := stats_key m skb).
  set (m1 := if truthy (StatsKey.tag key)
             then update_stats_with_config m skb direction key sel else m).
  pose proof (update_stats_with_config_frame m skb direction key sel)
    as (_ & _ & Happ1 & _ & _ & _ & HlA1 & HlB1).
  pose proof (update_stats_with_config_frame m1 skb direction
                (clear_tag key) sel)
    as (_ & _ & Happ2 & _ & _ & _ & HlA2 & HlB2).
  cbn zeta in Happ1, HlA1, HlB1, Happ2, HlA2, HlB2.
  cbn [update_app_uid_stats_map app_uid_stats_map stats_map_A stats_map_B].
  split.
  - intros uid Hne. rewrite update_stats_lookup_ne by done.
    rewrite Happ2. subst m1.
    destruct (truthy (StatsKey.tag key)); [by rewrite Happ1 | done].
  - intros k Hk Hck. rewrite HlA2, HlB2 by done. subst m1.
    destruct (truthy (StatsKey.tag key)); [| done].
    by rewrite HlA1, HlB1.
Qed.

End Verdicts.

Section VerdictExamples.
#[local] Existing Instance example_consts.

Lemma system_uid_always_passes_witness :
  fst (bpf_traffic_account doze_maps
         (mk_skb 40 (htons ETH_P_IP) 2 [] 77 1000) BPF_EGRESS) = BPF_PASS.
Proof. by apply system_uid_always_passes. Defined.

Lemma drop_unless_dns_only_on_foreign_ingress_witness :
  bpf_owner_match iif_maps udp_skb 10001 BPF_EGRESS <> BPF_DROP_UNLESS_DNS
  /\ bpf_owner_match iif_maps udp_skb 10001 BPF_INGRESS = BPF_DROP_UNLESS_DNS.
Proof.
  split; [| reflexivity].
  apply drop_unless_dns_only_on_foreign_ingress. left. discriminate.
Defined.

Lemma dns_tag_never_overrides_witness :
  fst (bpf_traffic_account doze_maps udp_skb BPF_INGRESS) = BPF_DROP.
Proof.
  rewrite (dns_tag_never_overrides doze_maps udp_skb BPF_INGRESS);
    [reflexivity | reflexivity | discriminate].
Defined.

(** Without a selector entry the maps come back as they were; under
    selector A buffer B is untouched; under the selector value 2, which
    names neither buffer, both buffers are untouched. *)
Lemma bpf_traffic_account_frame_witness :
  snd (bpf_traffic_account (mk_maps [] ∅ ∅) udp_skb BPF_INGRESS)
  = mk_maps [] ∅ ∅
  /\ stats_map_B (snd (bpf_traffic_account doze_maps udp_skb BPF_INGRESS))
     = stats_map_B doze_maps
  /\ stats_map_A (snd (bpf_traffic_account (mk_maps [4; 2] ∅ ∅) udp_skb
                                           BPF_INGRESS)) = ∅
  /\ stats_map_B (snd (bpf_traffic_account (mk_maps [4; 2] ∅ ∅) udp_skb
                                           BPF_INGRESS)) = ∅.
Proof.
  destruct (bpf_traffic_account_frame (mk_maps [] ∅ ∅) udp_skb BPF_INGRESS)
    as (_ & _ & Hnone & _).
  destruct (bpf_traffic_account_frame doze_maps udp_skb BPF_INGRESS)
    as (_ & _ & _ & HB & _).
  destruct (bpf_traffic_account_frame (mk_maps [4; 2] ∅ ∅) udp_skb
                                      BPF_INGRESS)
    as (_ & _ & _ & _ & _ & Hneither).
  split; [by apply Hnone |]. split; [by apply HB |].
  apply (Hneither 2); [reflexivity | discriminate | discriminate].
Defined.

Lemma bpf_traffic_account_slots_witness :
  app_uid_stats_map (snd (bpf_traffic_account doze_maps udp_skb BPF_INGRESS))
    !! 10002
  = app_uid_stats_map doze_maps !! 10002.
Proof.
  destruct (bpf_traffic_account_slots doze_maps udp_skb BPF_INGRESS)
    as [Happ _].
  apply Happ. by vm_compute.
Defined.

End VerdictExamples.

(** ** The xt_bpf, tc and socket programs *)

Section OtherPrograms.
Context `{BpfShared} `{BpfHelpers}.

Lemma only_iface_slot_refl (m : maps) (skb : sk_buff.t) :
  only_iface_slot m skb m.
Proof. unfold only_iface_slot, same_control_tables. repeat split; done. Qed.

Lemma only_iface_slot_update (m : maps) (skb : sk_buff.t) (direction : Z) :
  only_iface_slot m skb
    (update_iface_stats_map m skb direction (sk_buff.ifindex skb)).
Proof.
  unfold only_iface_slot, same_control_tables. cbn.
  repeat split; try done.
  intros i Hne. by rewrite update_stats_lookup_ne.
Qed.

(** X11: the three per-interface accounting programs write at most the
    slot of the packet's interface in the per-interface table: every other
    table and every other slot comes back as it was. *)
Theorem iface_programs_frame (m : maps) (skb : sk_buff.t) :
  only_iface_slot m skb (snd (xt_bpf_egress_prog m skb))
  /\ only_iface_slot m skb (snd (xt_bpf_ingress_prog m skb))
  /\ only_iface_slot m skb (snd (tc_bpf_ingress_account_prog m skb)).
Proof.
  split; [| split].
  - unfold xt_bpf_egress_prog.
    destruct (sk_buff.uid skb =? AID_CLAT); [apply only_iface_slot_refl |].
    destruct (_ && _); [apply only_iface_slot_refl |].
    apply only_iface_slot_update.
  - apply only_iface_slot_update.
  - unfold tc_bpf_ingress_account_prog.
    destruct (is_received_skb skb);
      [apply only_iface_slot_update | apply only_iface_slot_refl].
Qed.

(** X12: on egress the xt program leaves out, with NoMatch and no table
    written, exactly the traffic of the clat uid and the traffic of a
    socket whose uid is [AID_SYSTEM] itself (not any other uid below
    10000) and whose tag entry names the clat uid.  Every other packet
    matches, and when the slot of its interface is in the per-interface
    table or the table has room for it, the slot holds afterwards the
    counters it had (zero for a new slot) with the packet added on the tx
    side. *)
Theorem xt_bpf_egress_clat (m : maps) (skb : sk_buff.t) :
  let clat_tagged :=
    exists utag, cookie_tag_map m !! sk_buff.cookie skb = Some utag
                 /\ UidTagValue.uid utag = AID_CLAT in
  let left_out :=
    sk_buff.uid skb = AID_CLAT
    \/ (sk_buff.uid skb = AID_SYSTEM /\ clat_tagged) in
  (left_out -> xt_bpf_egress_prog m skb = (BPF_NOMATCH, m))
  /\ (~ left_out ->
      fst (xt_bpf_egress_prog m skb) = BPF_MATCH
      /\ (slot_or_room IFACE_STATS_MAP_SIZE (iface_stats_map m)
                       (sk_buff.ifindex skb) ->
          tx_recorded (iface_stats_map m)
                      (iface_stats_map (snd (xt_bpf_egress_prog m skb)))
                      (sk_buff.ifindex skb)
                      (fst (packetize skb)) (snd (packetize skb)))).
Proof.
  intros clat_tagged left_out. subst clat_tagged left_out.
  unfold xt_bpf_egress_prog.
  destruct (Z.eqb_spec (sk_buff.uid skb) AID_CLAT) as [Hclat | Hclat].
  { split; [done | intros Hn; exfalso; apply Hn; by left]. }
  destruct (Z.eqb_spec (sk_buff.uid skb) AID_SYSTEM) as [Hsys | Hsys];
    cbn [andb].
  - destruct (cookie_tag_map m !! sk_buff.cookie skb) as [utag |] eqn:Hutag.
    + destruct (Z.eqb_spec (UidTagValue.uid utag) AID_CLAT) as [Ht | Ht].
      * split; [done |]. intros Hn. exfalso. apply Hn. right. eauto.
      * split.
        -- intros [Hc | (_ & utag' & [= <-] & Ht')]; done.
        -- intros _. cbn. split; [done |]. intros Hslot.
           by apply update_stats_recorded.
    + split.
      * intros [Hc | (_ & utag' & Hl & _)]; done.
      * intros _. cbn. split; [done |]. intros Hslot.
        by apply update_stats_recorded.
  - split.
    + intros [Hc | (Hs & _)]; done.
    + intros _. cbn. split; [done |]. intros Hslot.
      by apply update_stats_recorded.
Qed.

(** X13: the denylist program matches exactly the sockets whose uid has
    an owner entry with the penalty-box bit.  The allowlist program
    matches every system uid; for any other uid but 65534 it matches
    exactly when the uid has an owner entry with the happy-box bit. *)
Theorem xt_bpf_box_programs (m : maps) (skb : sk_buff.t) :
  (xt_bpf_denylist_prog m skb = BPF_MATCH
   <-> exists entry, uid_owner_map m !! sk_buff.uid skb = Some entry
                     /\ has_bit (UidOwnerValue.rule entry) PENALTY_BOX_MATCH)
  /\ (xt_bpf_denylist_prog m skb <> BPF_MATCH ->
      xt_bpf_denylist_prog m skb = BPF_NOMATCH)
  /\ (is_system_uid (sk_buff.uid skb) = true ->
      xt_bpf_allowlist_prog m skb = BPF_MATCH)
  /\ (is_system_uid (sk_buff.uid skb) = false ->
      sk_buff.uid skb <> 65534 ->
      (xt_bpf_allowlist_prog m skb = BPF_MATCH
       <-> exists entry, uid_owner_map m !! sk_buff.uid skb = Some entry
                         /\ has_bit (UidOwnerValue.rule entry) HAPPY_BOX_MATCH)).
Proof.
  unfold xt_bpf_denylist_prog, xt_bpf_allowlist_prog, has_bit.
  split; [| split; [| split]].
  - destruct (uid_owner_map m !! sk_buff.uid skb) as [entry |].
    + destruct (truthy _) eqn:Hbit.
      * apply truthy_true in Hbit. split; [eauto | done].
      * apply truthy_false in Hbit. split; [done |].
        intros (entry' & [= <-] & Hne). done.
    + split; [done | intros (entry & Hl & _); done].
  - destruct (uid_owner_map m !! sk_buff.uid skb) as [entry |]; [| done].
    by destruct (truthy _).
  - by intros ->.
  - intros -> Hnobody.
    destruct (Z.eqb_spec (sk_buff.uid skb) 65534); [done |]. cbn [andb].
    destruct (uid_owner_map m !! sk_buff.uid skb) as [entry |].
    + destruct (truthy _) eqn:Hbit.
      * apply truthy_true in Hbit. split; [eauto | done].
      * apply truthy_false in Hbit. split; [done |].
        intros (entry' & [= <-] & Hne). done.
    + split; [done | intros (entry & Hl & _); done].
Qed.

(** X14: socket creation is decided by the app id alone, the uid modulo
    100000: the gid half of the caller's id plays no part, and the same
    app in another user (uid + user * 100000, still a 32-bit uid) gets
    the same answer.  An app id without a permission entry is allowed. *)
Theorem inet_socket_create_app_id (m : maps) (gid gid' uid user : Z) :
  0 <= uid -> 0 <= user -> uid + user * 100000 < 2 ^ 32 ->
  inet_socket_create m (gid * 2 ^ 32 + uid)
  = inet_socket_create m (gid' * 2 ^ 32 + (uid + user * 100000))
  /\ (uid_permission_map m !! (uid mod 100000) = None ->
      inet_socket_create m (gid * 2 ^ 32 + uid) = 1).
Proof.
  intros Huid Huser Hmax.
  assert (Happ : forall g u, 0 <= u < 2 ^ 32 ->
            wrap 32 (Z.land (g * 2 ^ 32 + u) 4294967295 mod AID_USER_OFFSET)
            = u mod 100000).
  { intros g u Hu. change 4294967295 with (Z.ones 32).
    rewrite Z.land_ones by lia.
    rewrite Z.add_comm, Z.mod_add by lia. rewrite (Z.mod_small u) by lia.
    unfold wrap, AID_USER_OFFSET. apply Z.mod_small.
    pose proof (Z.mod_pos_bound u 100000). lia. }
  unfold inet_socket_create. cbn zeta.
  rewrite (Happ gid uid) by lia.
  rewrite (Happ gid' (uid + user * 100000)) by lia.
  rewrite Z.mod_add by lia.
  split; [done |]. by intros ->.
Qed.

End OtherPrograms.

Section OtherProgramExamples.
#[local] Existing Instance example_consts.
#[local] Existing Instance example_helpers.

(** The socket of the clat uid is left out.  A root socket tagged with
    the clat uid is not: it matches, and its 40 bytes are added to the new
    slot of interface 2. *)
Lemma xt_bpf_egress_clat_witness :
  xt_bpf_egress_prog doze_maps (mk_skb 40 (htons ETH_P_IP) 2 [] 77 1029)
  = (BPF_NOMATCH, doze_maps)
  /\ fst (xt_bpf_egress_prog
            (mk_maps [4; 0] ∅ {[ 77 := UidTagValue.Build_t 1029 0 ]})
            (mk_skb 40 (htons ETH_P_IP) 2 [] 77 0)) = BPF_MATCH
  /\ tx_recorded ∅
       (iface_stats_map
          (snd (xt_bpf_egress_prog
                  (mk_maps [4; 0] ∅ {[ 77 := UidTagValue.Build_t 1029 0 ]})
                  (mk_skb 40 (htons ETH_P_IP) 2 [] 77 0))))
       2 1 40.
Proof.
  destruct (xt_bpf_egress_clat doze_maps
              (mk_skb 40 (htons ETH_P_IP) 2 [] 77 1029)) as [Hclat _].
  destruct (xt_bpf_egress_clat
              (mk_maps [4; 0] ∅ {[ 77 := UidTagValue.Build_t 1029 0 ]})
              (mk_skb 40 (htons ETH_P_IP) 2 [] 77 0)) as [_ Hroot].
  split; [apply Hclat; by left |].
  destruct Hroot as [Hmatch Hrec].
  - intros [Hc | [Hs _]]; [discriminate Hc | discriminate Hs].
  - split; [exact Hmatch |].
    apply Hrec. right. vm_compute. lia.
Defined.

Lemma xt_bpf_box_programs_witness :
  xt_bpf_allowlist_prog doze_maps (mk_skb 40 (htons ETH_P_IP) 2 [] 77 1000)
  = BPF_MATCH
  /\ xt_bpf_denylist_prog doze_maps udp_skb = BPF_NOMATCH.
Proof.
  destruct (xt_bpf_box_programs doze_maps
              (mk_skb 40 (htons ETH_P_IP) 2 [] 77 1000))
    as (_ & _ & Hsys & _).
  destruct (xt_bpf_box_programs doze_maps udp_skb) as (_ & Hdeny & _).
  split; [by apply Hsys | by apply Hdeny].
Defined.

(** App 10001 has no INTERNET permission: neither has it in user 3. *)
Lemma inet_socket_create_app_id_witness :
  inet_socket_create (with_uid_permission_map doze_maps {[ 10001 := 0 ]})
                     (1000 * 2 ^ 32 + 10001)
  = inet_socket_create (with_uid_permission_map doze_maps {[ 10001 := 0 ]})
                       (2000 * 2 ^ 32 + (10001 + 3 * 100000))
  /\ inet_socket_create (with_uid_permission_map doze_maps {[ 10001 := 0 ]})
                        (1000 * 2 ^ 32 + 10001) = 0.
Proof.
  destruct (inet_socket_create_app_id
              (with_uid_permission_map doze_maps {[ 10001 := 0 ]})
              1000 2000 10001 3) as [Hsame _]; [lia | lia | simpl; lia |].
  split; [exact Hsame | reflexivity].
Defined.

End OtherProgramExamples.

End NetdExtras.

(** * More properties of dscpPolicy.c *)

Module DscpExtras.
Import Dscp DscpProofs.

Section Frames.
Context `{DscpPolicyH}.

(** X15: the classifier program always returns [TC_ACT_PIPE], and it
    leaves the maps and the packet alone when the packet is not addressed
    to this host or is neither IPv4 nor IPv6. *)
Theorem schedcls_set_dscp_ether_pipe (m : maps) (skb : sk_buff.t) :
  fst (schedcls_set_dscp_ether m skb) = TC_ACT_PIPE
  /\ (sk_buff.pkt_type skb <> PACKET_HOST ->
      snd (schedcls_set_dscp_ether m skb) = (m, skb))
  /\ (sk_buff.protocol skb <> htons ETH_P_IP ->
      sk_buff.protocol skb <> htons ETH_P_IPV6 ->
      snd (schedcls_set_dscp_ether m skb) = (m, skb)).
Proof.
  unfold schedcls_set_dscp_ether.
  destruct (Z.eqb_spec (sk_buff.pkt_type skb) PACKET_HOST) as [Hh | Hh];
    destruct (Z.eqb_spec (sk_buff.protocol skb) (htons ETH_P_IP)) as [H4 | H4];
    destruct (Z.eqb_spec (sk_buff.protocol skb) (htons ETH_P_IPV6))
      as [H6 | H6];
    cbn [negb fst snd]; repeat split; intros; done.
Qed.

(** ** What the program does to the maps *)

(** The maps the program returns: the ones it was given, or those with
    the packet's tuple stored for its socket in the selected cache. *)
Lemma match_policy_maps (m : maps) (skb : sk_buff.t) (ipv4 is_eth : bool) :
  fst (match_policy m skb ipv4 is_eth) = m
  \/ exists selected_map p new_dscp,
       array_lookup (switch_comp_map m) 0 = Some selected_map
       /\ extract skb ipv4 is_eth = Some p
       /\ fst (match_policy m skb ipv4 is_eth)
          = socket_to_policies_update m ipv4 selected_map (sk_buff.cookie skb)
                                      (rule_of_packet skb p new_dscp).
Proof.
  destruct (extract skb ipv4 is_eth) as [p |] eqn:Hex;
    [| left; by rewrite match_policy_no_tuple].
  destruct (array_lookup (switch_comp_map m) 0) as [selected_map |] eqn:Hsel.
  2: { left. unfold match_policy. rewrite Hsel. by destruct (_ >? _). }
  destruct (Z.eq_dec (sk_buff.cookie skb) 0) as [Hc | Hc].
  { left. unfold match_policy. rewrite Hsel, Hc. by destruct (_ >? _). }
  rewrite (match_policy_tuple m skb ipv4 is_eth selected_map p) by done.
  assert (Hscan :
    fst (match_by_scan m skb ipv4 (l2_header_size is_eth) selected_map
                       (sk_buff.cookie skb) p) = m
    \/ exists selected_map0 p0 new_dscp,
         Some selected_map = Some selected_map0
         /\ Some p = Some p0
         /\ fst (match_by_scan m skb ipv4 (l2_header_size is_eth)
                               selected_map (sk_buff.cookie skb) p)
            = socket_to_policies_update m ipv4 selected_map0
                (sk_buff.cookie skb) (rule_of_packet skb p0 new_dscp)).
  { destruct (match_by_scan_maps m skb ipv4 (l2_header_size is_eth)
                selected_map (sk_buff.cookie skb) p) as [-> | [dscp ->]];
      [by left | right; eauto 6]. }
  destruct (socket_to_policies_lookup _ _ _ _) as [existing_rule |];
    [| exact Hscan].
  destruct (rule_matches_packet existing_rule skb p); [by left | exact Hscan].
Qed.

Lemma update_elem_ANY_lookup_ne (max_entries : nat)
    (cache : gmap Z RuleEntry.t) (k k' : Z) (v : RuleEntry.t) :
  k <> k' -> update_elem_ANY max_entries cache k v !! k' = cache !! k'.
Proof.
  intros Hne. unfold update_elem_ANY.
  destruct (cache !! k); [| destruct (_ <? _)%nat];
    by rewrite ?lookup_insert_ne.
Qed.

Lemma update_elem_ANY_size (max_entries : nat) (cache : gmap Z RuleEntry.t)
    (k : Z) (v : RuleEntry.t) :
  (size cache <= max_entries)%nat ->
  (size (update_elem_ANY max_entries cache k v) <= max_entries)%nat.
Proof.
  intros Hsize. unfold update_elem_ANY.
  destruct (cache !! k) eqn:Hk; [by rewrite map_size_insert_Some |].
  destruct (Nat.ltb_spec (size cache) max_entries); [| done].
  rewrite map_size_insert_None by done. lia.
Qed.

Lemma selected_cache_lookup (m : maps) (ipv4 : bool) (selected_map cookie : Z) :
  socket_to_policies_lookup m ipv4 selected_map cookie
  = selected_cache m ipv4 selected_map !! cookie.
Proof.
  unfold socket_to_policies_lookup, selected_cache.
  by destruct ipv4, (selected_map =? MAP_A).
Qed.

(** A store writes one cache and leaves the others alone. *)
Lemma selected_cache_update (m : maps) (ipv4 ipv4' : bool)
    (selected_map selected_map' cookie : Z) (v : RuleEntry.t) :
  selected_cache (socket_to_policies_update m ipv4 selected_map cookie v)
                 ipv4' selected_map'
  = if bool_decide (ipv4' = ipv4
                    /\ (selected_map' =? MAP_A) = (selected_map =? MAP_A))
    then update_elem_ANY MAX_POLICIES (selected_cache m ipv4 selected_map)
                         cookie v
    else selected_cache m ipv4' selected_map'.
Proof.
  unfold selected_cache, socket_to_policies_update.
  destruct ipv4, ipv4', (selected_map =? MAP_A), (selected_map' =? MAP_A);
    cbn;
    first [ rewrite bool_decide_eq_true_2 by done
          | rewrite bool_decide_eq_false_2 by (intros [? ?]; done) ];
    done.
Qed.

(** X16: the program never writes the buffer selector or the rule
    tables, and of the four flow caches it writes at most the entry of the
    packet's socket in the cache of the packet's family and of the
    selected buffer: every other cache and every other socket's entry
    comes back as it was. *)
Theorem match_policy_maps_frame (m : maps) (skb : sk_buff.t)
    (ipv4 is_eth : bool) :
  let m' := fst (match_policy m skb ipv4 is_eth) in
  switch_comp_map m' = switch_comp_map m
  /\ ipv4_dscp_policies_map m' = ipv4_dscp_policies_map m
  /\ ipv6_dscp_policies_map m' = ipv6_dscp_policies_map m
  /\ (forall selected_map', selected_cache m' (negb ipv4) selected_map'
                           = selected_cache m (negb ipv4) selected_map')
  /\ (forall selected_map selected_map',
        array_lookup (switch_comp_map m) 0 = Some selected_map ->
        (selected_map' =? MAP_A) <> (selected_map =? MAP_A) ->
        selected_cache m' ipv4 selected_map'
        = selected_cache m ipv4 selected_map')
  /\ (forall ipv4' selected_map' cookie,
        cookie <> sk_buff.cookie skb ->
        selected_cache m' ipv4' selected_map' !! cookie
        = selected_cache m ipv4' selected_map' !! cookie).
Proof.
  intros m'. subst m'.
  destruct (match_policy_maps m skb ipv4 is_eth)
    as [-> | (sel & p & dscp & Hsel & _ & ->)]; [done |].
  split; [unfold socket_to_policies_update;
          by destruct ipv4, (sel =? MAP_A) |].
  split; [unfold socket_to_policies_update;
          by destruct ipv4, (sel =? MAP_A) |].
  split; [unfold socket_to_policies_update;
          by destruct ipv4, (sel =? MAP_A) |].
  split; [| split].
  - intros sel'. rewrite selected_cache_update.
    case_bool_decide as Hd; [| done]. destruct Hd as [Hd _].
    by destruct ipv4.
  - intros s sel' Hs Hne. rewrite Hsel in Hs. injection Hs as <-.
    rewrite selected_cache_update.
    case_bool_decide as Hd; [| done]. by destruct Hd.
  - intros ipv4' sel' cookie Hne. rewrite selected_cache_update.
    case_bool_decide as Hd; [| done]. destruct Hd as [-> Hd].
    rewrite update_elem_ANY_lookup_ne by done.
    unfold selected_cache. rewrite Hd. done.
Qed.

(** X17: the flow caches never outgrow their capacity: when none of them
    holds more than [MAX_POLICIES] entries before a packet, none does
    after it. *)
Theorem match_policy_cache_capacity (m : maps) (skb : sk_buff.t)
    (ipv4 is_eth : bool) :
  cache_sizes_ok m -> cache_sizes_ok (fst (match_policy m skb ipv4 is_eth)).
Proof.
  intros Hok.
  destruct (match_policy_maps m skb ipv4 is_eth)
    as [-> | (sel & p & dscp & _ & _ & ->)]; [done |].
  intros ipv4' sel'. rewrite selected_cache_update.
  case_bool_decide; [| apply Hok].
  apply update_elem_ANY_size, Hok.
Qed.

(** X18: nothing is marked and nothing is cached for a packet without a
    socket cookie, for a packet seen while the selector table has no entry
    at slot 0 (any stored value selects a buffer: [MAP_A] the caches A,
    every other value the caches B), and for a packet with a tuple that
    the selected cache has no matching entry for (no entry of its socket,
    or a stale one of another tuple) and that no rule is eligible for. *)
Theorem match_policy_nothing_to_apply (m : maps) (skb : sk_buff.t)
    (ipv4 is_eth : bool) :
  (sk_buff.cookie skb = 0 -> match_policy m skb ipv4 is_eth = (m, skb))
  /\ (array_lookup (switch_comp_map m) 0 = None ->
      match_policy m skb ipv4 is_eth = (m, skb))
  /\ (forall selected_map p,
        array_lookup (switch_comp_map m) 0 = Some selected_map ->
        extract skb ipv4 is_eth = Some p ->
        (forall e, socket_to_policies_lookup m ipv4 selected_map
                                             (sk_buff.cookie skb) = Some e ->
                   rule_matches_packet e skb p = false) ->
        (forall j, eligible m skb ipv4 p j = false) ->
        match_policy m skb ipv4 is_eth = (m, skb)).
Proof.
  split; [| split].
  - intros Hc. unfold match_policy. rewrite Hc.
    destruct (_ >? _); [done |]. by destruct (array_lookup _ _).
  - intros Hsel. unfold match_policy. rewrite Hsel. by destruct (_ >? _).
  - intros sel p Hsel Hex Hmiss Hnone.
    destruct (Z.eq_dec (sk_buff.cookie skb) 0) as [Hc | Hc].
    { unfold match_policy. rewrite Hc, Hsel. by destruct (_ >? _). }
    rewrite (match_policy_tuple m skb ipv4 is_eth sel p) by done.
    assert (Hscan : match_by_scan m skb ipv4 (l2_header_size is_eth) sel
                                  (sk_buff.cookie skb) p = (m, skb)).
    { apply match_by_scan_unselected.
      destruct (selected_policy m skb ipv4 p) as [bm |] eqn:Hs; [| done].
      apply selected_policy_some in Hs as (i & _ & Hel & _).
      by rewrite Hnone in Hel. }
    destruct (socket_to_policies_lookup m ipv4 sel (sk_buff.cookie skb))
      as [e |]; [| exact Hscan].
    by rewrite (Hmiss e eq_refl).
Qed.

(** ** What the program does to the packet *)

Lemma store_length (d : list Byte.byte) (off b : Z) :
  length (bpf_skb_store_bytes d off b) = length d.
Proof.
  unfold bpf_skb_store_bytes. destruct (off <? 0); [done |].
  apply length_insert.
Qed.

Lemma store_lookup_ne (d : list Byte.byte) (off b : Z) (i : nat) :
  Z.of_nat i <> off -> bpf_skb_store_bytes d off b !! i = d !! i.
Proof.
  intros Hne. unfold bpf_skb_store_bytes.
  destruct (Z.ltb_spec off 0); [done |].
  apply list_lookup_insert_ne. lia.
Qed.

Lemma csum_length (d : list Byte.byte) (off from to : Z) :
  length (bpf_l3_csum_replace d off from to) = length d.
Proof.
  unfold bpf_l3_csum_replace. destruct (_ || _); [done |].
  by rewrite !store_length.
Qed.

Lemma csum_lookup_ne (d : list Byte.byte) (off from to : Z) (i : nat) :
  Z.of_nat i <> off -> Z.of_nat i <> off + 1 ->
  bpf_l3_csum_replace d off from to !! i = d !! i.
Proof.
  intros Hne Hne1. unfold bpf_l3_csum_replace. destruct (_ || _); [done |].
  by rewrite !store_lookup_ne.
Qed.

Lemma marks_only_refl (ipv4 : bool) (l2 : Z) (skb : sk_buff.t) :
  marks_only ipv4 l2 skb skb.
Proof. unfold marks_only. repeat split; done. Qed.

Lemma marks_only_set_data (ipv4 : bool) (l2 : Z) (skb : sk_buff.t)
    (d : list Byte.byte) :
  length d = length (sk_buff.data skb) ->
  (forall i : nat, ~ marking_offset ipv4 l2 (Z.of_nat i) ->
                   d !! i = sk_buff.data skb !! i) ->
  marks_only ipv4 l2 skb (set_data skb d).
Proof. intros Hlen Hd. unfold marks_only. cbn. repeat split; done. Qed.

(** The stores of the IPv4 branches: the checksum, then the TOS byte. *)
Lemma ipv4_stores_mark (l2 : Z) (skb : sk_buff.t) (from to tos : Z) :
  marks_only true l2 skb
    (set_data skb
       (bpf_skb_store_bytes
          (bpf_l3_csum_replace (sk_buff.data skb) (IP4_OFFSET_check l2)
                               from to)
          (IP4_OFFSET_tos l2) tos)).
Proof.
  apply marks_only_set_data.
  - by rewrite store_length, csum_length.
  - unfold marking_offset, IP4_OFFSET_tos, IP4_OFFSET_check. intros i Hi.
    rewrite store_lookup_ne, csum_lookup_ne; [done | lia ..].
Qed.

(** The stores of the IPv6 branches: the first and the second byte of
    the header. *)
Lemma ipv6_stores_mark (l2 o0 o1 : Z) (skb : sk_buff.t) (b0 b1 : Z) :
  o0 = l2 -> o1 = l2 + 1 ->
  marks_only false l2 skb
    (set_data skb
       (bpf_skb_store_bytes (bpf_skb_store_bytes (sk_buff.data skb) o0 b0)
                            o1 b1)).
Proof.
  intros -> ->. apply marks_only_set_data.
  - by rewrite !store_length.
  - unfold marking_offset. intros i Hi.
    rewrite !store_lookup_ne; [done | lia ..].
Qed.

Lemma apply_existing_rule_marks (existing_rule : RuleEntry.t)
    (skb : sk_buff.t) (ipv4 : bool) (l2 : Z) (p : pkt.t) :
  marks_only ipv4 l2 skb (apply_existing_rule existing_rule skb ipv4 l2 p).
Proof.
  unfold apply_existing_rule. destruct ipv4.
  - apply ipv4_stores_mark.
  - apply ipv6_stores_mark; lia.
Qed.

Lemma match_by_scan_marks (m : maps) (skb : sk_buff.t) (ipv4 : bool)
    (l2 selected_map cookie : Z) (p : pkt.t) :
  marks_only ipv4 l2 skb
             (snd (match_by_scan m skb ipv4 l2 selected_map cookie p)).
Proof.
  unfold match_by_scan.
  destruct (scan_policies m skb ipv4 p) as [best_score best_match].
  destruct (best_score >? 0); [| apply marks_only_refl].
  destruct ipv4; cbn [andb negb].
  - destruct (negb _); cbn [snd];
      [apply ipv4_stores_mark | apply marks_only_refl].
  - destruct (_ || _); cbn [snd];
      [apply ipv6_stores_mark; lia | apply marks_only_refl].
Qed.

Lemma match_policy_marks (m : maps) (skb : sk_buff.t) (ipv4 is_eth : bool) :
  marks_only ipv4 (l2_header_size is_eth) skb
             (snd (match_policy m skb ipv4 is_eth)).
Proof.
  destruct (extract skb ipv4 is_eth) as [p |] eqn:Hex.
  2: { rewrite match_policy_no_tuple by done. apply marks_only_refl. }
  destruct (array_lookup (switch_comp_map m) 0) as [selected_map |] eqn:Hsel.
  2: { unfold match_policy. rewrite Hsel.
       destruct (_ >? _); apply marks_only_refl. }
  destruct (Z.eq_dec (sk_buff.cookie skb) 0) as [Hc | Hc].
  { unfold match_policy. rewrite Hsel, Hc.
    destruct (_ >? _); apply marks_only_refl. }
  rewrite (match_policy_tuple m skb ipv4 is_eth selected_map p) by done.
  destruct (socket_to_policies_lookup _ _ _ _) as [existing_rule |];
    [| apply match_by_scan_marks].
  destruct (rule_matches_packet existing_rule skb p);
    [apply apply_existing_rule_marks | apply match_by_scan_marks].
Qed.

(** X19: the program never changes the length of the packet and writes
    no byte but the TOS byte and the checksum of an IPv4 header, or the
    first two bytes of an IPv6 header: addresses, ports, protocol and
    payload, and the other fields of the buffer, come back as they were. *)
Theorem match_policy_packet_frame (m : maps) (skb : sk_buff.t)
    (ipv4 is_eth : bool) :
  marks_only ipv4 (l2_header_size is_eth) skb
             (snd (match_policy m skb ipv4 is_eth)).
Proof. apply match_policy_marks. Qed.

(** A byte away from the marking offsets reads the same after the
    program as before. *)
Lemma byte_at_marks (ipv4 : bool) (l2 : Z) (skb skb' : sk_buff.t) (off : Z) :
  marks_only ipv4 l2 skb skb' ->
  ~ marking_offset ipv4 l2 off ->
  byte_at (sk_buff.data skb') off = byte_at (sk_buff.data skb) off.
Proof.
  intros (_ & _ & _ & _ & _ & _ & _ & Hbytes) Hoff. unfold byte_at.
  destruct (Z.ltb_spec off 0); [done |].
  rewrite (Hbytes (Z.to_nat off)); [done |].
  by rewrite Z2Nat.id by lia.
Qed.

(** The parse of an IPv4 packet reads the same tuple from the packet the
    program returns. *)
Lemma ipv4_tuple_after_marks (skb skb' : sk_buff.t) (is_eth : bool)
    (p : pkt.t) :
  marks_only true (l2_header_size is_eth) skb skb' ->
  extract skb true is_eth = Some p ->
  exists p', extract skb' true is_eth = Some p' /\ same_tuple p p'.
Proof.
  intros Hmarks Hex.
  assert (Hb : forall off,
             off <> l2_header_size is_eth + 1 ->
             off <> l2_header_size is_eth + 10 ->
             off <> l2_header_size is_eth + 11 ->
             byte_at (sk_buff.data skb') off = byte_at (sk_buff.data skb) off).
  { intros off H1 H10 H11. apply (byte_at_marks true _ _ _ _ Hmarks).
    unfold marking_offset. lia. }
  destruct Hmarks as (_ & _ & _ & _ & _ & _ & Hlen & _).
  unfold extract, parse_ip, parse_transport in Hex |- *.
  rewrite Hlen.
  unfold iph_version, iph_ihl, iph_protocol, iph_saddr, iph_daddr,
    l4_source, l4_dest, load32, load16 in Hex |- *.
  cbn [pkt.protocol pkt.hdr_size] in Hex |- *.
  unfold l2_header_size, sizeof_ethhdr, sizeof_iphdr in Hb, Hex |- *.
  destruct is_eth; rewrite !Hb by lia;
    repeat (cbn [pkt.protocol pkt.hdr_size] in Hex |- *;
            match type of Hex with
            | context [if ?b then _ else _] =>
                destruct b; try discriminate Hex
            end);
    injection Hex as <-; eexists; (split; [reflexivity |]);
    unfold same_tuple; cbn; repeat split; try done;
    by rewrite !Hb by lia.
Qed.

(** X20: marking an IPv4 packet leaves its flow tuple alone: the packet
    the program returns parses again, to the same addresses, ports and
    protocol. *)
Theorem ipv4_marking_keeps_tuple (m : maps) (skb : sk_buff.t)
    (is_eth : bool) (p : pkt.t) :
  extract skb true is_eth = Some p ->
  exists p',
    extract (snd (match_policy m skb true is_eth)) true is_eth = Some p'
    /\ same_tuple p p'.
Proof.
  intros Hex. apply (ipv4_tuple_after_marks skb); [| done].
  apply (match_policy_marks m skb true is_eth).
Qed.

(** ** A stored decision is found again *)

Lemma update_elem_ANY_lookup_eq (max_entries : nat)
    (cache : gmap Z RuleEntry.t) (k : Z) (v : RuleEntry.t) :
  is_Some (cache !! k) \/ (size cache < max_entries)%nat ->
  update_elem_ANY max_entries cache k v !! k = Some v.
Proof.
  unfold update_elem_ANY. intros [[e He] | Hroom].
  - rewrite He. apply lookup_insert_eq.
  - destruct (cache !! k); [apply lookup_insert_eq |].
    apply Nat.ltb_lt in Hroom. rewrite Hroom. apply lookup_insert_eq.
Qed.

Lemma rule_of_packet_matches (skb skb2 : sk_buff.t) (p p2 : pkt.t)
    (new_dscp : Z) :
  sk_buff.ifindex skb2 = sk_buff.ifindex skb ->
  same_tuple p p2 ->
  rule_matches_packet (rule_of_packet skb p new_dscp) skb2 p2 = true.
Proof.
  intros Hif (_ & Hs & Hd & Hpr & Hsp & Hdp).
  unfold rule_matches_packet, rule_of_packet. cbn.
  rewrite Hs, Hd, Hif, Hsp, Hdp, Hpr, !Z.eqb_refl, !andb_true_r.
  apply andb_true_iff. split; by apply v6_equal_eq.
Qed.

(** X21: a decision the scan has stored is found again: when the cache
    does not hold the packet's tuple, some rule is selected, and the
    selected cache holds an entry for the socket already or has room for
    one, then after the packet the cache holds the packet's tuple for its
    socket, and the next packet of that socket with the same tuple on the
    same interface is marked from the cache, the maps staying as they
    are. *)
Theorem stored_decision_is_hit (m : maps) (skb skb2 : sk_buff.t)
    (ipv4 is_eth : bool) (selected_map best_match : Z) (p p2 : pkt.t) :
  array_lookup (switch_comp_map m) 0 = Some selected_map ->
  sk_buff.cookie skb <> 0 ->
  extract skb ipv4 is_eth = Some p ->
  (forall e, socket_to_policies_lookup m ipv4 selected_map
                                       (sk_buff.cookie skb) = Some e ->
             rule_matches_packet e skb p = false) ->
  selected_policy m skb ipv4 p = Some best_match ->
  is_Some (selected_cache m ipv4 selected_map !! sk_buff.cookie skb)
  \/ (size (selected_cache m ipv4 selected_map) < MAX_POLICIES)%nat ->
  sk_buff.cookie skb2 = sk_buff.cookie skb ->
  sk_buff.ifindex skb2 = sk_buff.ifindex skb ->
  extract skb2 ipv4 is_eth = Some p2 ->
  same_tuple p p2 ->
  let m1 := fst (match_policy m skb ipv4 is_eth) in
  exists e,
    socket_to_policies_lookup m1 ipv4 selected_map (sk_buff.cookie skb)
    = Some e
    /\ same_flow e skb p
    /\ match_policy m1 skb2 ipv4 is_eth
       = (m1, apply_existing_rule e skb2 ipv4 (l2_header_size is_eth) p2).
Proof.
  intros Hsel Hcookie Hex Hmiss Hbest Hroom Hc2 Hif2 Hex2 Htuple m1.
  assert (Hm1 : exists new_dscp,
             m1 = socket_to_policies_update m ipv4 selected_map
                    (sk_buff.cookie skb) (rule_of_packet skb p new_dscp)).
  { subst m1.
    rewrite (match_policy_tuple m skb ipv4 is_eth selected_map p) by done.
    pose proof Hbest as Hs.
    apply selected_policy_some in Hs as (i & -> & Hel & _).
    unfold eligible in Hel. apply andb_true_iff in Hel as [_ Hel].
    destruct (dscp_policies_lookup m ipv4 (Z.of_nat i)) as [policy |] eqn:Hpol;
      [| done].
    exists (wrap 8 (DscpPolicy.dscp_val policy)).
    destruct (socket_to_policies_lookup _ _ _ _) as [e |] eqn:Hl.
    - rewrite (Hmiss e eq_refl).
      by apply (match_by_scan_selected _ _ _ _ _ _ _ (Z.of_nat i)).
    - by apply (match_by_scan_selected _ _ _ _ _ _ _ (Z.of_nat i)). }
  destruct Hm1 as [new_dscp Hm1].
  exists (rule_of_packet skb p new_dscp).
  assert (Hl1 : socket_to_policies_lookup m1 ipv4 selected_map
                  (sk_buff.cookie skb)
                = Some (rule_of_packet skb p new_dscp)).
  { rewrite selected_cache_lookup, Hm1, selected_cache_update.
    rewrite bool_decide_eq_true_2 by done.
    by apply update_elem_ANY_lookup_eq. }
  split; [exact Hl1 |]. split; [by repeat split |].
  assert (Hsw : array_lookup (switch_comp_map m1) 0 = Some selected_map).
  { rewrite Hm1. unfold socket_to_policies_update.
    by destruct ipv4, (selected_map =? MAP_A). }
  rewrite (match_policy_tuple m1 skb2 ipv4 is_eth selected_map p2);
    [| done | by rewrite Hc2 | done].
  rewrite Hc2, Hl1. by rewrite rule_of_packet_matches.
Qed.

(** ** The TOS byte after a decision *)

Lemma byte_val_of_Z (b : Z) : byte_val (byte_of_Z b) = wrap 8 b.
Proof.
  unfold byte_val, byte_of_Z.
  assert (Hr : 0 <= wrap 8 b < 256).
  { unfold wrap. change (2 ^ 8) with 256. apply Z.mod_pos_bound. lia. }
  destruct (Byte.of_N (Z.to_N (wrap 8 b))) as [x |] eqn:Hx.
  - apply Byte.to_of_N in Hx. rewrite Hx. lia.
  - apply Byte.of_N_None_iff in Hx. lia.
Qed.

Lemma store_byte_at (d : list Byte.byte) (off b : Z) :
  0 <= off < Z.of_nat (length d) ->
  byte_at (bpf_skb_store_bytes d off b) off = wrap 8 b.
Proof.
  intros Hoff. unfold byte_at, bpf_skb_store_bytes.
  destruct (Z.ltb_spec off 0); [lia |].
  rewrite list_lookup_insert_eq by lia. apply byte_val_of_Z.
Qed.

Lemma csum_byte_at (d : list Byte.byte) (off from to o : Z) :
  o <> off -> o <> off + 1 ->
  byte_at (bpf_l3_csum_replace d off from to) o = byte_at d o.
Proof.
  intros Hne Hne1. unfold byte_at. destruct (Z.ltb_spec o 0); [done |].
  rewrite csum_lookup_ne; [done | lia ..].
Qed.

Lemma wrap_idem (w x : Z) : wrap w (wrap w x) = wrap w x.
Proof.
  unfold wrap. destruct (Z.eq_dec (2 ^ w) 0) as [Hz | Hnz].
  - rewrite Hz. by rewrite !Z.mod_0_r.
  - by apply Z.mod_mod.
Qed.

(** The TOS byte after the stores of the IPv4 branches. *)
Lemma ipv4_stores_tos (d : list Byte.byte) (l2 from to tos : Z) :
  0 <= l2 -> l2 + 20 <= Z.of_nat (length d) ->
  byte_at (bpf_skb_store_bytes
             (bpf_l3_csum_replace d (IP4_OFFSET_check l2) from to)
             (IP4_OFFSET_tos l2) tos)
          (l2 + 1)
  = wrap 8 tos.
Proof.
  intros Hl2 Hfit. unfold IP4_OFFSET_tos.
  apply store_byte_at. rewrite csum_length. lia.
Qed.

(** What the parse of an IPv4 packet tells about its bytes. *)
Lemma extract_ipv4_tos (skb : sk_buff.t) (is_eth : bool) (p : pkt.t) :
  extract skb true is_eth = Some p ->
  l2_header_size is_eth + 20 <= Z.of_nat (length (sk_buff.data skb))
  /\ pkt.tos p = byte_at (sk_buff.data skb) (l2_header_size is_eth + 1).
Proof.
  unfold extract, parse_ip, parse_transport, sizeof_iphdr, iph_tos.
  destruct (_ >? _); [done |].
  destruct (Z.gtb_spec (l2_header_size is_eth + 20)
                       (Z.of_nat (length (sk_buff.data skb)))); [done |].
  destruct (negb _); [done |]. destruct (negb _); [done |].
  cbn [pkt.protocol pkt.hdr_size].
  destruct (_ || _).
  - destruct (_ >? _); [done |]. by intros [= <-].
  - destruct (_ =? _); [| done]. destruct (_ >? _); [done |].
    by intros [= <-].
Qed.

Lemma land_shiftl_2 (a b : Z) : Z.land (Z.shiftl a 2) (Z.land b 3) = 0.
Proof.
  apply Z.bits_inj'. intros n Hn. rewrite !Z.land_spec, Z.bits_0.
  destruct (Z.lt_ge_cases n 2).
  - by rewrite Z.shiftl_spec_low.
  - change 3 with (Z.ones 2). rewrite Z.ones_spec_high by lia.
    by rewrite !andb_false_r.
Qed.

Lemma UPDATE_TOS_val (dscp tos : Z) :
  UPDATE_TOS dscp tos = dscp * 4 + tos mod 4.
Proof.
  unfold UPDATE_TOS, ECN_MASK.
  pose proof (Z.add_lor_land (Z.shiftl dscp 2) (Z.land tos 3)) as Hadd.
  rewrite land_shiftl_2, Z.add_0_r in Hadd. rewrite Hadd.
  change 3 with (Z.ones 2). rewrite Z.land_ones by lia.
  rewrite Z.shiftl_mul_pow2 by lia. done.
Qed.

Lemma land_3_mod (x : Z) : Z.land x 3 = x mod 4.
Proof. change 3 with (Z.ones 2). by rewrite Z.land_ones by lia. Qed.

Lemma shiftr_2_div (x : Z) : Z.shiftr x 2 = x / 4.
Proof. by rewrite Z.shiftr_div_pow2 by lia. Qed.

(** The byte written for a DSCP value keeps the two ECN bits of the old
    TOS byte and carries the low six bits of the value above them. *)
Lemma UPDATE_TOS_bits (dscp tos : Z) :
  let new_tos := wrap 8 (UPDATE_TOS dscp tos) in
  Z.land new_tos 3 = Z.land tos 3 /\ Z.shiftr new_tos 2 = dscp mod 64.
Proof.
  cbn zeta. rewrite UPDATE_TOS_val, !land_3_mod, shiftr_2_div.
  unfold wrap. change (2 ^ 8) with 256.
  Z.div_mod_to_equations. lia.
Qed.

Lemma land_252_val (tos : Z) :
  0 <= tos < 256 -> Z.land tos 252 = tos - tos mod 4.
Proof.
  intros Hr.
  assert (Hdis : Z.land (Z.land tos 252) (Z.land tos 3) = 0).
  { apply Z.bits_inj'. intros n Hn. rewrite !Z.land_spec, Z.bits_0.
    pose proof (Z.land_spec 252 3 n) as Hc.
    change (Z.land 252 3) with 0 in Hc. rewrite Z.bits_0 in Hc.
    destruct (Z.testbit tos n), (Z.testbit 252 n), (Z.testbit 3 n); done. }
  pose proof (Z.add_lor_land (Z.land tos 252) (Z.land tos 3)) as Hadd.
  rewrite Hdis, Z.add_0_r, <- Z.land_lor_distr_r in Hadd.
  change (Z.lor 252 3) with (Z.ones 8) in Hadd.
  rewrite Z.land_ones, land_3_mod in Hadd by lia.
  change (2 ^ 8) with 256 in Hadd. rewrite Z.mod_small in Hadd by lia. lia.
Qed.

(** X22: the TOS byte of an IPv4 packet after a decision, from the cache
    or from the scan, keeps its two ECN bits and carries the low six bits
    of the decision's DSCP value above them. *)
Theorem tos_after_decision (m : maps) (skb : sk_buff.t) (is_eth : bool)
    (selected_map : Z) (p : pkt.t) :
  array_lookup (switch_comp_map m) 0 = Some selected_map ->
  sk_buff.cookie skb <> 0 ->
  extract skb true is_eth = Some p ->
  let tos' := byte_at (sk_buff.data (snd (match_policy m skb true is_eth)))
                      (l2_header_size is_eth + 1) in
  let cached := socket_to_policies_lookup m true selected_map
                                          (sk_buff.cookie skb) in
  (forall e, cached = Some e -> rule_matches_packet e skb p = true ->
             Z.land tos' 3 = Z.land (pkt.tos p) 3
             /\ Z.shiftr tos' 2 = RuleEntry.dscp_val e mod 64)
  /\ (forall best_match policy,
        (forall e, cached = Some e -> rule_matches_packet e skb p = false) ->
        selected_policy m skb true p = Some best_match ->
        dscp_policies_lookup m true best_match = Some policy ->
        Z.land tos' 3 = Z.land (pkt.tos p) 3
        /\ Z.shiftr tos' 2 = DscpPolicy.dscp_val policy mod 64).
Proof.
  intros Hsel Hcookie Hex tos' cached. subst tos' cached.
  destruct (extract_ipv4_tos skb is_eth p Hex) as [Hfit Htos].
  assert (Hl2 : 0 <= l2_header_size is_eth) by by destruct is_eth.
  rewrite (match_policy_tuple m skb true is_eth selected_map p) by done.
  split.
  - intros e -> Hhit. rewrite Hhit. unfold apply_existing_rule. cbn [snd].
    unfold set_data. cbn [sk_buff.data].
    rewrite ipv4_stores_tos by done.
    rewrite wrap_idem. apply UPDATE_TOS_bits.
  - intros best_match policy Hmiss Hbest Hpol.
    set (rest := match_by_scan m skb true (l2_header_size is_eth)
                               selected_map (sk_buff.cookie skb) p).
    assert (Hgoal :
      Z.land (byte_at (sk_buff.data (snd rest)) (l2_header_size is_eth + 1)) 3
      = Z.land (pkt.tos p) 3
      /\ Z.shiftr (byte_at (sk_buff.data (snd rest))
                           (l2_header_size is_eth + 1)) 2
         = DscpPolicy.dscp_val policy mod 64).
    { subst rest. unfold match_by_scan.
      unfold selected_policy in Hbest.
      destruct (scan_policies m skb true p) as [best_score bm].
      destruct (best_score >? 0); [| done]. injection Hbest as ->.
      rewrite Hpol. cbn [andb negb].
      set (new_tos := wrap 8 (UPDATE_TOS (wrap 8 (DscpPolicy.dscp_val policy))
                                         (pkt.tos p))).
      destruct (UPDATE_TOS_bits (wrap 8 (DscpPolicy.dscp_val policy))
                                (pkt.tos p)) as [Hecn Hdscp].
      fold new_tos in Hecn, Hdscp.
      assert (Hd64 : wrap 8 (DscpPolicy.dscp_val policy) mod 64
                     = DscpPolicy.dscp_val policy mod 64).
      { unfold wrap. change (2 ^ 8) with 256.
        Z.div_mod_to_equations. lia. }
      rewrite Hd64 in Hdscp.
      destruct (Z.eqb_spec new_tos (Z.land (pkt.tos p) 252)) as [Heq | Hne];
        cbn [negb snd].
      - rewrite <- Htos.
        pose proof (byte_at_range (sk_buff.data skb)
                                  (l2_header_size is_eth + 1)) as Hr.
        rewrite <- Htos in Hr.
        rewrite land_252_val in Heq by done.
        rewrite !land_3_mod in Hecn. rewrite Heq in Hecn.
        assert (Hz : pkt.tos p mod 4 = 0)
          by (Z.div_mod_to_equations; lia).
        assert (Hsame : new_tos = pkt.tos p) by lia.
        split; [done |]. by rewrite <- Hsame.
      - unfold set_data. cbn [sk_buff.data].
        rewrite ipv4_stores_tos by done.
        assert (Hw : wrap 8 new_tos = new_tos)
          by (subst new_tos; apply wrap_idem).
        rewrite Hw. done. }
    destruct (socket_to_policies_lookup m true selected_map
                                        (sk_buff.cookie skb)) as [e |] eqn:Hl;
      [rewrite (Hmiss e eq_refl) |]; exact Hgoal.
Qed.

(** ** The first two bytes of an IPv6 header after a cache hit *)

Lemma store_byte_at_ne (d : list Byte.byte) (off b o : Z) :
  o <> off -> byte_at (bpf_skb_store_bytes d off b) o = byte_at d o.
Proof.
  intros Hne. unfold byte_at. destruct (Z.ltb_spec o 0); [done |].
  rewrite store_lookup_ne; [done | lia].
Qed.

(** What the parse of an IPv6 packet tells about its bytes. *)
Lemma extract_ipv6_flow (skb : sk_buff.t) (is_eth : bool) (p : pkt.t) :
  extract skb false is_eth = Some p ->
  l2_header_size is_eth + 40 <= Z.of_nat (length (sk_buff.data skb))
  /\ pkt.flow_lbl p = byte_at (sk_buff.data skb) (l2_header_size is_eth + 1).
Proof.
  unfold extract, parse_ip, parse_transport, sizeof_ipv6hdr, ip6h_flow_lbl_0.
  destruct (_ >? _); [done |].
  destruct (Z.gtb_spec (l2_header_size is_eth + 40)
                       (Z.of_nat (length (sk_buff.data skb)))); [done |].
  destruct (negb _); [done |].
  cbn [pkt.protocol pkt.hdr_size].
  destruct (_ || _).
  - destruct (_ >? _); [done |]. by intros [= <-].
  - destruct (_ =? _); [| done]. destruct (_ >? _); [done |].
    by intros [= <-].
Qed.

(** X23: after a cache hit on an IPv6 packet whose cached DSCP value is
    below 64, the header still carries version 6, its priority nibble is
    the high four bits of the value, and the top two bits of the next byte
    are its low two bits. *)
Theorem ipv6_mark_after_hit (m : maps) (skb : sk_buff.t) (is_eth : bool)
    (selected_map : Z) (p : pkt.t) (e : RuleEntry.t) :
  array_lookup (switch_comp_map m) 0 = Some selected_map ->
  sk_buff.cookie skb <> 0 ->
  extract skb false is_eth = Some p ->
  socket_to_policies_lookup m false selected_map (sk_buff.cookie skb) = Some e ->
  rule_matches_packet e skb p = true ->
  0 <= RuleEntry.dscp_val e < 64 ->
  let d' := sk_buff.data (snd (match_policy m skb false is_eth)) in
  let ip6h := l2_header_size is_eth in
  ip6h_version d' ip6h = 6
  /\ ip6h_priority d' ip6h = RuleEntry.dscp_val e / 4
  /\ Z.shiftr (ip6h_flow_lbl_0 d' ip6h) 6 = RuleEntry.dscp_val e mod 4.
Proof.
  intros Hsel Hcookie Hex Hl Hhit Hd d' ip6h. subst d' ip6h.
  destruct (extract_ipv6_flow skb is_eth p Hex) as [Hfit Hfl].
  assert (Hl2 : 0 <= l2_header_size is_eth) by by destruct is_eth.
  rewrite (match_policy_tuple m skb false is_eth selected_map p) by done.
  rewrite Hl, Hhit. unfold apply_existing_rule. cbn [snd].
  unfold set_data. cbn [sk_buff.data].
  unfold ip6h_version, ip6h_priority, ip6h_flow_lbl_0.
  rewrite store_byte_at_ne by lia.
  replace (1 + l2_header_size is_eth) with (l2_header_size is_eth + 1) by lia.
  replace (0 + l2_header_size is_eth) with (l2_header_size is_eth) by lia.
  rewrite !store_byte_at by (rewrite ?store_length; lia).
  rewrite !wrap_idem.
  pose proof (byte_at_range (sk_buff.data skb) (l2_header_size is_eth + 1))
    as Hr.
  rewrite <- Hfl in Hr.
  unfold UPDATE_PRIORITY, UPDATE_FLOW_LABEL, wrap.
  change 15 with (Z.ones 4).
  rewrite !Z.land_ones, !Z.shiftr_div_pow2, Z.shiftl_mul_pow2 by lia.
  change (2 ^ 8) with 256. change (2 ^ 6) with 64. change (2 ^ 4) with 16.
  change (2 ^ 2) with 4.
  repeat split; Z.div_mod_to_equations; lia.
Qed.

End Frames.

(** ** The properties above on concrete packets *)

Section FrameExamples.
#[local] Existing Instance example_consts.

(** Another host's frame and an ARP frame come back as they were. *)
Lemma schedcls_set_dscp_ether_pipe_witness :
  snd (schedcls_set_dscp_ether (mk_maps ∅) other_host_frame)
  = (mk_maps ∅, other_host_frame)
  /\ snd (schedcls_set_dscp_ether (mk_maps ∅) arp_frame)
     = (mk_maps ∅, arp_frame).
Proof.
  destruct (schedcls_set_dscp_ether_pipe (mk_maps ∅) other_host_frame)
    as (_ & Hhost & _).
  destruct (schedcls_set_dscp_ether_pipe (mk_maps ∅) arp_frame)
    as (_ & _ & Hproto).
  split.
  - apply Hhost. vm_compute. discriminate.
  - apply Hproto; vm_compute; discriminate.
Defined.

(** The packet of socket 77 leaves the cached decision of socket 5 and
    the unselected cache alone. *)
Lemma match_policy_maps_frame_witness :
  selected_cache
    (fst (match_policy (mk_maps {[ 5 := stale_rule ]}) udp_frame true true))
    true 1 !! 5 = Some stale_rule
  /\ selected_cache
       (fst (match_policy (mk_maps {[ 5 := stale_rule ]}) udp_frame true true))
       true 0 = ∅.
Proof.
  destruct (match_policy_maps_frame (mk_maps {[ 5 := stale_rule ]})
                                    udp_frame true true)
    as (_ & _ & _ & _ & Hother & Hcookie).
  split.
  - rewrite Hcookie; [reflexivity | vm_compute; discriminate].
  - rewrite (Hother 1 0); [reflexivity | reflexivity |].
    vm_compute. discriminate.
Defined.

(** The empty caches are within capacity, and so are the caches after the
    first packet. *)
Lemma match_policy_cache_capacity_witness :
  cache_sizes_ok (mk_maps ∅)
  /\ cache_sizes_ok (fst (match_policy (mk_maps ∅) udp_frame true true)).
Proof.
  assert (Hok : cache_sizes_ok (mk_maps ∅)).
  { intros ipv4 selected_map. unfold selected_cache.
    destruct ipv4, (selected_map =? MAP_A); vm_compute; lia. }
  split; [exact Hok |].
  apply match_policy_cache_capacity. exact Hok.
Defined.

(** A packet without a socket comes back as it was, and so does an IPv6
    packet while the IPv6 rule table is empty, the stale entry that the
    cache holds for its socket being left where it is. *)
Lemma match_policy_nothing_to_apply_witness :
  match_policy (mk_maps ∅) no_socket_frame true true
  = (mk_maps ∅, no_socket_frame)
  /\ match_policy (mk_maps6 {[ 77 := fresh_rule ]}) udp6_frame false true
     = (mk_maps6 {[ 77 := fresh_rule ]}, udp6_frame).
Proof.
  destruct (match_policy_nothing_to_apply (mk_maps ∅) no_socket_frame
                                          true true) as (Hcookie & _ & _).
  destruct (match_policy_nothing_to_apply (mk_maps6 {[ 77 := fresh_rule ]})
                                          udp6_frame false true)
    as (_ & _ & Hnone).
  split.
  - apply Hcookie. reflexivity.
  - apply (Hnone 1 udp6_pkt); [reflexivity | reflexivity | |].
    + intros e He. vm_compute in He. injection He as <-. reflexivity.
    + intros j. unfold eligible.
      replace (dscp_policies_lookup (mk_maps6 {[ 77 := fresh_rule ]}) false
                                    (Z.of_nat j))
        with (@None DscpPolicy.t).
      * apply andb_false_r.
      * unfold dscp_policies_lookup, array_lookup. cbn.
        destruct (Z.of_nat j <? 0); [done |]. by destruct (Z.to_nat _).
Defined.

(** The marked UDP frame parses again to the same tuple. *)
Lemma ipv4_marking_keeps_tuple_witness :
  exists p',
    extract (snd (match_policy (mk_maps ∅) udp_frame true true)) true true
    = Some p'
    /\ same_tuple udp_pkt p'.
Proof.
  apply (ipv4_marking_keeps_tuple (mk_maps ∅) udp_frame true udp_pkt).
  reflexivity.
Defined.

(** The first packet of socket 77 is matched by the scan; the second is
    marked from the cache. *)
Lemma stored_decision_is_hit_witness :
  let m1 := fst (match_policy (mk_maps ∅) udp_frame true true) in
  exists e,
    socket_to_policies_lookup m1 true 1 77 = Some e
    /\ same_flow e udp_frame udp_pkt
    /\ match_policy m1 udp_frame true true
       = (m1, apply_existing_rule e udp_frame true (l2_header_size true)
                                  udp_pkt).
Proof.
  apply (stored_decision_is_hit (mk_maps ∅) udp_frame udp_frame true true
                                1 1 udp_pkt udp_pkt).
  - reflexivity.
  - vm_compute. discriminate.
  - reflexivity.
  - intros e He. vm_compute in He. discriminate He.
  - reflexivity.
  - right. vm_compute. lia.
  - reflexivity.
  - reflexivity.
  - reflexivity.
  - repeat split.
Defined.

(** The cached decision writes DSCP 46 into the TOS byte, the scan's
    decision for rule 1 writes DSCP 20. *)
Lemma tos_after_decision_witness :
  Z.shiftr
    (byte_at (sk_buff.data
                (snd (match_policy (mk_maps {[ 77 := fresh_rule ]})
                                   udp_frame true true))) 15) 2 = 46
  /\ Z.shiftr
       (byte_at (sk_buff.data
                   (snd (match_policy (mk_maps ∅) udp_frame true true))) 15)
       2 = 20.
Proof.
  destruct (tos_after_decision (mk_maps {[ 77 := fresh_rule ]}) udp_frame
                               true 1 udp_pkt) as [Hhit _];
    [reflexivity | vm_compute; discriminate | reflexivity |].
  destruct (tos_after_decision (mk_maps ∅) udp_frame true 1 udp_pkt)
    as [_ Hscan];
    [reflexivity | vm_compute; discriminate | reflexivity |].
  split.
  - apply (Hhit fresh_rule); reflexivity.
  - apply (Hscan 1 (mk_policy 16 (htons 80) 20)); [| reflexivity ..].
    intros e He. vm_compute in He. discriminate He.
Defined.

(** The cached decision for the IPv6 flow writes DSCP 46: priority 11 and
    the two bits 10 on top of the next byte. *)
Lemma ipv6_mark_after_hit_witness :
  let d' := sk_buff.data
              (snd (match_policy (mk_maps6 {[ 77 := fresh_rule6 ]})
                                 udp6_frame false true)) in
  ip6h_version d' 14 = 6
  /\ ip6h_priority d' 14 = 11
  /\ Z.shiftr (ip6h_flow_lbl_0 d' 14) 6 = 2.
Proof.
  apply (ipv6_mark_after_hit (mk_maps6 {[ 77 := fresh_rule6 ]}) udp6_frame
                             true 1 udp6_pkt fresh_rule6).
  - reflexivity.
  - vm_compute. discriminate.
  - reflexivity.
  - reflexivity.
  - reflexivity.
  - cbn. lia.
Defined.

End FrameExamples.

End DscpExtras.
